(** * Fitness tracker: the storage layer of [main.py]

    A shallow embedding of class [FitnessTracker] (src/main.py): the table
    [fitness_log], the statement each method sends to SQLite, and what the
    method hands back to its Python caller.

    The methods are thin wrappers around one SQL statement each, so the
    embedding has two layers:
    - the engine layer gives the meaning of the SQL text that appears in the
      source (INSERT OR REPLACE, ORDER BY, LIMIT, the [date('now', ...)]
      function, the aggregates COUNT, SUM and AVG, CURRENT_TIMESTAMP) and of
      the parameter binding done by Python's [sqlite3] module;
    - the method layer follows the Python code line by line: connect,
      execute, commit, [try]/[except sqlite3.Error], [print], [x or 0].

    Values are kept as the code has them: stored dates and notes are TEXT,
    byte strings in UTF-8 compared bytewise; a Python [str] is given by
    these bytes, or has none when it holds a lone surrogate; REAL cells
    are IEEE binary64 numbers (Rocq's primitive floats), INTEGER cells are
    signed 64-bit integers, Python [int]s are unbounded.  The engine is
    taken as the program finds it: no statistics gathered by ANALYZE, so
    that the planner takes the index of the UNIQUE column for the range
    on [date], and sums of doubles added one by one. *)

From Stdlib Require Import ZArith List String Ascii Bool Lia.
From Stdlib Require Import Sorted Permutation.
From Stdlib Require Import PrimFloat SpecFloat FloatOps.
Import ListNotations.

Open Scope string_scope.
Open Scope Z_scope.

(** ** What a Python call can do: return a value or raise *)

(** The exception classes that matter to the source: [sqlite3.Error]
    (with all its subclasses: OperationalError, IntegrityError, ...), which
    [add_entry] catches, and three built-in ones that it does not catch:
    [OverflowError], which the [sqlite3] module raises while binding a
    Python [int] that does not fit SQLite's 64-bit INTEGER;
    [UnicodeEncodeError], which it raises while binding a [str] that has no
    UTF-8 encoding; and [ValueError], which Python raises when it is asked
    for the decimal text of an [int] of more than 4300 digits. *)
Inductive exn : Type :=
| SqliteError (msg : string)
| OverflowError (msg : string)
| UnicodeEncodeError
| ValueError (msg : string).

Inductive outcome (A : Type) : Type :=
| Returns (a : A)
| Raises (e : exn).

Arguments Returns {A} a.
Arguments Raises {A} e.

Definition bind {A B : Type} (m : outcome A) (k : A -> outcome B) : outcome B :=
  match m with
  | Returns a => k a
  | Raises e => Raises e
  end.

Notation "x <- m ;; k" := (bind m (fun x => k))
  (at level 61, m at next level, right associativity).

(** ** The engine's calendar *)

Module Calendar.

(** SQLite keeps a moment as [iJD]: milliseconds since noon of
    -4713-11-24 (Julian day 0), and accepts it up to the last millisecond
    of 9999-12-31. *)
Definition ms_per_day : Z := 86400000.
Definition max_jd : Z := 464269060799999.

Definition validJulianDay (iJD : Z) : bool :=
  (0 <=? iJD) && (iJD <=? max_jd).

(** Year, month and day of a moment.  The engine works on C [int]s and
    truncates its intermediate quotients towards zero, hence [Z.quot];
    its constants 1867216.25, 36524.25, 122.1, 365.25 and 30.6001 are
    cleared of their decimals. *)
Definition computeYMD (iJD : Z) : Z * Z * Z :=
  let Zd := Z.quot (iJD + 43200000) ms_per_day in
  let A0 := Z.quot (100 * Zd - 186721625) 3652425 in
  let A := Zd + 1 + A0 - Z.quot A0 4 in
  let B := A + 1524 in
  let C := Z.quot (20 * B - 2442) 7305 in
  let D := Z.quot (36525 * Z.land C 32767) 100 in
  let E := Z.quot ((B - D) * 10000) 306001 in
  let X1 := Z.quot (306001 * E) 10000 in
  let day := B - D - X1 in
  let month := if E <? 14 then E - 1 else E - 13 in
  let year := if 2 <? month then C - 4716 else C - 4715 in
  (year, month, day).

(** Hour, minute and whole second of a moment. *)
Definition computeHMS (iJD : Z) : Z * Z * Z :=
  let s := Z.quot (Z.rem (iJD + 43200000) ms_per_day) 1000 in
  let h := Z.quot s 3600 in
  let s1 := s - h * 3600 in
  let m := Z.quot s1 60 in
  (h, m, s1 - m * 60).

Definition digit (n : Z) : string :=
  String (ascii_of_N (48 + Z.to_N (Z.rem n 10))) EmptyString.

Definition two_digits (n : Z) : string :=
  digit (Z.quot n 10) ++ digit n.

Definition four_digits (n : Z) : string :=
  digit (Z.quot n 1000) ++ digit (Z.quot n 100) ++ digit (Z.quot n 10) ++ digit n.

(** The text of a date, [YYYY-MM-DD], with a leading minus sign for the
    years before year 0. *)
Definition date_text (iJD : Z) : string :=
  let '(y, m, d) := computeYMD iJD in
  (if y <? 0 then "-" else "")
    ++ four_digits (Z.abs y) ++ "-" ++ two_digits m ++ "-" ++ two_digits d.

Definition time_text (iJD : Z) : string :=
  let '(h, m, s) := computeHMS iJD in
  two_digits h ++ ":" ++ two_digits m ++ ":" ++ two_digits s.

(** [CURRENT_TIMESTAMP]: the moment of the statement as
    [YYYY-MM-DD HH:MM:SS]. *)
Definition current_timestamp (now : Z) : string :=
  date_text now ++ " " ++ time_text now.

(** The largest day count the modifier [NNN days] accepts. *)
Definition day_limit : Z := 5373485.

(** [date('now', '-{} days'.format(days))].  Python writes [days] in
    decimal after the minus sign; for a negative [days] the text reads
    [--5 days], which is no modifier, and the function yields NULL
    ([None] here).  It also yields NULL when the count reaches the limit
    or the shifted moment leaves the calendar. *)
Definition date_now_minus_days (now days : Z) : option string :=
  if days <? 0 then None
  else if day_limit <=? days then None
  else if negb (validJulianDay now) then None
  else
    let shifted := now - days * ms_per_day in
    if validJulianDay shifted then Some (date_text shifted) else None.

End Calendar.

(** ** The table [fitness_log] *)

(** One row, with the columns of the CREATE TABLE statement of
    [init_database].  [ran] is declared BOOLEAN and filled from a Python
    [bool]: the cell holds 1 or 0, kept here as [true] or [false].  The
    optional columns hold [None] for NULL. *)
Record row : Type := mkRow {
  id : Z;
  date : string;
  weight : float;
  ran : bool;
  distance : option float;
  duration : option Z;
  notes : option string;
  created_at : string
}.

(** A column of the schema, as CREATE TABLE declares it. *)
Inductive default_value : Type :=
| NoDefault
| DefaultInt (z : Z)
| DefaultCurrentTimestamp.

Record column : Type := mkColumn {
  col_name : string;
  col_type : string;
  col_primary_key_autoincrement : bool;
  col_not_null : bool;
  col_unique : bool;
  col_default : default_value
}.

(** The CREATE TABLE statement of [init_database], column by column. *)
Definition fitness_log_columns : list column :=
  [ mkColumn "id" "INTEGER" true false false NoDefault;
    mkColumn "date" "TEXT" false true true NoDefault;
    mkColumn "weight" "REAL" false true false NoDefault;
    mkColumn "ran" "BOOLEAN" false true false (DefaultInt 0);
    mkColumn "distance" "REAL" false false false NoDefault;
    mkColumn "duration" "INTEGER" false false false NoDefault;
    mkColumn "notes" "TEXT" false false false NoDefault;
    mkColumn "created_at" "TIMESTAMP" false false false DefaultCurrentTimestamp ].

(** A table: its schema, its rows in rowid order, and the AUTOINCREMENT
    counter ([sqlite_sequence]: the largest rowid ever handed out). *)
Record table : Type := mkTable {
  columns : list column;
  rows : list row;
  seq : Z
}.

(** The database file: the table is there or not. *)
Record database : Type := mkDatabase {
  fitness_log : option table
}.

Definition empty_database : database := mkDatabase None.

(** What surrounds one call: the engine's clock at the moment of the
    statement (as [iJD], see [Calendar]) and whether the storage fails,
    that is, whether [sqlite3.connect] cannot open the database file,
    with the message of the [sqlite3.Error] it raises then.  (A file that
    opens and then fails under the statement is not modelled.) *)
Record env : Type := mkEnv {
  now : Z;
  fault : option string
}.

Definition healthy (e : env) : Prop := fault e = None.

(** ** Binding Python values to statement parameters *)

Definition min_int64 : Z := - 2 ^ 63.
Definition max_int64 : Z := 2 ^ 63 - 1.

Definition fits_int64 (z : Z) : bool := (min_int64 <=? z) && (z <=? max_int64).

Definition overflow_message : string :=
  "Python int too large to convert to SQLite INTEGER".

(** A Python [int] becomes a 64-bit INTEGER or the binding raises. *)
Definition bind_int (z : Z) : outcome Z :=
  if fits_int64 z then Returns z else Raises (OverflowError overflow_message).

Definition bind_optional_int (z : option Z) : outcome (option Z) :=
  match z with
  | None => Returns None
  | Some v => v' <- bind_int v ;; Returns (Some v')
  end.

(** A Python [str]: it is given by its UTF-8 encoding, the bytes that the
    engine keeps as TEXT, when it has one.  A [str] that holds a lone
    surrogate (a code point from U+D800 to U+DFFF) has none.  (A text
    beyond the engine's limit of 1,000,000,000 bytes is not modelled.) *)
Inductive pystr : Type :=
| Str (utf8 : string)
| Unencodable.

(** A Python [str] becomes a TEXT or the binding raises. *)
Definition bind_str (s : pystr) : outcome string :=
  match s with
  | Str utf8 => Returns utf8
  | Unencodable => Raises UnicodeEncodeError
  end.

Definition bind_optional_str (s : option pystr) : outcome (option string) :=
  match s with
  | None => Returns None
  | Some v => v' <- bind_str v ;; Returns (Some v')
  end.

(** A REAL cell that comes back from a column declared REAL: the record
    format keeps a double without a fractional part as an integer, so a
    zero loses its sign; every other double comes back as it went in. *)
Definition as_stored (f : float) : float :=
  if PrimFloat.eqb f 0%float then 0%float else f.

(** A Python [float] becomes a REAL; the engine turns a NaN into NULL. *)
Definition bind_float (f : float) : option float :=
  if PrimFloat.is_nan f then None else Some (as_stored f).

Definition bind_optional_float (f : option float) : option float :=
  match f with
  | None => None
  | Some v => bind_float v
  end.

(** ** The statements *)

Module Sql.

(** TEXT values compare bytewise (the BINARY collation). *)
Definition text_le (a b : string) : bool := String.leb a b.
Definition text_ge (a b : string) : bool := String.leb b a.

(** *** CREATE TABLE IF NOT EXISTS fitness_log (...) *)
Definition create_table_if_not_exists (db : database) : database :=
  match fitness_log db with
  | Some _ => db
  | None => mkDatabase (Some (mkTable fitness_log_columns [] 0))
  end.

(** *** INSERT OR REPLACE INTO fitness_log (date, weight, ran, distance,
    duration, notes) VALUES (?, ?, ?, ?, ?, ?) *)

Definition max_rowid (rs : list row) : Z :=
  fold_right (fun r m => Z.max (id r) m) 0 rs.

(** The rowid of an AUTOINCREMENT table: one more than the largest ever
    used; none is left after the largest 64-bit integer. *)
Definition new_rowid (t : table) : outcome Z :=
  let largest := Z.max (seq t) (max_rowid (rows t)) in
  if max_int64 <=? largest
  then Raises (SqliteError "database or disk is full")
  else Returns (largest + 1).

Definition other_date (d : string) (r : row) : bool := negb (String.eqb (date r) d).
Definition same_date (d : string) (r : row) : bool := String.eqb (date r) d.

(** The bound parameters, after [bind_float] and [bind_int]. *)
Record insert_values : Type := mkValues {
  v_date : string;
  v_weight : option float;
  v_ran : bool;
  v_distance : option float;
  v_duration : option Z;
  v_notes : option string
}.

(** [weight] is NOT NULL without a default: a NULL there aborts the
    statement.  Otherwise the rows that hold the same [date] (the UNIQUE
    column) are deleted and the new row is appended under a fresh rowid;
    [created_at] is not among the listed columns and takes its default,
    CURRENT_TIMESTAMP. *)
Definition insert_or_replace (clock : Z) (t : table) (v : insert_values)
  : outcome table :=
  rowid <- new_rowid t ;;
  match v_weight v with
  | None => Raises (SqliteError "NOT NULL constraint failed: fitness_log.weight")
  | Some w =>
      let r := mkRow rowid (v_date v) w (v_ran v) (v_distance v)
                     (v_duration v) (v_notes v)
                     (Calendar.current_timestamp clock) in
      Returns (mkTable (columns t)
                       (filter (other_date (v_date v)) (rows t) ++ [r])
                       rowid)
  end.

(** *** ORDER BY date ASC / DESC *)

Fixpoint insert_sorted (le : row -> row -> bool) (r : row) (rs : list row)
  : list row :=
  match rs with
  | [] => [r]
  | x :: rest => if le r x then r :: x :: rest
                 else x :: insert_sorted le r rest
  end.

Definition order_by (le : row -> row -> bool) (rs : list row) : list row :=
  fold_right (insert_sorted le) [] rs.

Definition date_asc (a b : row) : bool := text_le (date a) (date b).
Definition date_desc (a b : row) : bool := text_ge (date a) (date b).

(** *** LIMIT ? : a negative limit means no limit. *)
Definition limit {A : Type} (n : Z) (l : list A) : list A :=
  if n <? 0 then l else firstn (Z.to_nat n) l.

(** *** WHERE date >= date('now', '-N days') : a comparison with NULL
    is not true, so no row passes when the date function yields NULL. *)
Definition date_ge_cutoff (cutoff : option string) (r : row) : bool :=
  match cutoff with
  | None => false
  | Some c => text_ge (date r) c
  end.

Definition where_recent (clock days : Z) (rs : list row) : list row :=
  filter (date_ge_cutoff (Calendar.date_now_minus_days clock days)) rs.

(** The same rows as a search of the index on [date] meets them. *)
Definition index_scan (clock days : Z) (rs : list row) : list row :=
  order_by date_asc (where_recent clock days rs).

End Sql.

(** ** The aggregates of [get_running_stats] *)

Module Aggregate.

(** A cell of a result row. *)
Inductive value : Type :=
| Null
| Integer (z : Z)
| Real (f : float).

(** A 64-bit integer as a double, rounded to nearest even. *)
Definition Z2float (z : Z) : float :=
  SF2Prim (binary_normalize 53 1024 z 0 false).

(** The engine hands a double back as a REAL, a NaN as NULL. *)
Definition result_double (f : float) : value :=
  if PrimFloat.is_nan f then Null else Real f.

(** The aggregates skip NULL arguments. *)
Fixpoint non_null {A : Type} (l : list (option A)) : list A :=
  match l with
  | [] => []
  | None :: rest => non_null rest
  | Some a :: rest => a :: non_null rest
  end.

(** The running sum of doubles, from 0.0, in the order in which the scan
    meets the rows. *)
Definition float_sum (l : list float) : float :=
  fold_left PrimFloat.add l 0%float.

Definition length_Z {A : Type} (l : list A) : Z := Z.of_nat (List.length l).

(** COUNT( * ) *)
Definition count_star {A : Type} (l : list A) : value := Integer (length_Z l).

(** SUM over integer arguments: NULL when no argument is non-NULL. *)
Definition sum_integer (l : list (option Z)) : value :=
  match non_null l with
  | [] => Null
  | vs => Integer (fold_left Z.add vs 0)
  end.

(** SUM over REAL arguments. *)
Definition sum_real (l : list (option float)) : value :=
  match non_null l with
  | [] => Null
  | vs => result_double (float_sum vs)
  end.

(** AVG: the running sum of the non-NULL arguments, as a double, over
    their count. *)
Definition avg_real (l : list (option float)) : value :=
  match non_null l with
  | [] => Null
  | vs => result_double (float_sum vs / Z2float (length_Z vs))
  end.

Definition avg_integer (l : list (option Z)) : value :=
  match non_null l with
  | [] => Null
  | vs => result_double (float_sum (map Z2float vs) / Z2float (length_Z vs))
  end.

End Aggregate.

(** ** Python numbers and [x or 0] *)

Inductive pynum : Type :=
| PyInt (z : Z)
| PyFloat (f : float).

(** [result[i] or 0]: [None], the integer 0 and the floats 0.0 and -0.0 are
    falsy and give the integer 0; anything else is kept. *)
Definition or_zero (v : Aggregate.value) : pynum :=
  match v with
  | Aggregate.Null => PyInt 0
  | Aggregate.Integer z => if z =? 0 then PyInt 0 else PyInt z
  | Aggregate.Real f => if PrimFloat.eqb f 0%float then PyInt 0 else PyFloat f
  end.

(** Python's [float(x)], [a * b] and [a == b] on these numbers.  A count
    or a sum of this program is far below 2^53, where the conversion of an
    [int] is exact. *)
Definition py_float (a : pynum) : float :=
  match a with
  | PyInt z => Aggregate.Z2float z
  | PyFloat f => f
  end.

Definition py_mul (a b : pynum) : pynum :=
  match a, b with
  | PyInt x, PyInt y => PyInt (x * y)
  | _, _ => PyFloat (py_float a * py_float b)
  end.

Definition py_eq (a b : pynum) : bool :=
  match a, b with
  | PyInt x, PyInt y => x =? y
  | _, _ => PrimFloat.eqb (py_float a) (py_float b)
  end.

(** ** The methods of [FitnessTracker] *)

(** [sqlite3.connect(self.db_path)] and the preparation of a statement on
    [fitness_log]: both raise [sqlite3.Error], the first when the storage
    fails, the second when the table is missing. *)
Definition connect (e : env) : outcome unit :=
  match fault e with
  | Some msg => Raises (SqliteError msg)
  | None => Returns tt
  end.

Definition prepare (db : database) : outcome table :=
  match fitness_log db with
  | Some t => Returns t
  | None => Raises (SqliteError "no such table: fitness_log")
  end.

(** [init_database]: CREATE TABLE IF NOT EXISTS; nothing is caught. *)
Definition init_database (e : env) (db : database) : database * outcome unit :=
  match connect e with
  | Returns _ => (Sql.create_table_if_not_exists db, Returns tt)
  | Raises ex => (db, Raises ex)
  end.

(** The [try] block of [add_entry]: connect, execute (prepare, bind the six
    parameters from left to right, run), commit.  Of the six, the date and
    the notes can fail to encode and the duration can fail to fit; a
    [float] and a [bool] always bind. *)
Definition add_entry_try (e : env) (db : database)
    (d : pystr) (w : float) (r : bool) (dist : option float)
    (dur : option Z) (n : option pystr) : outcome database :=
  _ <- connect e ;;
  t <- prepare db ;;
  d' <- bind_str d ;;
  dur' <- bind_optional_int dur ;;
  n' <- bind_optional_str n ;;
  t' <- Sql.insert_or_replace (now e) t
          (Sql.mkValues d' (bind_float w) r (bind_optional_float dist) dur' n') ;;
  Returns (mkDatabase (Some t')).

(** [add_entry]: the database after the call, the lines printed, and the
    result.  [except sqlite3.Error] turns a database error into a printed
    line and [False]; the transaction of a failed call is not committed.
    Any other exception leaves the method. *)
Definition add_entry (e : env) (db : database)
    (d : pystr) (w : float) (r : bool) (dist : option float)
    (dur : option Z) (n : option pystr)
    : database * list string * outcome bool :=
  match add_entry_try e db d w r dist dur n with
  | Returns db' => (db', [], Returns true)
  | Raises (SqliteError msg) => (db, ["Database error: " ++ msg], Returns false)
  | Raises ex => (db, [], Raises ex)
  end.

(** A tuple of [get_recent_entries]:
    (date, weight, ran, distance, duration, notes). *)
Definition entry : Type :=
  (string * float * bool * option float * option Z * option string)%type.

Definition select_entry (r : row) : entry :=
  (date r, weight r, ran r, distance r, duration r, notes r).

Definition entry_date (x : entry) : string :=
  let '(d, _, _, _, _, _) := x in d.

(** [get_recent_entries]: ORDER BY date DESC LIMIT ?. *)
Definition get_recent_entries (e : env) (db : database) (limit : Z)
    : outcome (list entry) :=
  _ <- connect e ;;
  t <- prepare db ;;
  n <- bind_int limit ;;
  Returns (map select_entry (Sql.limit n (Sql.order_by Sql.date_desc (rows t)))).

(** [days] is written into the SQL text with [str.format], not bound.
    Python refuses to write an [int] of more than 4300 decimal digits (the
    sign is not counted). *)
Definition max_str_digits : nat := 4300.

Definition decimal_digits (z : Z) : nat :=
  Decimal.nb_digits (N.to_uint (Z.abs_N z)).

Definition int_str_fits (z : Z) : bool :=
  (decimal_digits z <=? max_str_digits)%nat.

Arguments int_str_fits : simpl never.

Definition digits_message : string :=
  "Exceeds the limit (4300 digits) for integer string conversion; use sys.set_int_max_str_digits() to increase the limit".

Definition format_days (days : Z) : outcome unit :=
  if int_str_fits days then Returns tt else Raises (ValueError digits_message).

(** [get_weight_progress]: the pairs (date, weight) of the rows that pass
    the WHERE clause, ORDER BY date ASC.  The SQL text is formatted after
    the connection is open and before the statement is prepared. *)
Definition get_weight_progress (e : env) (db : database) (days : Z)
    : outcome (list (string * float)) :=
  _ <- connect e ;;
  _ <- format_days days ;;
  t <- prepare db ;;
  Returns (map (fun r => (date r, weight r))
               (Sql.order_by Sql.date_asc (Sql.where_recent (now e) days (rows t)))).

(** The dictionary of [get_running_stats]. *)
Record stats : Type := mkStats {
  total_days : pynum;
  run_days : pynum;
  avg_distance : pynum;
  total_distance : pynum;
  avg_duration : pynum
}.

(** The CASE expressions of the query. *)
Definition case_ran_one (r : row) : option Z := Some (if ran r then 1 else 0).
Definition case_ran_distance (r : row) : option float :=
  if ran r then distance r else None.
Definition case_ran_duration (r : row) : option Z :=
  if ran r then duration r else None.

(** [get_running_stats]: one row of aggregates over the rows that pass the
    WHERE clause.  The engine finds these rows through the index of the
    UNIQUE column [date], so the aggregates meet them by ascending date. *)
Definition get_running_stats (e : env) (db : database) (days : Z)
    : outcome stats :=
  _ <- connect e ;;
  _ <- format_days days ;;
  t <- prepare db ;;
  let w := Sql.index_scan (now e) days (rows t) in
  Returns (mkStats
    (or_zero (Aggregate.count_star w))
    (or_zero (Aggregate.sum_integer (map case_ran_one w)))
    (or_zero (Aggregate.avg_real (map case_ran_distance w)))
    (or_zero (Aggregate.sum_real (map case_ran_distance w)))
    (or_zero (Aggregate.avg_integer (map case_ran_duration w)))).

(** ** Reading the store *)

(** The records of the store that carry a given date. *)
Definition records_for (d : string) (db : database) : list row :=
  match fitness_log db with
  | Some t => filter (Sql.same_date d) (rows t)
  | None => []
  end.

(** The row that a call [add_entry(d, w, r, dist, dur, n)] writes under
    rowid [k] at clock [clock], for a date and notes given by their
    encodings. *)
Definition written_row (k clock : Z) (d : string) (w : float) (r : bool)
    (dist : option float) (dur : option Z) (n : option string) : row :=
  mkRow k d (as_stored w) r (bind_optional_float dist) dur n
        (Calendar.current_timestamp clock).

(** A [str] argument that can be written: it has an encoding. *)
Definition encodable (s : pystr) : Prop :=
  match s with
  | Str _ => True
  | Unencodable => False
  end.


(** The arguments of a call as the specification reads them back from the
    record: every field is the value passed. *)
Definition spec_fields (r : row) (d : pystr) (w : float) (ran' : bool)
    (dist : option float) (dur : option Z) (n : option pystr) : Prop :=
  Str (date r) = d /\ weight r = w /\ ran r = ran' /\
  distance r = dist /\ duration r = dur /\ option_map Str (notes r) = n.

(** The same fields as the engine keeps them: a zero weight or distance
    without its sign, a NaN distance as NULL. *)
Definition stored_fields (r : row) (d : pystr) (w : float) (ran' : bool)
    (dist : option float) (dur : option Z) (n : option pystr) : Prop :=
  Str (date r) = d /\ weight r = as_stored w /\ ran r = ran' /\
  distance r = bind_optional_float dist /\ duration r = dur /\
  option_map Str (notes r) = n.

(** An optional distance that is a number (absent, or not a NaN). *)
Definition a_number (f : option float) : Prop :=
  match f with
  | None => True
  | Some v => PrimFloat.is_nan v = false
  end.

(** An optional duration that fits SQLite's INTEGER. *)
Definition an_int64 (z : option Z) : Prop :=
  match z with
  | None => True
  | Some v => fits_int64 v = true
  end.

(** The window of the two reports as the specification words it:
    from [today - days] to today, both included, on the text of the
    dates.  Used only to compare with the WHERE clause of the source. *)
Definition spec_trailing_window (clock days : Z) (d : string) : bool :=
  match Calendar.date_now_minus_days clock days,
        Calendar.date_now_minus_days clock 0 with
  | Some first, Some today => Sql.text_le first d && Sql.text_le d today
  | _, _ => false
  end.

(** The records of a table that lie in that window. *)
Definition trailing_records (e : env) (days : Z) (t : table) : list row :=
  filter (fun r => spec_trailing_window (now e) days (date r)) (rows t).

(** The same window without its upper end: the dates from [today - days]
    on, when the engine has such a day.  The records of a table that it
    holds, in the order of the table. *)
Definition since_first_day (clock days : Z) (d : string) : bool :=
  match Calendar.date_now_minus_days clock days with
  | Some first => Sql.text_le first d
  | None => false
  end.

Definition records_since (e : env) (days : Z) (t : table) : list row :=
  filter (fun r => since_first_day (now e) days (date r)) (rows t).

(** Rows by ascending and by descending date. *)
Definition by_ascending_date (a b : row) : Prop :=
  Sql.text_le (date a) (date b) = true.


(** The rows of a list with [ran = 1], and the distances that the
    aggregates over [CASE WHEN ran = 1 THEN distance END] see. *)
Definition running (rs : list row) : list row := filter ran rs.

Definition running_distances (rs : list row) : list float :=
  Aggregate.non_null (map case_ran_distance rs).

(** Orders on the tuples that the methods return. *)
Definition entries_descending (a b : entry) : Prop :=
  Sql.text_ge (entry_date a) (entry_date b) = true.

Definition pairs_ascending (a b : string * float) : Prop :=
  Sql.text_le (fst a) (fst b) = true.

(** ** A store to run the methods on *)

Module Sample.

(** Noon of 2024-06-15 and of the next day, as [iJD]. *)
Definition noon_june_15 : Z := 212585212800000.
Definition noon_june_16 : Z := noon_june_15 + Calendar.ms_per_day.

Definition e15 : env := mkEnv noon_june_15 None.
Definition e16 : env := mkEnv noon_june_16 None.

(** The database after [FitnessTracker()] on a fresh file. *)
Definition fresh : database := fst (init_database e15 empty_database).

Definition after (db : database) (e : env) (d : string) (w : float) (r : bool)
    (dist : option float) (dur : option Z) (n : option string) : database :=
  fst (fst (add_entry e db (Str d) w r dist dur (option_map Str n))).

(** The example scenario of the specification. *)
Definition june : database :=
  after (after fresh e15 "2024-06-01" 180%float false None None None)
        e15 "2024-06-02" 179.5%float true
        (Some 0x1.8cccccccccccdp+1%float) (Some 28) None.

(** Three dates entered out of order. *)
Definition january : database :=
  after (after (after fresh e15 "2024-01-01" 80%float false None None None)
               e15 "2024-01-03" 81%float false None None None)
        e15 "2024-01-02" 82%float false None None None.

(** Three runs of 0.5, 0.5 and 2.1 (the double nearest to it): every
    partial sum of these is exact, the total is the double 3.1. *)
Definition three_runs : database :=
  after (after (after fresh e15 "2024-06-01" 80%float true (Some 0.5%float) (Some 5) None)
               e15 "2024-06-02" 80%float true (Some 0.5%float) (Some 5) None)
        e15 "2024-06-03" 80%float true (Some 0x1.0cccccccccccdp+1%float) (Some 20) None.

(** Three runs of 0.3, 0.2 and 0.1 (the doubles nearest to them),
    entered latest day first. *)
Definition latest_first : database :=
  after (after (after fresh e15 "2024-06-03" 80%float true
                      (Some 0x1.3333333333333p-2%float) (Some 30) None)
               e15 "2024-06-02" 80%float true
               (Some 0x1.999999999999ap-3%float) (Some 20) None)
        e15 "2024-06-01" 80%float true
        (Some 0x1.999999999999ap-4%float) (Some 10) None.

(** The entry of 2024-06-02 entered again, one day later. *)
Definition june_overwritten : database :=
  after june e16 "2024-06-02" 179%float false None None (Some "rest day").

(** An entry dated the day after the clock's day. *)
Definition with_tomorrow : database :=
  after fresh e15 "2024-06-16" 80%float true (Some 4%float) (Some 30) None.

End Sample.

(** ** The stores a tracker can reach *)

(** The constructor of [FitnessTracker] only records the path and calls
    [init_database]; an exception of that call leaves the constructor. *)
Definition new_tracker (e : env) (db : database) : database * outcome unit :=
  init_database e db.

(** The rows of the store, none when the table is missing. *)
Definition stored_rows (db : database) : list row :=
  match fitness_log db with
  | Some t => rows t
  | None => []
  end.

(** The database files that the methods produce, starting from a file
    without the table: every state is reached by a sequence of
    [init_database] and [add_entry] calls, under any clock and any
    storage condition, with any arguments. *)
Inductive reachable : database -> Prop :=
| reach_empty : reachable empty_database
| reach_init (e : env) (db : database) :
    reachable db -> reachable (fst (init_database e db))
| reach_add (e : env) (db : database) (d : pystr) (w : float) (r : bool)
    (dist : option float) (dur : option Z) (n : option pystr) :
    reachable db -> reachable (fst (fst (add_entry e db d w r dist dur n))).

(** What the constraints of the schema promise of a table: the declared
    columns, one row per date, one row per rowid, rowids handed out
    upwards from 1 and never above the counter, and in every row a weight
    and a distance that are numbers and a duration within 64 bits. *)
Record well_formed (t : table) : Prop := mkWellFormed {
  wf_columns : columns t = fitness_log_columns;
  wf_dates : NoDup (map date (rows t));
  wf_ids : NoDup (map id (rows t));
  wf_rows : Forall (fun r => 0 < id r <= seq t /\
                             PrimFloat.is_nan (weight r) = false /\
                             a_number (distance r) /\
                             an_int64 (duration r)) (rows t);
  wf_seq : 0 <= seq t
}.

(** Two rows that the reports cannot tell apart: the SELECT lists of the
    three queries name neither [id] nor [created_at]. *)
Definition same_entry (a b : row) : Prop := select_entry a = select_entry b.

(** ** The console side of the program *)

From Stdlib Require DecimalString DecimalZ DecimalPos FloatAxioms.

(** The menu reads lines and writes texts.  A text is kept as the list of
    its characters, one Rocq character for one character of the Python
    [str] (characters up to U+00FF; a line read with a character above
    that, or with a lone surrogate, is outside what is modelled here).  What a run writes is a list of
    events: the screen cleared ([clear_screen]), the prompt of an
    [input], a line of a [print]. *)
Inductive event : Type :=
| Cleared
| Prompted (s : string)
| Printed (s : string).

(** What can cut a console routine short: [input] at the end of the
    input ([EOFError]), or an exception that [add_entry] let out. *)
Inductive interrupt : Type :=
| EOFError
| Escaped (e : exn).

Inductive answer (A : Type) : Type :=
| Answered (a : A)
| Interrupted (i : interrupt).

Arguments Answered {A} a.
Arguments Interrupted {A} i.

(** A console routine: from the lines still to be read to the lines left,
    the events written and the answer. *)
Definition io (A : Type) : Type :=
  list string -> list string * list event * answer A.

Module Py.

(** [str(n)] of an [int]: decimal digits, a minus sign when negative.
    This is the text for an [int] of at most 4300 digits; Python refuses
    to write a longer one ([int_str_fits]). *)
Definition str_int (z : Z) : string :=
  DecimalString.NilZero.string_of_int (Z.to_int z).

(** [str.isspace] on one character: tab to carriage return, the four
    separators U+001C to U+001F, the space, U+0085 and U+00A0. *)
Definition is_space (c : ascii) : bool :=
  let n := N_of_ascii c in
  ((9 <=? n) && (n <=? 13) || (28 <=? n) && (n <=? 32)
   || (n =? 133) || (n =? 160))%N.

Fixpoint lstrip (s : string) : string :=
  match s with
  | EmptyString => EmptyString
  | String c rest => if is_space c then lstrip rest else s
  end.

Fixpoint rstrip (s : string) : string :=
  match s with
  | EmptyString => EmptyString
  | String c rest =>
      match rstrip rest with
      | EmptyString => if is_space c then EmptyString else String c EmptyString
      | kept => String c kept
      end
  end.

(** [s.strip()] *)
Definition strip (s : string) : string := rstrip (lstrip s).

(** [s.lower()], character by character: A to Z and the capital letters
    U+00C0 to U+00DE (the sign U+00D7 apart) move up by 32. *)
Definition lower_char (c : ascii) : ascii :=
  let n := N_of_ascii c in
  if ((65 <=? n) && (n <=? 90)
      || (192 <=? n) && (n <=? 222) && negb (n =? 215))%N
  then ascii_of_N (n + 32) else c.

Fixpoint lower (s : string) : string :=
  match s with
  | EmptyString => EmptyString
  | String c rest => String (lower_char c) (lower rest)
  end.

(** [x or None] on a text: the empty text is falsy. *)
Definition or_none (s : string) : option string :=
  if String.eqb s "" then None else Some s.

(** The UTF-8 encoding of a text: one byte for a character below U+0080,
    two bytes for the others up to U+00FF. *)
Definition utf8_char (c : ascii) : string :=
  let n := N_of_ascii c in
  if (n <? 128)%N then String c EmptyString
  else String (ascii_of_N (192 + n / 64))
         (String (ascii_of_N (128 + n mod 64)) EmptyString).

Fixpoint utf8 (s : string) : string :=
  match s with
  | EmptyString => EmptyString
  | String c rest => utf8_char c ++ utf8 rest
  end.

(** A text as the argument of a method of the store: every text of these
    characters has an encoding. *)
Definition str (s : string) : pystr := Str (utf8 s).

(** [v >= n] between a float and an int: Python compares the two numbers
    exactly, without rounding the int. *)
Definition float_ge_int (v : float) (n : Z) : bool :=
  match Prim2SF v with
  | S754_nan => false
  | S754_infinity negative => negb negative
  | S754_zero _ => n <=? 0
  | S754_finite negative m e =>
      let mantissa := if negative then Z.neg m else Z.pos m in
      if 0 <=? e then n <=? mantissa * 2 ^ e
      else n * 2 ^ (- e) <=? mantissa
  end.

(** [v >= m] for a float [v] and a number [m]. *)
Definition float_ge (v : float) (m : pynum) : bool :=
  match m with
  | PyInt n => float_ge_int v n
  | PyFloat f => PrimFloat.leb f v
  end.

(** [input(prompt)] *)
Definition input (prompt : string) : io string :=
  fun lines =>
    match lines with
    | [] => ([], [Prompted prompt], Interrupted EOFError)
    | line :: rest => (rest, [Prompted prompt], Answered line)
    end.

(** [print(text)] *)
Definition print (text : string) : io unit :=
  fun lines => (lines, [Printed text], Answered tt).

Definition ret {A : Type} (a : A) : io A :=
  fun lines => (lines, [], Answered a).

(** One statement after the other; an interrupt ends the sequence. *)
Definition seq {A B : Type} (m : io A) (k : A -> io B) : io B :=
  fun lines =>
    let '(rest, written, r) := m lines in
    match r with
    | Interrupted i => (rest, written, Interrupted i)
    | Answered a =>
        let '(rest', written', r') := k a rest in
        (rest', (written ++ written')%list, r')
    end.

(** The newline character inside a printed text. *)
Definition newline : string := String (ascii_of_N 10) EmptyString.

End Py.

(** [clear_screen()] *)
Definition clear_screen : io unit :=
  fun lines => (lines, [Cleared], Answered tt).

(** [format_duration(minutes)]: floor division and modulo by 60.  The
    text is that of Python for minutes of at most 4300 digits (a stored
    duration has at most 19). *)
Definition format_duration (minutes : option Z) : string :=
  match minutes with
  | None => "N/A"
  | Some m =>
      let hours := m / 60 in
      let mins := m mod 60 in
      if hours =? 0 then Py.str_int mins ++ "m"
      else Py.str_int hours ++ "h " ++ Py.str_int mins ++ "m"
  end.

(** The column of notes in the table of recent entries (option 2 of the
    menu): [notes[:15] + "..." if notes and len(notes) > 15 else
    notes or ""]. *)
Definition notes_str (notes : option string) : string :=
  match notes with
  | None => ""
  | Some s =>
      if negb (String.eqb s "") && (15 <? String.length s)%nat
      then substring 0 15 s ++ "..."
      else s
  end.

(** [get_yes_no_input(prompt)]: one turn of the loop per line read. *)
Fixpoint get_yes_no_input (prompt : string) (lines : list string)
  : list string * list event * answer bool :=
  match lines with
  | [] => ([], [Prompted (prompt ++ " (y/n): ")], Interrupted EOFError)
  | line :: rest =>
      let response := Py.strip (Py.lower line) in
      if String.eqb response "y" || String.eqb response "yes"
      then (rest, [Prompted (prompt ++ " (y/n): ")], Answered true)
      else if String.eqb response "n" || String.eqb response "no"
      then (rest, [Prompted (prompt ++ " (y/n): ")], Answered false)
      else
        let '(rest', written, r) := get_yes_no_input prompt rest in
        (rest',
         Prompted (prompt ++ " (y/n): ")
           :: Printed "Please enter 'y' or 'n'." :: written,
         r)
  end.

(** Whether Python writes a number: every [float], and an [int] of at
    most 4300 digits. *)
Definition num_str_fits (m : pynum) : bool :=
  match m with
  | PyInt n => int_str_fits n
  | PyFloat _ => true
  end.

Section Builtins.

(** Python's [int(text)], [float(text)] and [str(x)] of a float are taken
    as they are: [None] stands for the [ValueError] of a text that is no
    number.  So are the local date of [datetime.date.today()], already in
    the form [YYYY-MM-DD], and whether [datetime.strptime(text,
    '%Y-%m-%d')] accepts a text. *)
Variable py_int : string -> option Z.
Variable py_float_of : string -> option float.
Variable py_str_float : float -> string.
Variable today : string.
Variable strptime_accepts : string -> bool.

(** [f"{min_val}"] *)
Definition str_num (m : pynum) : string :=
  match m with
  | PyInt n => Py.str_int n
  | PyFloat f => py_str_float f
  end.

(** The two loops below print the reminder of a value that is too small
    inside their [try]: when [min_val] is an [int] of more than 4300
    digits, writing it raises [ValueError], and the [except ValueError]
    clause prints its own line instead. *)

(** [get_int_input(prompt, min_val)] *)
Fixpoint get_int_input (prompt : string) (min_val : Z) (lines : list string)
  : list string * list event * answer Z :=
  match lines with
  | [] => ([], [Prompted prompt], Interrupted EOFError)
  | line :: rest =>
      match py_int line with
      | Some value =>
          if min_val <=? value
          then (rest, [Prompted prompt], Answered value)
          else
            let '(rest', written, r) := get_int_input prompt min_val rest in
            (rest',
             Prompted prompt
               :: Printed (if int_str_fits min_val
                           then "Please enter a value >= " ++ Py.str_int min_val
                           else "Please enter a valid integer.")
               :: written,
             r)
      | None =>
          let '(rest', written, r) := get_int_input prompt min_val rest in
          (rest',
           Prompted prompt :: Printed "Please enter a valid integer." :: written,
           r)
      end
  end.

(** [get_float_input(prompt, min_val)]; the default [min_val] of the
    source is the int 0. *)
Fixpoint get_float_input (prompt : string) (min_val : pynum)
    (lines : list string) : list string * list event * answer float :=
  match lines with
  | [] => ([], [Prompted prompt], Interrupted EOFError)
  | line :: rest =>
      match py_float_of line with
      | Some value =>
          if Py.float_ge value min_val
          then (rest, [Prompted prompt], Answered value)
          else
            let '(rest', written, r) := get_float_input prompt min_val rest in
            (rest',
             Prompted prompt
               :: Printed (if num_str_fits min_val
                           then "Please enter a value >= " ++ str_num min_val
                           else "Please enter a valid number.")
               :: written,
             r)
      | None =>
          let '(rest', written, r) := get_float_input prompt min_val rest in
          (rest',
           Prompted prompt :: Printed "Please enter a valid number." :: written,
           r)
      end
  end.

(** The questions that options 1 and 5 of the menu both ask, each with
    its own wording of the first two prompts: the weight, whether the
    user ran, then the distance and the duration if so, then the notes
    ([input(...).strip() or None]). *)
Definition ask_entry (weight_prompt ran_prompt : string)
  : io (float * bool * option float * option Z * option string) :=
  Py.seq (get_float_input weight_prompt (PyInt 0)) (fun weight =>
  Py.seq (get_yes_no_input ran_prompt) (fun ran =>
  Py.seq (if ran
          then Py.seq (get_float_input "Distance (miles/km): " (PyInt 0))
                 (fun distance =>
               Py.seq (get_int_input "Duration (minutes): " 0)
                 (fun duration => Py.ret (Some distance, Some duration)))
          else Py.ret (None, None)) (fun run =>
  Py.seq (Py.input "Notes (optional): ") (fun typed =>
  Py.ret (weight, ran, fst run, snd run, Py.or_none (Py.strip typed)))))).

(** The call [tracker.add_entry(...)] of a menu option, the line printed
    on its result and the final [input]: the database after it, then the
    lines left, the events and the answer.  The line that [add_entry]
    itself prints on a database error comes first; an exception of
    [add_entry] is not caught by the menu. *)
Definition store_entry (e : env) (db : database) (d : string)
    (failure_text : string)
    (form : float * bool * option float * option Z * option string)
    (lines : list string)
  : database * list string * list event * answer unit :=
  let '(weight, ran, distance, duration, notes) := form in
  let '(db', out, res) :=
    add_entry e db (Py.str d) weight ran distance duration
              (option_map Py.str notes) in
  match res with
  | Raises ex => (db', lines, map Printed out, Interrupted (Escaped ex))
  | Returns ok =>
      let '(rest, written, r) :=
        Py.seq (Py.print (Py.newline ++ (if ok then "Entry added successfully!"
                                         else failure_text)))
          (fun _ => Py.seq (Py.input (Py.newline ++ "Press Enter to continue..."))
          (fun _ => Py.ret tt)) lines in
      (db', rest, (map Printed out ++ written)%list, r)
  end.

(** Option 1 of the menu, [Add today's entry]. *)
Definition add_today_entry (e : env) (db : database) (lines : list string)
  : database * list string * list event * answer unit :=
  let '(rest, written, r) :=
    Py.seq clear_screen (fun _ =>
    Py.seq (Py.print "ADD TODAY'S ENTRY") (fun _ =>
    Py.seq (Py.print "--------------------") (fun _ =>
    Py.seq (Py.print ("Date: " ++ today)) (fun _ =>
    ask_entry "Enter your weight (lbs/kg): " "Did you run today?")))) lines in
  match r with
  | Interrupted i => (db, rest, written, Interrupted i)
  | Answered form =>
      let '(db', rest', written', r') :=
        store_entry e db today " Failed to add entry." form rest in
      (db', rest', (written ++ written')%list, r')
  end.

(** The loop of option 5 that asks for a date until [strptime] accepts
    the stripped line. *)
Fixpoint ask_date (lines : list string) : list string * list event * answer string :=
  match lines with
  | [] => ([], [Prompted "Enter date (YYYY-MM-DD): "], Interrupted EOFError)
  | line :: rest =>
      let date_str := Py.strip line in
      if strptime_accepts date_str
      then (rest, [Prompted "Enter date (YYYY-MM-DD): "], Answered date_str)
      else
        let '(rest', written, r) := ask_date rest in
        (rest',
         Prompted "Enter date (YYYY-MM-DD): "
           :: Printed "Invalid date format. Please use YYYY-MM-DD." :: written,
         r)
  end.

(** Option 5 of the menu, [Add entry for specific date]. *)
Definition add_dated_entry (e : env) (db : database) (lines : list string)
  : database * list string * list event * answer unit :=
  let '(rest, written, r) :=
    Py.seq clear_screen (fun _ =>
    Py.seq (Py.print "ADD ENTRY FOR SPECIFIC DATE") (fun _ =>
    Py.seq (Py.print "------------------------------") (fun _ =>
    Py.seq ask_date (fun date_str =>
    Py.seq (ask_entry "Enter weight (lbs/kg): " "Did you run on this day?")
      (fun form => Py.ret (date_str, form)))))) lines in
  match r with
  | Interrupted i => (db, rest, written, Interrupted i)
  | Answered (date_str, form) =>
      let '(db', rest', written', r') :=
        store_entry e db date_str "Failed to add entry." form rest in
      (db', rest', (written ++ written')%list, r')
  end.

End Builtins.

(** What the menu promises of the values it passes to [add_entry]: a
    weight of at least 0; with [ran], a distance of at least 0 and a
    duration of at least 0, without it neither; and notes that are absent
    rather than empty. *)
Definition menu_convention (weight : float) (ran : bool)
    (distance : option float) (duration : option Z) (notes : option string)
  : Prop :=
  Py.float_ge weight (PyInt 0) = true /\
  (if ran
   then (exists x, distance = Some x /\ Py.float_ge x (PyInt 0) = true) /\
        (exists k, duration = Some k /\ 0 <= k)
   else distance = None /\ duration = None) /\
  notes <> Some "".

(** The database [db'] is [db] after [add_entry] has stored, at the clock
    of [e], the row of the date [d], the weight [w], the answer [ran],
    the distance [dist], the duration [dur] and the notes [n] that the
    console got: the two texts in UTF-8, a zero weight or distance
    without its sign, everything else as it is. *)
Definition entry_stored (e : env) (db db' : database) (d : string)
    (w : float) (ran : bool) (dist : option float) (dur : option Z)
    (n : option string) : Prop :=
  exists t k,
    fitness_log db = Some t /\
    db' = mkDatabase (Some (mkTable (columns t)
            (filter (Sql.other_date (Py.utf8 d)) (rows t)
               ++ [mkRow k (Py.utf8 d) (as_stored w) ran
                         (option_map as_stored dist) dur
                         (option_map Py.utf8 n)
                         (Calendar.current_timestamp (now e))])
            k)).

(** ** Reading the console routines *)

(** The characters of [str(n)]: the ten digits and the minus sign. *)
Definition numeric_char (c : ascii) : bool :=
  let n := N_of_ascii c in ((48 <=? n) && (n <=? 57) || (n =? 45))%N.

Fixpoint numeric (s : string) : Prop :=
  match s with
  | EmptyString => True
  | String c rest => numeric_char c = true /\ numeric rest
  end.

(** A text of whitespace only. *)
Fixpoint blank (s : string) : Prop :=
  match s with
  | EmptyString => True
  | String c rest => Py.is_space c = true /\ blank rest
  end.

(** What one line means to each of the three input loops: the value it
    is accepted with, or [None] when the loop asks again. *)
Definition yes_no_of (line : string) : option bool :=
  let response := Py.strip (Py.lower line) in
  if String.eqb response "y" || String.eqb response "yes" then Some true
  else if String.eqb response "n" || String.eqb response "no" then Some false
  else None.

Definition int_of_line (py_int : string -> option Z) (min_val : Z)
    (line : string) : option Z :=
  match py_int line with
  | Some value => if min_val <=? value then Some value else None
  | None => None
  end.

Definition float_of_line (py_float_of : string -> option float)
    (min_val : pynum) (line : string) : option float :=
  match py_float_of line with
  | Some value => if Py.float_ge value min_val then Some value else None
  | None => None
  end.

(** The reminder that a refused line gets. *)
Definition int_reminder (py_int : string -> option Z) (min_val : Z)
    (line : string) : string :=
  match py_int line with
  | Some _ => if int_str_fits min_val
              then "Please enter a value >= " ++ Py.str_int min_val
              else "Please enter a valid integer."
  | None => "Please enter a valid integer."
  end.

Definition float_reminder (py_float_of : string -> option float)
    (py_str_float : float -> string) (min_val : pynum) (line : string) : string :=
  match py_float_of line with
  | Some _ => if num_str_fits min_val
              then "Please enter a value >= " ++ str_num py_str_float min_val
              else "Please enter a valid number."
  | None => "Please enter a valid number."
  end.

(** What a loop writes for the lines it refuses, then its last prompt. *)
Definition asked_again (prompt : string) (reminder : string -> string)
    (refused : list string) : list event :=
  (flat_map (fun line => [Prompted prompt; Printed (reminder line)]) refused
     ++ [Prompted prompt])%list.

(** Stand-ins for the builtins, to run the routines on: plain decimal
    integers, and for the floats a few texts with the value Python gives
    them. *)
Module SampleConsole.

Definition plain_int (s : string) : option Z :=
  option_map Z.of_int (DecimalString.NilZero.int_of_string s).

Definition plain_float (s : string) : option float :=
  if String.eqb s "70.5" then Some 70.5%float
  else if String.eqb s "nan" then Some PrimFloat.nan
  else if String.eqb s "-1" then Some (-1)%float
  else option_map Aggregate.Z2float (plain_int s).

Definition plain_str_float (f : float) : string := "0.0".

Definition iso_like (s : string) : bool := (String.length s =? 10)%nat.

(** The user of option 1 types a weight twice (the first is no number),
    says she ran, gives a distance, a duration and no notes, and
    presses Enter. *)
Definition a_run : list string :=
  ["seventy"; "70.5"; " Yes "; "5"; "28"; ""; ""].

(** The same with a duration that does not fit 64 bits. *)
Definition a_long_run : list string :=
  ["70.5"; "y"; "5"; "9223372036854775808"; ""; ""].

End SampleConsole.

(** * Properties *)

(** ** ORDER BY: the result is a sorted rearrangement of the rows *)

Section OrderBy.

Variable le : row -> row -> bool.
Hypothesis le_total : forall a b, le a b = true \/ le b a = true.

Let ordered (a b : row) : Prop := le a b = true.

Lemma insert_sorted_perm (r : row) (rs : list row) :
  Permutation (Sql.insert_sorted le r rs) (r :: rs).
Proof.
  induction rs as [|x rest IH]; simpl.
  - apply Permutation_refl.
  - destruct (le r x).
    + apply Permutation_refl.
    + eapply perm_trans; [apply perm_skip, IH | apply perm_swap].
Qed.

Lemma order_by_perm (rs : list row) : Permutation (Sql.order_by le rs) rs.
Proof.
  induction rs as [|x rest IH]; simpl.
  - constructor.
  - eapply perm_trans; [apply insert_sorted_perm | now apply perm_skip].
Qed.

Lemma insert_sorted_HdRel (a r : row) (rs : list row) :
  ordered a r -> HdRel ordered a rs -> HdRel ordered a (Sql.insert_sorted le r rs).
Proof.
  intros Har Hhd. destruct rs as [|x rest]; simpl.
  - now constructor.
  - destruct (le r x); constructor; trivial.
    now inversion Hhd.
Qed.

Lemma insert_sorted_Sorted (r : row) (rs : list row) :
  Sorted ordered rs -> Sorted ordered (Sql.insert_sorted le r rs).
Proof.
  induction 1 as [|x rest Hs IH Hhd]; simpl.
  - repeat constructor.
  - destruct (le r x) eqn:Hrx.
    + constructor; [now constructor | now constructor].
    + constructor; trivial.
      apply insert_sorted_HdRel; trivial.
      destruct (le_total r x) as [H|H]; [congruence | exact H].
Qed.

Lemma order_by_Sorted (rs : list row) : Sorted ordered (Sql.order_by le rs).
Proof.
  induction rs as [|x rest IH]; simpl.
  - constructor.
  - now apply insert_sorted_Sorted.
Qed.

Lemma order_by_length (rs : list row) :
  List.length (Sql.order_by le rs) = List.length rs.
Proof. apply Permutation_length, order_by_perm. Qed.

Lemma order_by_In (r : row) (rs : list row) :
  In r (Sql.order_by le rs) <-> In r rs.
Proof.
  split; apply Permutation_in;
    [apply order_by_perm | apply Permutation_sym, order_by_perm].
Qed.

End OrderBy.

Lemma date_asc_total (a b : row) :
  Sql.date_asc a b = true \/ Sql.date_asc b a = true.
Proof. apply String.leb_total. Qed.

Lemma date_desc_total (a b : row) :
  Sql.date_desc a b = true \/ Sql.date_desc b a = true.
Proof. apply String.leb_total. Qed.


Lemma Sorted_map {A B : Type} (f : A -> B) (R : A -> A -> Prop)
    (Q : B -> B -> Prop) (l : list A) :
  (forall a b, R a b -> Q (f a) (f b)) ->
  Sorted R l -> Sorted Q (map f l).
Proof.
  intros Hf. induction 1 as [|x rest Hs IH Hhd]; simpl; constructor; trivial.
  destruct Hhd; simpl; constructor; auto.
Qed.


(** ** [add_entry] *)

Lemma as_stored_number (w : float) :
  PrimFloat.is_nan w = false -> PrimFloat.is_nan (as_stored w) = false.
Proof.
  intros Hw. unfold as_stored. now destruct (PrimFloat.eqb w 0).
Qed.

Lemma bind_float_some (w w' : float) :
  bind_float w = Some w' -> PrimFloat.is_nan w = false /\ w' = as_stored w.
Proof.
  unfold bind_float. destruct (PrimFloat.is_nan w); [discriminate|].
  intros H. injection H as <-. now split.
Qed.

Lemma bind_optional_int_fits (z : option Z) :
  an_int64 z -> bind_optional_int z = Returns z.
Proof.
  destruct z as [v|]; simpl; trivial.
  unfold bind_int. now intros ->.
Qed.

Lemma bind_optional_int_returns (z z' : option Z) :
  bind_optional_int z = Returns z' -> z' = z /\ an_int64 z.
Proof.
  destruct z as [v|]; simpl.
  - unfold bind_int. destruct (fits_int64 v) eqn:Hv; simpl; [|discriminate].
    intros H. injection H as <-. now split.
  - intros H. injection H as <-. now split.
Qed.

Lemma bind_optional_str_returns (n : option pystr) (m : option string) :
  bind_optional_str n = Returns m -> n = option_map Str m.
Proof.
  destruct n as [[s|]|]; simpl; intros H; try discriminate;
    now injection H as <-.
Qed.

Lemma bind_optional_str_encoded (m : option string) :
  bind_optional_str (option_map Str m) = Returns m.
Proof. now destruct m. Qed.



(** What a call that returns [True] has done: the storage worked, the
    table was there, the date and the notes had an encoding, the weight
    was a number, and the table now holds the rows of the other dates
    followed by the written row. *)
Lemma add_entry_true (e : env) (db db' : database) (out : list string)
    (d : pystr) (w : float) (r : bool) (dist : option float)
    (dur : option Z) (n : option pystr) :
  add_entry e db d w r dist dur n = (db', out, Returns true) ->
  exists t k s m,
    healthy e /\ fitness_log db = Some t /\ out = [] /\
    Sql.new_rowid t = Returns k /\
    d = Str s /\ n = option_map Str m /\
    db' = mkDatabase (Some (mkTable (columns t)
            (filter (Sql.other_date s) (rows t)
               ++ [written_row k (now e) s w r dist dur m])
            k)).
Proof.
  unfold add_entry, add_entry_try, connect, prepare, healthy.
  destruct (fault e) as [msg|]; simpl; [discriminate|].
  destruct (fitness_log db) as [t|]; simpl; [|discriminate].
  destruct d as [s|]; simpl; [|discriminate].
  destruct (bind_optional_int dur) as [dur'|ex] eqn:Hdur; simpl;
    [|destruct ex; discriminate].
  apply bind_optional_int_returns in Hdur. destruct Hdur as [-> _].
  destruct (bind_optional_str n) as [m|ex] eqn:Hn; simpl;
    [|destruct ex; discriminate].
  apply bind_optional_str_returns in Hn.
  unfold Sql.insert_or_replace.
  destruct (Sql.new_rowid t) as [k|ex] eqn:Hk; simpl;
    [|destruct ex; discriminate].
  destruct (bind_float w) as [w'|] eqn:Hw; simpl; [|discriminate].
  apply bind_float_some in Hw. destruct Hw as [_ ->].
  intros H. injection H as <- <-.
  exists t, k, s, m. repeat split; trivial.
Qed.

(** A call that returns [False] has changed nothing and printed one
    line. *)
Lemma add_entry_false (e : env) (db db' : database) (out : list string)
    (d : pystr) (w : float) (r : bool) (dist : option float)
    (dur : option Z) (n : option pystr) :
  add_entry e db d w r dist dur n = (db', out, Returns false) ->
  db' = db /\ exists msg, out = ["Database error: " ++ msg].
Proof.
  unfold add_entry.
  destruct (add_entry_try e db d w r dist dur n) as [x|[msg|msg| |msg]];
    intros H; try discriminate.
  injection H as <- <-. split; [reflexivity | now exists msg].
Qed.

(** A call that raises has changed nothing and printed nothing. *)
Lemma add_entry_raises (e : env) (db db' : database) (out : list string)
    (ex : exn) (d : pystr) (w : float) (r : bool) (dist : option float)
    (dur : option Z) (n : option pystr) :
  add_entry e db d w r dist dur n = (db', out, Raises ex) ->
  db' = db /\ out = [] /\ add_entry_try e db d w r dist dur n = Raises ex /\
  forall msg, ex <> SqliteError msg.
Proof.
  unfold add_entry.
  destruct (add_entry_try e db d w r dist dur n) as [x|[msg|msg| |msg]];
    intros H; try discriminate; injection H as <- <- <-;
    repeat split; discriminate.
Qed.

(** When the storage works, the table is there, the date and the notes
    have an encoding, the weight is a number, the duration fits 64 bits
    and a rowid is left, the call does return [True]. *)
Lemma add_entry_succeeds (e : env) (db : database) (t : table)
    (s : string) (w : float) (r : bool) (dist : option float)
    (dur : option Z) (m : option string) :
  healthy e -> fitness_log db = Some t ->
  PrimFloat.is_nan w = false -> an_int64 dur ->
  Z.max (seq t) (Sql.max_rowid (rows t)) < max_int64 ->
  exists db',
    add_entry e db (Str s) w r dist dur (option_map Str m)
    = (db', [], Returns true).
Proof.
  unfold healthy. intros He Ht Hw Hdur Hid.
  unfold add_entry, add_entry_try, connect, prepare.
  rewrite He, Ht. simpl.
  rewrite (bind_optional_int_fits _ Hdur). simpl.
  rewrite bind_optional_str_encoded. simpl.
  unfold Sql.insert_or_replace, Sql.new_rowid, bind_float.
  destruct (max_int64 <=? _) eqn:Hfull; [apply Z.leb_le in Hfull; lia|].
  rewrite Hw. simpl. eauto.
Qed.

Lemma same_date_other_date (d : string) (r : row) :
  Sql.same_date d r = negb (Sql.other_date d r).
Proof. unfold Sql.same_date, Sql.other_date. now rewrite negb_involutive. Qed.

Lemma filter_same_after_other (d : string) (rs : list row) :
  filter (Sql.same_date d) (filter (Sql.other_date d) rs) = [].
Proof.
  induction rs as [|x rest IH]; simpl; trivial.
  destruct (Sql.other_date d x) eqn:Hx; simpl; trivial.
  now rewrite same_date_other_date, Hx.
Qed.

Lemma filter_other_idempotent (d : string) (rs : list row) :
  filter (Sql.other_date d) (filter (Sql.other_date d) rs)
  = filter (Sql.other_date d) rs.
Proof.
  induction rs as [|x rest IH]; simpl; trivial.
  destruct (Sql.other_date d x) eqn:Hx; simpl; trivial.
  now rewrite Hx, IH.
Qed.

(** After a successful call the store holds exactly one record for the
    date, the written one. *)
Lemma records_for_after_add (e : env) (db db' : database) (out : list string)
    (d : pystr) (w : float) (r : bool) (dist : option float)
    (dur : option Z) (n : option pystr) :
  add_entry e db d w r dist dur n = (db', out, Returns true) ->
  exists s m k,
    d = Str s /\ n = option_map Str m /\
    records_for s db' = [written_row k (now e) s w r dist dur m].
Proof.
  intros H. apply add_entry_true in H.
  destruct H as (t & k & s & m & _ & _ & _ & _ & -> & -> & ->).
  exists s, m, k. repeat split. unfold records_for. simpl.
  rewrite filter_app, filter_same_after_other. simpl.
  unfold Sql.same_date. simpl. now rewrite String.eqb_refl.
Qed.

(** The UNIQUE constraint on [date] is an invariant of the calls: a table
    without two rows of one date stays so. *)
Lemma other_dates_unique (d : string) (rs : list row) :
  NoDup (map date rs) ->
  NoDup (map date (filter (Sql.other_date d) rs)).
Proof.
  induction rs as [|x rest IH]; intros Huniq; simpl; [constructor|].
  apply NoDup_cons_iff in Huniq. destruct Huniq as [Hfresh Hrest].
  destruct (Sql.other_date d x); [|now apply IH].
  simpl. apply NoDup_cons; [|now apply IH].
  intros Hdup. apply Hfresh.
  apply in_map_iff in Hdup. destruct Hdup as (y & Hy & Hin).
  apply filter_In in Hin. rewrite <- Hy. now apply in_map.
Qed.

Lemma add_entry_keeps_dates_unique (e : env) (db db' : database)
    (out : list string) (res : outcome bool) (t t' : table)
    (d : pystr) (w : float) (r : bool) (dist : option float)
    (dur : option Z) (n : option pystr) :
  add_entry e db d w r dist dur n = (db', out, res) ->
  fitness_log db = Some t -> fitness_log db' = Some t' ->
  NoDup (map date (rows t)) -> NoDup (map date (rows t')).
Proof.
  intros Hadd Ht Ht' Huniq.
  destruct res as [[|]|ex].
  - apply add_entry_true in Hadd.
    destruct Hadd as (t0 & k & s & m & _ & Ht0 & _ & _ & -> & -> & ->).
    rewrite Ht in Ht0. injection Ht0 as <-.
    simpl in Ht'. injection Ht' as <-. simpl.
    rewrite map_app. apply NoDup_app.
    + now apply other_dates_unique.
    + simpl. constructor; [intros [] | constructor].
    + intros a Ha [<-|[]]. apply in_map_iff in Ha.
      destruct Ha as (x & Hx & Hin). apply filter_In in Hin.
      destruct Hin as [_ Hother]. unfold Sql.other_date in Hother.
      simpl in Hx. rewrite Hx, String.eqb_refl in Hother. discriminate.
  - apply add_entry_false in Hadd. destruct Hadd as [-> _].
    rewrite Ht in Ht'. now injection Ht' as <-.
  - apply add_entry_raises in Hadd. destruct Hadd as (-> & _).
    rewrite Ht in Ht'. now injection Ht' as <-.
Qed.

(** C1, as the code has it. Upsert law: after [add_entry(d, w1, ...)]
    and then [add_entry(d, w2, ...)], when the second call returns
    [True] the store holds exactly one record dated [d], and its weight,
    ran, distance, duration and notes are those of the second call as the
    engine keeps them: a zero weight or distance without its sign, a
    distance that is a NaN as NULL.  When the second call does not
    return [True] it leaves the store as the first call left it. *)
Theorem upsert_law (e1 e2 : env) (db db1 db2 : database)
    (out1 out2 : list string) (res1 res2 : outcome bool) (d : pystr)
    (w1 w2 : float) (r1 r2 : bool) (dist1 dist2 : option float)
    (dur1 dur2 : option Z) (n1 n2 : option pystr) :
  add_entry e1 db d w1 r1 dist1 dur1 n1 = (db1, out1, res1) ->
  add_entry e2 db1 d w2 r2 dist2 dur2 n2 = (db2, out2, res2) ->
  (res2 = Returns true ->
   exists rec,
     records_for (date rec) db2 = [rec] /\
     stored_fields rec d w2 r2 dist2 dur2 n2) /\
  (res2 <> Returns true -> db2 = db1).
Proof.
  intros _ H2. split.
  - intros ->.
    destruct (records_for_after_add _ _ _ _ _ _ _ _ _ _ H2)
      as (s & m & k & -> & -> & Hk).
    exists (written_row k (now e2) s w2 r2 dist2 dur2 m).
    split; [exact Hk|]. now repeat split.
  - intros Hres. destruct res2 as [[|]|ex].
    + now contradiction Hres.
    + now apply add_entry_false in H2.
    + now apply add_entry_raises in H2.
Qed.

Lemma upsert_law_witness :
  (Returns true = Returns true ->
   exists rec,
     records_for (date rec)
       (Sample.after Sample.june Sample.e16 "2024-06-02" (-0)%float false
          (Some PrimFloat.nan) None (Some "rest day"))
     = [rec] /\
     stored_fields rec (Str "2024-06-02") (-0)%float false
       (Some PrimFloat.nan) None (Some (Str "rest day"))) /\
  (Returns true <> Returns true ->
   Sample.after Sample.june Sample.e16 "2024-06-02" (-0)%float false
     (Some PrimFloat.nan) None (Some "rest day") = Sample.june).
Proof.
  apply (upsert_law Sample.e15 Sample.e16
           (Sample.after Sample.fresh Sample.e15 "2024-06-01" 180%float false None None None)
           Sample.june
           (Sample.after Sample.june Sample.e16 "2024-06-02" (-0)%float false
              (Some PrimFloat.nan) None (Some "rest day"))
           [] [] (Returns true) (Returns true) (Str "2024-06-02")
           179.5%float (-0)%float true false
           (Some 0x1.8cccccccccccdp+1%float) (Some PrimFloat.nan)
           (Some 28) None None (Some (Str "rest day"))).
  - reflexivity.
  - reflexivity.
Defined.

(** C1, as the claim states it, fails in three ways.  A second call with
    a weight that is a NaN breaks the NOT NULL constraint: it returns
    [False] and the record of the first call stays.  A second call with a
    distance that is a NaN stores NULL there, and one with a weight of
    -0.0 stores 0.0 (whose reciprocal is the other infinity). *)
Lemma upsert_keeps_first_or_alters_second :
  (let db1 := Sample.after Sample.fresh Sample.e15 "2024-06-01" 180%float
                false None None None in
   let db2 := Sample.after db1 Sample.e16 "2024-06-01" PrimFloat.nan true
                (Some 5%float) (Some 40) None in
   snd (add_entry Sample.e16 db1 (Str "2024-06-01") PrimFloat.nan true
          (Some 5%float) (Some 40) None) = Returns false /\
   map select_entry (records_for "2024-06-01" db2)
     = [("2024-06-01", 180%float, false, None, None, None)] /\
   ~ exists rec,
       records_for "2024-06-01" db2 = [rec] /\
       spec_fields rec (Str "2024-06-01") PrimFloat.nan true
         (Some 5%float) (Some 40) None) /\
  (let db1 := Sample.after Sample.fresh Sample.e15 "2024-06-01" 180%float
                false None None None in
   let db2 := Sample.after db1 Sample.e16 "2024-06-01" (-0)%float true
                (Some PrimFloat.nan) (Some 40) None in
   snd (add_entry Sample.e16 db1 (Str "2024-06-01") (-0)%float true
          (Some PrimFloat.nan) (Some 40) None) = Returns true /\
   map distance (records_for "2024-06-01" db2) = [None] /\
   map (fun r => (1 / weight r)%float) (records_for "2024-06-01" db2)
     = [PrimFloat.infinity] /\
   (1 / (-0))%float = PrimFloat.neg_infinity).
Proof.
  split; [split; [|split] | repeat split]; try reflexivity.
  intros (rec & Hrec & Hfields).
  vm_compute in Hrec. injection Hrec as <-.
  destruct Hfields as (_ & _ & Hran & _). discriminate Hran.
Qed.

(** C9. Frame of [add_entry]: a call that returns [True] for date [d]
    keeps every record of another date as it was, all columns included,
    and in the same order; the one record it adds is dated [d]. *)
Theorem add_entry_frame (e : env) (db db' : database) (out : list string)
    (d : pystr) (w : float) (r : bool) (dist : option float)
    (dur : option Z) (n : option pystr) :
  add_entry e db d w r dist dur n = (db', out, Returns true) ->
  exists s t t' new,
    d = Str s /\
    fitness_log db = Some t /\ fitness_log db' = Some t' /\
    date new = s /\
    rows t' = (filter (Sql.other_date s) (rows t) ++ [new])%list /\
    filter (Sql.other_date s) (rows t') = filter (Sql.other_date s) (rows t) /\
    (forall x, date x <> s -> (In x (rows t') <-> In x (rows t))).
Proof.
  intros H. apply add_entry_true in H.
  destruct H as (t & k & s & m & _ & Ht & _ & _ & -> & -> & ->).
  exists s, t. eexists. exists (written_row k (now e) s w r dist dur m).
  simpl. repeat split; trivial.
  - cbn [rows]. rewrite filter_app, filter_other_idempotent. simpl.
    unfold Sql.other_date. simpl. rewrite String.eqb_refl. simpl.
    apply app_nil_r.
  - cbn [rows]. intros Hin. apply in_app_or in Hin.
    destruct Hin as [Hin|[<-|[]]].
    + now apply filter_In in Hin.
    + now simpl in H.
  - cbn [rows]. intros Hin. apply in_or_app. left.
    apply filter_In. split; trivial.
    unfold Sql.other_date. apply negb_true_iff. now apply String.eqb_neq.
Qed.

Lemma add_entry_frame_witness :
  exists s t t' new,
    Str "2024-06-02" = Str s /\
    fitness_log Sample.june = Some t /\
    fitness_log Sample.june_overwritten = Some t' /\
    date new = s /\
    rows t' = (filter (Sql.other_date s) (rows t) ++ [new])%list /\
    filter (Sql.other_date s) (rows t')
      = filter (Sql.other_date s) (rows t) /\
    (forall x, date x <> s -> (In x (rows t') <-> In x (rows t))).
Proof.
  apply (add_entry_frame Sample.e16 Sample.june Sample.june_overwritten []
           (Str "2024-06-02") 179%float false None None (Some (Str "rest day"))).
  reflexivity.
Defined.

(** C3, as the code has it. [created_at] is not kept on overwrite: the
    record of a date, after a call that returns [True], carries the
    timestamp of that call, whether or not the date had a record. *)
Theorem created_at_of_last_write (e : env) (db db' : database)
    (out : list string) (d : pystr) (w : float) (r : bool)
    (dist : option float) (dur : option Z) (n : option pystr) :
  add_entry e db d w r dist dur n = (db', out, Returns true) ->
  exists s rec,
    d = Str s /\
    records_for s db' = [rec] /\
    created_at rec = Calendar.current_timestamp (now e).
Proof.
  intros H.
  destruct (records_for_after_add _ _ _ _ _ _ _ _ _ _ H)
    as (s & m & k & -> & -> & Hk).
  exists s. eexists. split; [reflexivity|]. split; [exact Hk | reflexivity].
Qed.

Lemma created_at_of_last_write_witness :
  exists s rec,
    Str "2024-06-02" = Str s /\
    records_for s Sample.june_overwritten = [rec] /\
    created_at rec = Calendar.current_timestamp (now Sample.e16).
Proof.
  apply (created_at_of_last_write Sample.e16 Sample.june Sample.june_overwritten []
           (Str "2024-06-02") 179%float false None None (Some (Str "rest day"))).
  reflexivity.
Defined.

(** C3, as the claim states it, fails: the record of 2024-06-02, first
    written on 2024-06-15 at noon, carries the timestamp of the next day
    once it has been overwritten then. *)
Lemma created_at_refreshed_on_overwrite :
  map created_at (records_for "2024-06-02" Sample.june)
    = ["2024-06-15 12:00:00"] /\
  map created_at (records_for "2024-06-02" Sample.june_overwritten)
    = ["2024-06-16 12:00:00"] /\
  map created_at (records_for "2024-06-02" Sample.june_overwritten)
    <> map created_at (records_for "2024-06-02" Sample.june).
Proof.
  repeat split; try reflexivity.
  vm_compute. discriminate.
Qed.





(** ** The bytewise order on texts *)

Lemma ascii_compare_lt (a b : ascii) :
  Ascii.compare a b = Lt <-> (N_of_ascii a < N_of_ascii b)%N.
Proof. unfold Ascii.compare. apply N.compare_lt_iff. Qed.

Lemma ascii_compare_eq (a b : ascii) : Ascii.compare a b = Eq <-> a = b.
Proof.
  split.
  - apply Ascii.compare_eq_iff.
  - intros ->. unfold Ascii.compare. apply N.compare_refl.
Qed.

Lemma text_le_refl (s : string) : Sql.text_le s s = true.
Proof.
  unfold Sql.text_le, String.leb.
  assert (H : String.compare s s = Eq); [|now rewrite H].
  induction s as [|c s IH]; simpl; trivial.
  now rewrite (proj2 (ascii_compare_eq c c) eq_refl).
Qed.

Lemma text_le_trans (a b c : string) :
  Sql.text_le a b = true -> Sql.text_le b c = true -> Sql.text_le a c = true.
Proof.
  unfold Sql.text_le, String.leb. revert b c.
  induction a as [|x a IH]; intros [|y b] [|z c]; simpl; trivial;
    try discriminate.
  destruct (Ascii.compare x y) eqn:Hxy; try discriminate;
    destruct (Ascii.compare y z) eqn:Hyz; try discriminate; intros Hab Hbc.
  - apply ascii_compare_eq in Hxy, Hyz. subst.
    rewrite (proj2 (ascii_compare_eq z z) eq_refl). now apply (IH b c).
  - apply ascii_compare_eq in Hxy. subst. now rewrite Hyz.
  - apply ascii_compare_eq in Hyz. subst. now rewrite Hxy.
  - apply ascii_compare_lt in Hxy, Hyz.
    assert (H : Ascii.compare x z = Lt)
      by (apply ascii_compare_lt; eapply N.lt_trans; eassumption).
    now rewrite H.
Qed.

Lemma text_lt_not_ge (a b : string) :
  String.ltb a b = true -> Sql.text_ge a b = false.
Proof.
  unfold String.ltb, Sql.text_ge, String.leb.
  rewrite (String.compare_antisym b a).
  destruct (String.compare a b); simpl; trivial; discriminate.
Qed.

(** ** [init_database] *)

(** C8. Idempotent initialisation: with the storage working, a second
    [init_database] raises nothing and leaves the database, schema and
    rows, as the first call left it; and whenever the table already
    exists the call changes nothing. *)
Theorem init_database_idempotent (e e' : env) (db : database) :
  healthy e -> healthy e' ->
  init_database e' (fst (init_database e db))
    = (fst (init_database e db), Returns tt) /\
  (forall t, fitness_log db = Some t -> init_database e db = (db, Returns tt)).
Proof.
  unfold healthy, init_database, connect. intros -> ->. simpl.
  unfold Sql.create_table_if_not_exists. split.
  - destruct (fitness_log db) as [t|] eqn:Ht; simpl.
    + now rewrite Ht.
    + reflexivity.
  - intros t Ht. now rewrite Ht.
Qed.

Lemma init_database_idempotent_witness :
  init_database Sample.e16 (fst (init_database Sample.e15 Sample.june))
    = (fst (init_database Sample.e15 Sample.june), Returns tt) /\
  (forall t, fitness_log Sample.june = Some t ->
             init_database Sample.e15 Sample.june = (Sample.june, Returns tt)).
Proof.
  apply (init_database_idempotent Sample.e15 Sample.e16 Sample.june);
    reflexivity.
Defined.

(** ** Sorted rearrangements *)


Lemma order_by_asc_sorted (rs : list row) :
  StronglySorted by_ascending_date (Sql.order_by Sql.date_asc rs).
Proof.
  apply Sorted_StronglySorted.
  - intros a b c Hab Hbc. unfold by_ascending_date in *.
    exact (text_le_trans _ _ _ Hab Hbc).
  - exact (order_by_Sorted Sql.date_asc date_asc_total rs).
Qed.

Lemma selection_keeps_dates_unique (p : row -> bool) (rs : list row) :
  NoDup (map date rs) -> NoDup (map date (filter p rs)).
Proof.
  induction rs as [|x rest IH]; intros Huniq; simpl; [constructor|].
  apply NoDup_cons_iff in Huniq. destruct Huniq as [Hfresh Hrest].
  destruct (p x); [|now apply IH].
  simpl. apply NoDup_cons; [|now apply IH].
  intros Hdup. apply Hfresh.
  apply in_map_iff in Hdup. destruct Hdup as (y & Hy & Hin).
  apply filter_In in Hin. rewrite <- Hy. now apply in_map.
Qed.

Lemma selection_of_rearranged {A : Type} (p : A -> bool) (l l' : list A) :
  Permutation l l' -> Permutation (filter p l) (filter p l').
Proof.
  induction 1 as [|x l l' Hperm IH|x y l|l l' l'' H1 IH1 H2 IH2]; simpl.
  - constructor.
  - destruct (p x); [now constructor | exact IH].
  - destruct (p x), (p y); try apply Permutation_refl. apply perm_swap.
  - eapply perm_trans; eassumption.
Qed.

(** A list sorted by a key that no two elements share is the only
    sorted rearrangement of its elements. *)
Lemma sorted_rearrangement_unique {A K : Type} (key : A -> K)
    (R : A -> A -> Prop) :
  (forall x y, R x y -> R y x -> key x = key y) ->
  forall l1 l2,
    StronglySorted R l1 -> StronglySorted R l2 ->
    Permutation l1 l2 -> NoDup (map key l1) -> l1 = l2.
Proof.
  intros Hanti. induction l1 as [|x l1 IH]; intros l2 Hs1 Hs2 Hperm Huniq.
  - now apply Permutation_nil in Hperm.
  - destruct l2 as [|y l2].
    { apply Permutation_sym, Permutation_nil in Hperm. discriminate. }
    apply StronglySorted_inv in Hs1. destruct Hs1 as [Hs1 Hx].
    apply StronglySorted_inv in Hs2. destruct Hs2 as [Hs2 Hy].
    simpl in Huniq. apply NoDup_cons_iff in Huniq.
    destruct Huniq as [Hfresh Huniq].
    assert (Hxy : x = y).
    { assert (Hin : In x (y :: l2))
        by (eapply Permutation_in; [exact Hperm | now left]).
      destruct Hin as [Heq|Hin]; [now symmetry|].
      assert (Hin' : In y (x :: l1))
        by (eapply Permutation_in; [apply Permutation_sym, Hperm | now left]).
      destruct Hin' as [Heq|Hin']; trivial.
      exfalso. apply Hfresh.
      rewrite Forall_forall in Hx, Hy.
      rewrite (Hanti x y (Hx y Hin') (Hy x Hin)). now apply in_map. }
    subst y. f_equal. apply IH; trivial.
    now apply Permutation_cons_inv in Hperm.
Qed.


Lemma ascending_rows_unique (rs sorted : list row) :
  NoDup (map date rs) ->
  Permutation sorted rs -> StronglySorted by_ascending_date sorted ->
  sorted = Sql.order_by Sql.date_asc rs.
Proof.
  intros Huniq Hperm Hsorted.
  apply (sorted_rearrangement_unique date by_ascending_date); trivial.
  - intros x y Hxy Hyx. unfold by_ascending_date, Sql.text_le in *.
    now apply String.leb_antisym.
  - apply order_by_asc_sorted.
  - eapply perm_trans; [exact Hperm|].
    apply Permutation_sym, order_by_perm.
  - eapply Permutation_NoDup; [|exact Huniq].
    now apply Permutation_sym, Permutation_map.
Qed.

(** ** [get_recent_entries] *)




(** ** The day count of the two other reports *)

Lemma format_days_fits (days : Z) :
  int_str_fits days = true -> format_days days = Returns tt.
Proof. unfold format_days. now intros ->. Qed.

Lemma format_days_refused (days : Z) :
  int_str_fits days = false ->
  format_days days = Raises (ValueError digits_message).
Proof. unfold format_days. now intros ->. Qed.

(** The engine has no date for a negative count nor for one from the
    limit on. *)
Lemma date_refused (clock days : Z) :
  days < 0 \/ Calendar.day_limit <= days ->
  Calendar.date_now_minus_days clock days = None.
Proof.
  intros H. unfold Calendar.date_now_minus_days.
  destruct (days <? 0) eqn:Hneg; trivial.
  destruct (Calendar.day_limit <=? days) eqn:Hbig; trivial.
  apply Z.ltb_ge in Hneg. apply Z.leb_gt in Hbig. lia.
Qed.

Lemma where_recent_without_date (clock days : Z) (rs : list row) :
  Calendar.date_now_minus_days clock days = None ->
  Sql.where_recent clock days rs = [].
Proof.
  intros Hnone. unfold Sql.where_recent. rewrite Hnone.
  induction rs as [|x rest IH]; simpl; trivial.
Qed.

(** The WHERE clause of the two reports selects the records dated from
    [today - days] on. *)
Lemma where_recent_records_since (e : env) (days : Z) (t : table) :
  Sql.where_recent (now e) days (rows t) = records_since e days t.
Proof.
  unfold Sql.where_recent, records_since. apply filter_ext. intros r.
  unfold Sql.date_ge_cutoff, since_first_day.
  now destruct (Calendar.date_now_minus_days (now e) days).
Qed.

(** ** [get_weight_progress] *)

(** Where the WHERE clause and the window of the specification part:
    only on the dates after today.  On a table without such a date the
    two select the same rows. *)
Lemma where_clause_is_spec_window (clock days : Z) (today : string) (r : row) :
  Calendar.date_now_minus_days clock 0 = Some today ->
  Sql.text_le (date r) today = true ->
  Sql.date_ge_cutoff (Calendar.date_now_minus_days clock days) r
  = spec_trailing_window clock days (date r).
Proof.
  intros Htoday Hle. unfold spec_trailing_window, Sql.date_ge_cutoff.
  rewrite Htoday.
  destruct (Calendar.date_now_minus_days clock days) as [first|]; trivial.
  rewrite Hle. unfold Sql.text_ge, Sql.text_le. now rewrite andb_true_r.
Qed.

(** C2, as the code has it. Window membership, for a [days] of at most
    4300 decimal digits: a pair (date, weight) is in the result of
    [get_weight_progress(days)] if and only if it comes from a stored row
    whose date text is not below the text of [today - days], as the
    engine's [date] function gives it; there is no upper end, so an entry
    dated after today is included.  A row dated exactly [today - days] is
    included, a row dated below it is excluded, and the result is in
    ascending order of date.  For a negative [days] and for one of
    5373485 or more the engine gives no date and the result is empty.
    For a [days] of more than 4300 digits the call raises [ValueError]. *)
Theorem weight_progress_window (e : env) (db : database) (t : table)
    (days : Z) :
  healthy e -> fitness_log db = Some t ->
  (int_str_fits days = false ->
   get_weight_progress e db days = Raises (ValueError digits_message)) /\
  (int_str_fits days = true ->
   exists l,
    get_weight_progress e db days = Returns l /\
    (forall d w,
       In (d, w) l <->
       (exists r, In r (rows t) /\ date r = d /\ weight r = w) /\
       (exists first,
          Calendar.date_now_minus_days (now e) days = Some first /\
          Sql.text_le first d = true)) /\
    (forall r first,
       In r (rows t) ->
       Calendar.date_now_minus_days (now e) days = Some first ->
       (date r = first -> In (date r, weight r) l) /\
       (String.ltb (date r) first = true -> forall w, ~ In (date r, w) l)) /\
    (days < 0 \/ Calendar.day_limit <= days -> l = []) /\
    StronglySorted pairs_ascending l).
Proof.
  unfold healthy. intros He Ht.
  unfold get_weight_progress, connect, prepare. rewrite He, Ht.
  split; intros Hdays.
  { now rewrite (format_days_refused _ Hdays). }
  rewrite (format_days_fits _ Hdays). cbn [bind].
  eexists. split; [reflexivity|].
  assert (Hmem : forall d w,
    In (d, w) (map (fun r => (date r, weight r))
                 (Sql.order_by Sql.date_asc
                    (Sql.where_recent (now e) days (rows t)))) <->
    (exists r, In r (rows t) /\ date r = d /\ weight r = w) /\
    (exists first,
       Calendar.date_now_minus_days (now e) days = Some first /\
       Sql.text_le first d = true)).
  { intros d w. rewrite in_map_iff. unfold Sql.where_recent. split.
    - intros (r & Hr & Hin). injection Hr as <- <-.
      apply order_by_In, filter_In in Hin. destruct Hin as [Hin Hge].
      split; [now exists r|].
      unfold Sql.date_ge_cutoff in Hge.
      destruct (Calendar.date_now_minus_days (now e) days) as [c|];
        [|discriminate].
      now exists c.
    - intros [(r & Hin & <- & <-) (c & Hc & Hle)].
      exists r. split; trivial.
      apply order_by_In, filter_In. split; trivial.
      unfold Sql.date_ge_cutoff. now rewrite Hc. }
  split; [exact Hmem|]. split; [|split].
  - intros r c Hin Hc. split.
    + intros Hrc. apply Hmem. split; [now exists r|].
      exists c. split; trivial. rewrite Hrc. apply text_le_refl.
    + intros Hlt w Habs. apply Hmem in Habs.
      destruct Habs as [_ (c' & Hc' & Hle)].
      rewrite Hc in Hc'. injection Hc' as <-.
      apply text_lt_not_ge in Hlt. unfold Sql.text_ge, Sql.text_le in *.
      congruence.
  - intros Hrefused.
    now rewrite (where_recent_without_date _ _ _ (date_refused _ _ Hrefused)).
  - apply Sorted_StronglySorted.
    + intros a b c Hab Hbc. unfold pairs_ascending in *.
      exact (text_le_trans _ _ _ Hab Hbc).
    + apply Sorted_map with (R := fun a b => Sql.date_asc a b = true).
      * intros a b H. exact H.
      * apply order_by_Sorted, date_asc_total.
Qed.

Lemma weight_progress_window_witness :
  (int_str_fits 14 = false ->
   get_weight_progress Sample.e15 Sample.june 14
   = Raises (ValueError digits_message)) /\
  (int_str_fits 14 = true ->
   exists l,
    get_weight_progress Sample.e15 Sample.june 14 = Returns l /\
    (forall d w,
       In (d, w) l <->
       (exists r,
          In r [ mkRow 1 "2024-06-01" 180%float false None None None
                       "2024-06-15 12:00:00";
                 mkRow 2 "2024-06-02" 179.5%float true
                       (Some 0x1.8cccccccccccdp+1%float) (Some 28) None
                       "2024-06-15 12:00:00" ] /\
          date r = d /\ weight r = w) /\
       (exists first,
          Calendar.date_now_minus_days (now Sample.e15) 14 = Some first /\
          Sql.text_le first d = true)) /\
    (forall r first,
       In r [ mkRow 1 "2024-06-01" 180%float false None None None
                    "2024-06-15 12:00:00";
              mkRow 2 "2024-06-02" 179.5%float true
                    (Some 0x1.8cccccccccccdp+1%float) (Some 28) None
                    "2024-06-15 12:00:00" ] ->
       Calendar.date_now_minus_days (now Sample.e15) 14 = Some first ->
       (date r = first -> In (date r, weight r) l) /\
       (String.ltb (date r) first = true -> forall w, ~ In (date r, w) l)) /\
    (14 < 0 \/ Calendar.day_limit <= 14 -> l = []) /\
    StronglySorted pairs_ascending l).
Proof.
  apply (weight_progress_window Sample.e15 Sample.june
           (mkTable fitness_log_columns
              [ mkRow 1 "2024-06-01" 180%float false None None None
                      "2024-06-15 12:00:00";
                mkRow 2 "2024-06-02" 179.5%float true
                      (Some 0x1.8cccccccccccdp+1%float) (Some 28) None
                      "2024-06-15 12:00:00" ]
              2) 14).
  - reflexivity.
  - reflexivity.
Defined.

(** C2, as the claim states it, fails: with the clock on 2024-06-15 an
    entry dated 2024-06-16 lies after today, outside the window from
    [today - 30] to today, and [get_weight_progress(30)] returns it. *)
Lemma weight_progress_keeps_later_dates :
  get_weight_progress Sample.e15 Sample.with_tomorrow 30
    = Returns [("2024-06-16", 80%float)] /\
  Calendar.date_now_minus_days (now Sample.e15) 0 = Some "2024-06-15" /\
  spec_trailing_window (now Sample.e15) 30 "2024-06-16" = false.
Proof. repeat split; reflexivity. Qed.

(** ** [get_running_stats] *)

Lemma or_zero_integer (z : Z) : or_zero (Aggregate.Integer z) = PyInt z.
Proof.
  simpl. destruct (z =? 0) eqn:Hz; trivial.
  apply Z.eqb_eq in Hz. now subst.
Qed.

Lemma non_null_case_ran_one (rs : list row) :
  Aggregate.non_null (map case_ran_one rs)
  = map (fun r => if ran r then 1 else 0) rs.
Proof. induction rs as [|x rest IH]; simpl; [|rewrite IH]; reflexivity. Qed.

Lemma fold_left_add_running (rs : list row) (acc : Z) :
  fold_left Z.add (map (fun r : row => if ran r then 1 else 0) rs) acc
  = acc + Aggregate.length_Z (running rs).
Proof.
  unfold Aggregate.length_Z, running. revert acc.
  induction rs as [|x rest IH]; intros acc; simpl; [lia|].
  rewrite IH. destruct (ran x); simpl List.length; lia.
Qed.

Lemma sum_integer_running (rs : list row) :
  or_zero (Aggregate.sum_integer (map case_ran_one rs))
  = PyInt (Aggregate.length_Z (running rs)).
Proof.
  unfold Aggregate.sum_integer. rewrite non_null_case_ran_one.
  pose proof (fold_left_add_running rs 0) as Hsum.
  destruct (map (fun r : row => if ran r then 1 else 0) rs) as [|z zs] eqn:Hmap.
  - destruct rs; [reflexivity | discriminate].
  - rewrite or_zero_integer, Hsum. reflexivity.
Qed.

Lemma running_le_all (rs : list row) :
  Aggregate.length_Z (running rs) <= Aggregate.length_Z rs.
Proof.
  unfold Aggregate.length_Z, running.
  apply Nat2Z.inj_le, filter_length_le.
Qed.

(** Without a running row the CASE expressions are NULL on every row. *)
Lemma no_running_distance (rs : list row) :
  (forall r, In r rs -> ran r = false) ->
  Aggregate.non_null (map case_ran_distance rs) = [] /\
  Aggregate.non_null (map case_ran_duration rs) = [].
Proof.
  induction rs as [|x rest IH]; intros H; simpl; [now split|].
  unfold case_ran_distance at 1, case_ran_duration at 1.
  rewrite (H x (or_introl eq_refl)).
  apply IH. intros r Hr. apply H. now right.
Qed.

Lemma no_running_rows (rs : list row) :
  (forall r, In r rs -> ran r = false) -> running rs = [].
Proof.
  unfold running. induction rs as [|x rest IH]; intros H; simpl; trivial.
  rewrite (H x (or_introl eq_refl)).
  apply IH. intros r Hr. apply H. now right.
Qed.

(** When every running row has a distance, the distances seen by AVG and
    SUM are as many as the running rows. *)
Lemma running_distances_length (rs : list row) :
  (forall r, In r (running rs) -> distance r <> None) ->
  List.length (running_distances rs) = List.length (running rs).
Proof.
  unfold running_distances, running.
  induction rs as [|x rest IH]; intros H; simpl; trivial.
  unfold case_ran_distance at 1. simpl in H.
  destruct (ran x) eqn:Hx.
  - destruct (distance x) as [v|] eqn:Hv.
    + simpl. f_equal. apply IH. intros r Hr. apply H. now right.
    + exfalso. apply (H x); [now left | exact Hv].
  - apply IH, H.
Qed.

(** The rows that the aggregates meet are the records dated from
    [today - days] on, by ascending date. *)
Lemma index_scan_records (e : env) (days : Z) (t : table) :
  Sql.index_scan (now e) days (rows t)
  = Sql.order_by Sql.date_asc (records_since e days t).
Proof. unfold Sql.index_scan. now rewrite where_recent_records_since. Qed.

Lemma index_scan_perm (e : env) (days : Z) (t : table) :
  Permutation (Sql.index_scan (now e) days (rows t)) (records_since e days t).
Proof. rewrite index_scan_records. apply order_by_perm. Qed.

Lemma index_scan_In (e : env) (days : Z) (t : table) (r : row) :
  In r (Sql.index_scan (now e) days (rows t)) <->
  In r (rows t) /\ since_first_day (now e) days (date r) = true.
Proof.
  rewrite index_scan_records, order_by_In. unfold records_since.
  apply filter_In.
Qed.

Lemma running_rearranged (l l' : list row) :
  Permutation l l' ->
  Aggregate.length_Z (running l) = Aggregate.length_Z (running l').
Proof.
  intros Hperm. unfold Aggregate.length_Z, running. f_equal.
  now apply Permutation_length, selection_of_rearranged.
Qed.

(** C5, as the code has it. Aggregate zero-normalisation, for a [days]
    of at most 4300 decimal digits: when no stored record dated from
    [today - days] on (the window of the query, which has no upper end)
    has [ran] set, [get_running_stats] returns the integer 0 for
    run_days, avg_distance, total_distance and avg_duration. *)
Theorem running_stats_zero (e : env) (db : database) (t : table) (days : Z) :
  healthy e -> fitness_log db = Some t -> int_str_fits days = true ->
  (forall r, In r (rows t) ->
             since_first_day (now e) days (date r) = true -> ran r = false) ->
  exists s,
    get_running_stats e db days = Returns s /\
    run_days s = PyInt 0 /\
    avg_distance s = PyInt 0 /\
    total_distance s = PyInt 0 /\
    avg_duration s = PyInt 0.
Proof.
  unfold healthy. intros He Ht Hdays Hran.
  unfold get_running_stats, connect, prepare. rewrite He, Ht.
  rewrite (format_days_fits _ Hdays). cbn [bind].
  eexists. split; [reflexivity|].
  cbn [run_days avg_distance total_distance avg_duration].
  assert (Hscan : forall r, In r (Sql.index_scan (now e) days (rows t)) ->
                            ran r = false).
  { intros r Hr. apply index_scan_In in Hr. now apply Hran. }
  destruct (no_running_distance _ Hscan) as [Hdist Hdur].
  unfold Aggregate.avg_real, Aggregate.sum_real, Aggregate.avg_integer.
  rewrite Hdist, Hdur. simpl. repeat split.
  rewrite sum_integer_running, (no_running_rows _ Hscan). reflexivity.
Qed.

Lemma running_stats_zero_witness :
  exists s,
    get_running_stats Sample.e15 Sample.january 365 = Returns s /\
    run_days s = PyInt 0 /\
    avg_distance s = PyInt 0 /\
    total_distance s = PyInt 0 /\
    avg_duration s = PyInt 0.
Proof.
  apply (running_stats_zero Sample.e15 Sample.january
           (mkTable fitness_log_columns
              [ mkRow 1 "2024-01-01" 80%float false None None None "2024-06-15 12:00:00";
                mkRow 2 "2024-01-03" 81%float false None None None "2024-06-15 12:00:00";
                mkRow 3 "2024-01-02" 82%float false None None None "2024-06-15 12:00:00" ]
              3) 365).
  - reflexivity.
  - reflexivity.
  - reflexivity.
  - intros r Hr _. vm_compute in Hr.
    destruct Hr as [<-|[<-|[<-|[]]]]; reflexivity.
Defined.

(** C5, as the claim states it, fails: with the clock on 2024-06-15 the
    trailing window from [today - 30] to today holds no record of the
    store whose one entry, a run, is dated 2024-06-16; the query has no
    upper end, counts that run and reports its distance and duration. *)
Lemma running_stats_not_zero_after_today :
  fitness_log Sample.with_tomorrow
    = Some (mkTable fitness_log_columns
              [ mkRow 1 "2024-06-16" 80%float true (Some 4%float) (Some 30)
                      None "2024-06-15 12:00:00" ] 1) /\
  filter ran
    (trailing_records Sample.e15 30
       (mkTable fitness_log_columns
          [ mkRow 1 "2024-06-16" 80%float true (Some 4%float) (Some 30)
                  None "2024-06-15 12:00:00" ] 1)) = [] /\
  get_running_stats Sample.e15 Sample.with_tomorrow 30
    = Returns (mkStats (PyInt 1) (PyInt 1) (PyFloat 4%float)
                 (PyFloat 4%float) (PyFloat 30%float)).
Proof. repeat split; reflexivity. Qed.

(** C7, as the code has it. Stats counting, for a [days] of at most 4300
    decimal digits: [get_running_stats] returns as total_days the number
    of stored records dated from [today - days] on (the window of the
    query, which has no upper end) and as run_days the number of those
    with [ran] set, so that run_days <= total_days. *)
Theorem running_stats_counts (e : env) (db : database) (t : table) (days : Z) :
  healthy e -> fitness_log db = Some t -> int_str_fits days = true ->
  exists s,
    get_running_stats e db days = Returns s /\
    total_days s = PyInt (Aggregate.length_Z (records_since e days t)) /\
    run_days s = PyInt (Aggregate.length_Z (running (records_since e days t))) /\
    Aggregate.length_Z (running (records_since e days t))
      <= Aggregate.length_Z (records_since e days t).
Proof.
  unfold healthy. intros He Ht Hdays.
  unfold get_running_stats, connect, prepare. rewrite He, Ht.
  rewrite (format_days_fits _ Hdays). cbn [bind].
  eexists. split; [reflexivity|]. cbn [total_days run_days].
  split; [|split].
  - unfold Aggregate.count_star. rewrite or_zero_integer.
    unfold Aggregate.length_Z.
    now rewrite (Permutation_length (index_scan_perm e days t)).
  - rewrite sum_integer_running.
    now rewrite (running_rearranged _ _ (index_scan_perm e days t)).
  - apply running_le_all.
Qed.

Lemma running_stats_counts_witness :
  exists s,
    get_running_stats Sample.e15 Sample.june 30 = Returns s /\
    total_days s = PyInt 2 /\
    run_days s = PyInt 1 /\
    1 <= 2.
Proof.
  apply (running_stats_counts Sample.e15 Sample.june
           (mkTable fitness_log_columns
              [ mkRow 1 "2024-06-01" 180%float false None None None
                      "2024-06-15 12:00:00";
                mkRow 2 "2024-06-02" 179.5%float true
                      (Some 0x1.8cccccccccccdp+1%float) (Some 28) None
                      "2024-06-15 12:00:00" ]
              2) 30).
  - reflexivity.
  - reflexivity.
  - reflexivity.
Defined.

(** C7, as the claim states it, fails: with the clock on 2024-06-15 the
    trailing window from [today - 30] to today holds none of the records
    of the store whose one entry is dated 2024-06-16, and the reported
    total_days and run_days are both 1. *)
Lemma running_stats_count_after_today :
  fitness_log Sample.with_tomorrow
    = Some (mkTable fitness_log_columns
              [ mkRow 1 "2024-06-16" 80%float true (Some 4%float) (Some 30)
                      None "2024-06-15 12:00:00" ] 1) /\
  Aggregate.length_Z
    (trailing_records Sample.e15 30
       (mkTable fitness_log_columns
          [ mkRow 1 "2024-06-16" 80%float true (Some 4%float) (Some 30)
                  None "2024-06-15 12:00:00" ] 1)) = 0 /\
  bind (get_running_stats Sample.e15 Sample.with_tomorrow 30)
       (fun s => Returns (total_days s, run_days s))
    = Returns (PyInt 1, PyInt 1).
Proof. repeat split; reflexivity. Qed.

Lemma avg_real_some (l : list (option float)) :
  Aggregate.non_null l <> [] ->
  Aggregate.avg_real l
  = Aggregate.result_double
      (Aggregate.float_sum (Aggregate.non_null l)
       / Aggregate.Z2float (Aggregate.length_Z (Aggregate.non_null l))).
Proof.
  unfold Aggregate.avg_real.
  destruct (Aggregate.non_null l); [congruence | reflexivity].
Qed.

Lemma sum_real_some (l : list (option float)) :
  Aggregate.non_null l <> [] ->
  Aggregate.sum_real l
  = Aggregate.result_double (Aggregate.float_sum (Aggregate.non_null l)).
Proof.
  unfold Aggregate.sum_real.
  destruct (Aggregate.non_null l); [congruence | reflexivity].
Qed.

(** C10, as the code has it. Aggregate relation, for a [days] of at most
    4300 decimal digits: when the records dated from [today - days] on
    hold at least one running record and every running record has a
    distance, the reported run_days is the number [k] of running records,
    the reported total_distance is the double-precision sum [S] of their
    distances, added from 0.0 in ascending order of date, and the
    reported avg_distance is the double-precision quotient [S / k], each
    with a zero or NaN value reported as the integer 0.  On a table with
    one row per date there is one such order. *)
Theorem average_distance_is_sum_over_run_days (e : env) (db : database)
    (t : table) (days : Z) :
  healthy e -> fitness_log db = Some t -> int_str_fits days = true ->
  running (records_since e days t) <> [] ->
  (forall r, In r (running (records_since e days t)) -> distance r <> None) ->
  exists s sorted,
    get_running_stats e db days = Returns s /\
    Permutation sorted (records_since e days t) /\
    StronglySorted by_ascending_date sorted /\
    (NoDup (map date (rows t)) ->
     forall sorted',
       Permutation sorted' (records_since e days t) ->
       StronglySorted by_ascending_date sorted' -> sorted' = sorted) /\
    run_days s = PyInt (Aggregate.length_Z (running (records_since e days t))) /\
    total_distance s
      = or_zero (Aggregate.result_double
                   (Aggregate.float_sum (running_distances sorted))) /\
    avg_distance s
      = or_zero (Aggregate.result_double
                   (Aggregate.float_sum (running_distances sorted)
                    / Aggregate.Z2float
                        (Aggregate.length_Z (running (records_since e days t))))).
Proof.
  unfold healthy. intros He Ht Hdays Hsome Hdist.
  unfold get_running_stats, connect, prepare. rewrite He, Ht.
  rewrite (format_days_fits _ Hdays). cbn [bind].
  eexists. exists (Sql.index_scan (now e) days (rows t)).
  split; [reflexivity|].
  cbn [run_days total_distance avg_distance].
  pose proof (index_scan_perm e days t) as Hperm.
  assert (Hrun : Permutation (running (Sql.index_scan (now e) days (rows t)))
                             (running (records_since e days t))).
  { now apply selection_of_rearranged. }
  assert (Hdist' : forall r, In r (running (Sql.index_scan (now e) days (rows t)))
                             -> distance r <> None).
  { intros r Hr. apply Hdist. eapply Permutation_in; eassumption. }
  pose proof (running_distances_length _ Hdist') as Hlen.
  assert (Hne : Aggregate.non_null
                  (map case_ran_distance (Sql.index_scan (now e) days (rows t)))
                <> []).
  { intros Habs. unfold running_distances in Hlen. rewrite Habs in Hlen.
    apply Hsome. apply Permutation_length in Hrun.
    destruct (running (records_since e days t)); trivial.
    rewrite <- Hlen in Hrun. discriminate. }
  split; [exact Hperm|].
  split; [rewrite index_scan_records; apply order_by_asc_sorted|].
  split.
  { intros Huniq sorted' Hperm' Hsorted'. rewrite index_scan_records.
    apply ascending_rows_unique; trivial.
    unfold records_since. now apply selection_keeps_dates_unique. }
  split.
  { rewrite sum_integer_running. now rewrite (running_rearranged _ _ Hperm). }
  split.
  - now rewrite (sum_real_some _ Hne).
  - rewrite (avg_real_some _ Hne).
    rewrite <- (running_rearranged _ _ Hperm).
    unfold Aggregate.length_Z.
    unfold running_distances in Hlen. now rewrite Hlen.
Qed.

Lemma average_distance_is_sum_over_run_days_witness :
  exists s sorted,
    get_running_stats Sample.e15 Sample.latest_first 30 = Returns s /\
    Permutation sorted
      (records_since Sample.e15 30
         (mkTable fitness_log_columns
            [ mkRow 1 "2024-06-03" 80%float true (Some 0x1.3333333333333p-2%float)
                    (Some 30) None "2024-06-15 12:00:00";
              mkRow 2 "2024-06-02" 80%float true (Some 0x1.999999999999ap-3%float)
                    (Some 20) None "2024-06-15 12:00:00";
              mkRow 3 "2024-06-01" 80%float true (Some 0x1.999999999999ap-4%float)
                    (Some 10) None "2024-06-15 12:00:00" ]
            3)) /\
    StronglySorted by_ascending_date sorted /\
    (NoDup ["2024-06-03"; "2024-06-02"; "2024-06-01"] ->
     forall sorted',
       Permutation sorted'
         (records_since Sample.e15 30
            (mkTable fitness_log_columns
               [ mkRow 1 "2024-06-03" 80%float true (Some 0x1.3333333333333p-2%float)
                    (Some 30) None "2024-06-15 12:00:00";
              mkRow 2 "2024-06-02" 80%float true (Some 0x1.999999999999ap-3%float)
                    (Some 20) None "2024-06-15 12:00:00";
              mkRow 3 "2024-06-01" 80%float true (Some 0x1.999999999999ap-4%float)
                    (Some 10) None "2024-06-15 12:00:00" ]
               3)) ->
       StronglySorted by_ascending_date sorted' -> sorted' = sorted) /\
    run_days s = PyInt 3 /\
    total_distance s
      = or_zero (Aggregate.result_double
                   (Aggregate.float_sum (running_distances sorted))) /\
    avg_distance s
      = or_zero (Aggregate.result_double
                   (Aggregate.float_sum (running_distances sorted)
                    / Aggregate.Z2float 3)).
Proof.
  apply (average_distance_is_sum_over_run_days Sample.e15 Sample.latest_first
           (mkTable fitness_log_columns
              [ mkRow 1 "2024-06-03" 80%float true (Some 0x1.3333333333333p-2%float)
                    (Some 30) None "2024-06-15 12:00:00";
              mkRow 2 "2024-06-02" 80%float true (Some 0x1.999999999999ap-3%float)
                    (Some 20) None "2024-06-15 12:00:00";
              mkRow 3 "2024-06-01" 80%float true (Some 0x1.999999999999ap-4%float)
                    (Some 10) None "2024-06-15 12:00:00" ]
              3) 30).
  - reflexivity.
  - reflexivity.
  - reflexivity.
  - vm_compute. discriminate.
  - intros r Hr. vm_compute in Hr.
    destruct Hr as [<-|[<-|[<-|[]]]]; discriminate.
Defined.

(** The order of the sum shows in the result: for runs of 0.3, 0.2 and
    0.1 entered latest day first, the total is 0.1 + 0.2 + 0.3 taken by
    date, 0.6000000000000001, where the order of entry would give 0.6. *)
Lemma total_distance_is_summed_by_date :
  bind (get_running_stats Sample.e15 Sample.latest_first 30)
       (fun s => Returns (total_distance s))
    = Returns (PyFloat 0x1.3333333333334p-1%float) /\
  bind (prepare Sample.latest_first)
       (fun t => Returns (Aggregate.float_sum (running_distances (rows t))))
    = Returns 0x1.3333333333333p-1%float.
Proof. split; reflexivity. Qed.

(** C10, as the claim states it, fails: for three runs of 0.5, 0.5 and
    2.1 the reported total is 3.1 and the reported average is
    1.0333333333333334, whose product with the run count 3 is
    3.1000000000000005, not the total. *)
Lemma average_times_run_days_is_not_total :
  get_running_stats Sample.e15 Sample.three_runs 30
    = Returns (mkStats (PyInt 3) (PyInt 3)
                 (PyFloat 0x1.0888888888889p+0%float)
                 (PyFloat 0x1.8cccccccccccdp+1%float)
                 (PyFloat 10%float)) /\
  py_mul (PyFloat 0x1.0888888888889p+0%float) (PyInt 3)
    = PyFloat 0x1.8cccccccccccep+1%float /\
  py_eq (PyFloat 0x1.8cccccccccccdp+1%float)
        (py_mul (PyFloat 0x1.0888888888889p+0%float) (PyInt 3)) = false.
Proof. repeat split; reflexivity. Qed.

(** * Further properties of the storage layer *)

(** ** The invariant of the store *)

(** What a call that returns [True] was given. *)
Lemma add_entry_true_inputs (e : env) (db db' : database) (out : list string)
    (d : pystr) (w : float) (r : bool) (dist : option float)
    (dur : option Z) (n : option pystr) :
  add_entry e db d w r dist dur n = (db', out, Returns true) ->
  PrimFloat.is_nan w = false /\ an_int64 dur.
Proof.
  unfold add_entry, add_entry_try, connect, prepare.
  destruct (fault e); simpl; [discriminate|].
  destruct (fitness_log db) as [t|]; simpl; [|discriminate].
  destruct d as [s|]; simpl; [|discriminate].
  destruct (bind_optional_int dur) as [dur'|ex] eqn:Hdur; simpl;
    [|destruct ex; discriminate].
  apply bind_optional_int_returns in Hdur. destruct Hdur as [-> Hdur].
  destruct (bind_optional_str n) as [m|ex]; simpl;
    [|destruct ex; discriminate].
  unfold Sql.insert_or_replace.
  destruct (Sql.new_rowid t) as [k|ex]; simpl; [|destruct ex; discriminate].
  destruct (bind_float w) as [w'|] eqn:Hw; simpl; [|discriminate].
  apply bind_float_some in Hw. intros _. now split.
Qed.

(** A call that does not return [True] leaves the database as it was. *)
Lemma add_entry_otherwise_unchanged (e : env) (db db' : database)
    (out : list string) (res : outcome bool)
    (d : pystr) (w : float) (r : bool) (dist : option float)
    (dur : option Z) (n : option pystr) :
  add_entry e db d w r dist dur n = (db', out, res) ->
  res <> Returns true -> db' = db.
Proof.
  unfold add_entry.
  destruct (add_entry_try e db d w r dist dur n) as [x|[m|m| |m]];
    intros H Hres; injection H as <- _ <-; trivial.
  now contradiction Hres.
Qed.

Lemma max_rowid_bound (rs : list row) (r : row) :
  In r rs -> id r <= Sql.max_rowid rs.
Proof.
  induction rs as [|x rest IH]; simpl; [intros []|].
  intros [<-|Hin]; [lia | specialize (IH Hin); lia].
Qed.

Lemma bind_optional_float_is_number (f : option float) :
  a_number (bind_optional_float f).
Proof.
  destruct f as [v|]; simpl; trivial.
  unfold bind_float. destruct (PrimFloat.is_nan v) eqn:Hv; simpl; trivial.
  now apply as_stored_number.
Qed.

Lemma other_ids_unique (d : string) (rs : list row) :
  NoDup (map id rs) -> NoDup (map id (filter (Sql.other_date d) rs)).
Proof.
  induction rs as [|x rest IH]; intros Huniq; simpl; [constructor|].
  apply NoDup_cons_iff in Huniq. destruct Huniq as [Hfresh Hrest].
  destruct (Sql.other_date d x); [|now apply IH].
  simpl. apply NoDup_cons; [|now apply IH].
  intros Hdup. apply Hfresh.
  apply in_map_iff in Hdup. destruct Hdup as (y & Hy & Hin).
  apply filter_In in Hin. rewrite <- Hy. now apply in_map.
Qed.

(** One successful INSERT OR REPLACE keeps a table well formed. *)
Lemma insert_keeps_well_formed (t : table) (k clock : Z) (d : string)
    (w : float) (r : bool) (dist : option float) (dur : option Z)
    (n : option string) :
  well_formed t ->
  Sql.new_rowid t = Returns k ->
  PrimFloat.is_nan w = false -> an_int64 dur ->
  well_formed (mkTable (columns t)
                 (filter (Sql.other_date d) (rows t)
                    ++ [written_row k clock d w r dist dur n])
                 k).
Proof.
  intros [Hcols Hdates Hids Hrows Hseq] Hk Hw Hdur.
  unfold Sql.new_rowid in Hk.
  destruct (max_int64 <=? Z.max (seq t) (Sql.max_rowid (rows t)));
    [discriminate|].
  injection Hk as Hk.
  assert (Hbelow : forall x, In x (rows t) -> 0 < id x < k).
  { intros x Hx. rewrite Forall_forall in Hrows.
    destruct (Hrows x Hx) as [[Hpos Hle] _]. lia. }
  constructor; simpl.
  - exact Hcols.
  - rewrite map_app. apply NoDup_app.
    + now apply other_dates_unique.
    + simpl. constructor; [intros [] | constructor].
    + intros a Ha [<-|[]]. apply in_map_iff in Ha.
      destruct Ha as (x & Hx & Hin). apply filter_In in Hin.
      destruct Hin as [_ Hother]. unfold Sql.other_date in Hother.
      rewrite Hx, String.eqb_refl in Hother. discriminate.
  - rewrite map_app. apply NoDup_app.
    + now apply other_ids_unique.
    + simpl. constructor; [intros [] | constructor].
    + intros a Ha [<-|[]]. apply in_map_iff in Ha.
      destruct Ha as (x & Hx & Hin). apply filter_In in Hin.
      destruct Hin as [Hin _]. specialize (Hbelow x Hin).
      simpl in Hx. lia.
  - apply Forall_app. split.
    + rewrite Forall_forall in *. intros x Hx. apply filter_In in Hx.
      destruct Hx as [Hx _]. destruct (Hrows x Hx) as (_ & Hrest).
      specialize (Hbelow x Hx). split; [lia | exact Hrest].
    + constructor; [|constructor]. simpl. repeat split; trivial; try lia.
      * now apply as_stored_number.
      * apply bind_optional_float_is_number.
  - lia.
Qed.

(** X1. Invariant of the store: in every database that [init_database]
    and [add_entry] calls produce from a file without the table, the
    table, once there, has the declared columns, at most one row per
    date, distinct rowids between 1 and the AUTOINCREMENT counter, and
    no NaN weight or distance and no duration outside 64 bits. *)
Theorem reachable_store_is_well_formed (db : database) (t : table) :
  reachable db -> fitness_log db = Some t -> well_formed t.
Proof.
  intros Hreach. revert t.
  induction Hreach as [|e db Hreach IH|e db d w r dist dur n Hreach IH];
    intros t Ht.
  - discriminate.
  - unfold init_database in Ht. destruct (connect e); simpl in Ht;
      [|now apply IH].
    unfold Sql.create_table_if_not_exists in Ht.
    destruct (fitness_log db) as [t0|] eqn:Ht0.
    + apply IH. congruence.
    + simpl in Ht. injection Ht as <-.
      constructor; simpl; try constructor; lia.
  - destruct (add_entry e db d w r dist dur n) as [[db' out] res] eqn:Hadd.
    simpl in Ht.
    destruct res as [[|]|ex].
    + destruct (add_entry_true_inputs _ _ _ _ _ _ _ _ _ _ Hadd) as [Hw Hdur].
      apply add_entry_true in Hadd.
      destruct Hadd as (t0 & k & s & m & _ & Ht0 & _ & Hk & -> & -> & ->).
      simpl in Ht. injection Ht as <-.
      now apply insert_keeps_well_formed; [apply IH | | |].
    + apply IH. apply add_entry_false in Hadd. destruct Hadd as [-> _].
      exact Ht.
    + apply IH.
      rewrite <- (add_entry_otherwise_unchanged _ _ _ _ _ _ _ _ _ _ _ Hadd);
        [exact Ht | discriminate].
Qed.

Lemma reachable_store_is_well_formed_witness :
  well_formed
    (mkTable fitness_log_columns
       [ mkRow 1 "2024-06-01" 180%float false None None None
               "2024-06-15 12:00:00";
         mkRow 2 "2024-06-02" 179.5%float true
               (Some 0x1.8cccccccccccdp+1%float) (Some 28) None
               "2024-06-15 12:00:00" ]
       2).
Proof.
  apply (reachable_store_is_well_formed Sample.june).
  - exact (reach_add Sample.e15 _ (Str "2024-06-02") 179.5%float true
             (Some 0x1.8cccccccccccdp+1%float) (Some 28) None
             (reach_add Sample.e15 _ (Str "2024-06-01") 180%float false
                None None None
                (reach_init Sample.e15 _ reach_empty))).
  - reflexivity.
Defined.

(** ** Writing, then reading *)

Lemma limit_everything {A : Type} (n : Z) (l : list A) :
  n < 0 \/ Z.of_nat (List.length l) <= n -> Sql.limit n l = l.
Proof.
  intros Hn. unfold Sql.limit.
  destruct (n <? 0) eqn:Hneg; trivial.
  apply Z.ltb_ge in Hneg. apply firstn_all2. lia.
Qed.

(** The rows of a date after a successful call: the written one only. *)
Lemma rows_of_date_after_add (k clock : Z) (d : string) (w : float) (r : bool)
    (dist : option float) (dur : option Z) (n : option string)
    (rs : list row) (x : row) :
  In x (filter (Sql.other_date d) rs ++ [written_row k clock d w r dist dur n]) ->
  date x = d ->
  x = written_row k clock d w r dist dur n.
Proof.
  intros Hin Hd. apply in_app_or in Hin. destruct Hin as [Hin|[<-|[]]]; trivial.
  apply filter_In in Hin. destruct Hin as [_ Hother].
  unfold Sql.other_date in Hother.
  rewrite Hd, String.eqb_refl in Hother. discriminate.
Qed.

(** X2. Writing then listing: after [add_entry] has returned [True],
    [get_recent_entries] with a limit that is negative or not below the
    number of stored rows lists the tuple just written as the engine
    keeps it (a zero weight or distance without its sign, a distance
    that is a NaN as [None]), and lists no other tuple of that date. *)
Theorem added_entry_is_listed (e e' : env) (db db' : database)
    (out : list string) (d : pystr) (w : float) (r : bool)
    (dist : option float) (dur : option Z) (n : option pystr) (lim : Z) :
  add_entry e db d w r dist dur n = (db', out, Returns true) ->
  healthy e' -> fits_int64 lim = true ->
  lim < 0 \/ Z.of_nat (List.length (stored_rows db')) <= lim ->
  exists s m l,
    d = Str s /\ n = option_map Str m /\
    get_recent_entries e' db' lim = Returns l /\
    In (s, as_stored w, r, bind_optional_float dist, dur, m) l /\
    (forall x, In x l -> entry_date x = s ->
               x = (s, as_stored w, r, bind_optional_float dist, dur, m)).
Proof.
  unfold healthy. intros Hadd He' Hfit Hlim.
  apply add_entry_true in Hadd.
  destruct Hadd as (t & k & s & m & _ & _ & _ & _ & -> & -> & ->).
  exists s, m.
  unfold get_recent_entries, connect, prepare, bind_int.
  rewrite He', Hfit. simpl. eexists.
  split; [reflexivity|]. split; [reflexivity|]. split; [reflexivity|].
  unfold stored_rows in Hlim. simpl in Hlim.
  rewrite limit_everything
    by (rewrite order_by_length; exact Hlim).
  split.
  - apply in_map_iff. exists (written_row k (now e) s w r dist dur m).
    split; [reflexivity|].
    apply order_by_In, in_or_app. right. now left.
  - intros x Hx Hd. apply in_map_iff in Hx. destruct Hx as (y & <- & Hy).
    apply order_by_In in Hy.
    now rewrite (rows_of_date_after_add _ _ _ _ _ _ _ _ _ _ Hy Hd).
Qed.

Lemma added_entry_is_listed_witness :
  exists s m l,
    Str "2024-06-02" = Str s /\ Some (Str "rest day") = option_map Str m /\
    get_recent_entries Sample.e15
      (Sample.after Sample.june Sample.e16 "2024-06-02" (-0)%float true
         (Some PrimFloat.nan) (Some 0) (Some "rest day")) 10 = Returns l /\
    In (s, as_stored (-0)%float, true, bind_optional_float (Some PrimFloat.nan),
        Some 0, m) l /\
    (forall x, In x l -> entry_date x = s ->
               x = (s, as_stored (-0)%float, true,
                    bind_optional_float (Some PrimFloat.nan), Some 0, m)).
Proof.
  apply (added_entry_is_listed Sample.e16 Sample.e15 Sample.june
           (Sample.after Sample.june Sample.e16 "2024-06-02" (-0)%float true
              (Some PrimFloat.nan) (Some 0) (Some "rest day"))
           [] (Str "2024-06-02") (-0)%float true (Some PrimFloat.nan) (Some 0)
           (Some (Str "rest day")) 10).
  - reflexivity.
  - reflexivity.
  - reflexivity.
  - right. vm_compute. discriminate.
Defined.

(** X3. Writing then charting, for a [days] of at most 4300 decimal
    digits: after [add_entry(d, w, ...)] has returned [True],
    [get_weight_progress(days)] contains the pair of [d] and the weight
    as the engine keeps it ([w], or 0.0 for a [w] of -0.0) exactly when
    the engine's date [today - days] exists and its text is not above
    [d]; and it never pairs [d] with another weight. *)
Theorem added_weight_is_charted (e e' : env) (db db' : database)
    (out : list string) (d : pystr) (w : float) (r : bool)
    (dist : option float) (dur : option Z) (n : option pystr) (days : Z) :
  add_entry e db d w r dist dur n = (db', out, Returns true) ->
  healthy e' -> int_str_fits days = true ->
  exists s l,
    d = Str s /\
    get_weight_progress e' db' days = Returns l /\
    (In (s, as_stored w) l <->
     exists first,
       Calendar.date_now_minus_days (now e') days = Some first /\
       Sql.text_le first s = true) /\
    (forall w', In (s, w') l -> w' = as_stored w).
Proof.
  unfold healthy. intros Hadd He' Hdays.
  apply add_entry_true in Hadd.
  destruct Hadd as (t & k & s & m & _ & _ & _ & _ & -> & -> & ->).
  exists s.
  unfold get_weight_progress, connect, prepare. rewrite He'.
  rewrite (format_days_fits _ Hdays). simpl.
  eexists. split; [reflexivity|]. split; [reflexivity|].
  unfold Sql.where_recent. split; [split|].
  - intros Hin. apply in_map_iff in Hin. destruct Hin as (x & Hx & Hin).
    injection Hx as Hd _. apply order_by_In, filter_In in Hin.
    destruct Hin as [_ Hge]. unfold Sql.date_ge_cutoff in Hge.
    destruct (Calendar.date_now_minus_days (now e') days) as [c|];
      [|discriminate].
    exists c. split; trivial. now rewrite <- Hd.
  - intros (c & Hc & Hle). apply in_map_iff.
    exists (written_row k (now e) s w r dist dur m). split; [reflexivity|].
    apply order_by_In, filter_In. split.
    + apply in_or_app. right. now left.
    + unfold Sql.date_ge_cutoff. now rewrite Hc.
  - intros w' Hin. apply in_map_iff in Hin. destruct Hin as (x & Hx & Hin).
    injection Hx as Hd <-. apply order_by_In, filter_In in Hin.
    destruct Hin as [Hin _].
    now rewrite (rows_of_date_after_add _ _ _ _ _ _ _ _ _ _ Hin Hd).
Qed.

Lemma added_weight_is_charted_witness :
  exists s l,
    Str "2024-06-02" = Str s /\
    get_weight_progress Sample.e15
      (Sample.after Sample.june Sample.e16 "2024-06-02" (-0)%float false
         None None None) 30 = Returns l /\
    (In (s, as_stored (-0)%float) l <->
     exists first,
       Calendar.date_now_minus_days (now Sample.e15) 30 = Some first /\
       Sql.text_le first s = true) /\
    (forall w', In (s, w') l -> w' = as_stored (-0)%float).
Proof.
  apply (added_weight_is_charted Sample.e16 Sample.e15 Sample.june
           (Sample.after Sample.june Sample.e16 "2024-06-02" (-0)%float false
              None None None)
           [] (Str "2024-06-02") (-0)%float false None None None 30).
  - reflexivity.
  - reflexivity.
  - reflexivity.
Defined.

(** X4. A negative limit: [get_recent_entries(n)] with [n] below 0 (and
    within 64 bits) returns every stored entry, most recent date first. *)
Theorem negative_limit_lists_everything (e : env) (db : database) (t : table)
    (lim : Z) :
  healthy e -> fitness_log db = Some t -> min_int64 <= lim < 0 ->
  exists l,
    get_recent_entries e db lim = Returns l /\
    Permutation l (map select_entry (rows t)) /\
    StronglySorted entries_descending l.
Proof.
  unfold healthy. intros He Ht Hlim.
  unfold get_recent_entries, connect, prepare, bind_int, fits_int64.
  rewrite He, Ht. simpl.
  assert (Hfit : (min_int64 <=? lim) && (lim <=? max_int64) = true).
  { apply andb_true_iff. split; apply Z.leb_le; [|unfold max_int64]; lia. }
  rewrite Hfit. simpl. eexists. split; [reflexivity|].
  rewrite limit_everything by (left; lia). split.
  - apply Permutation_map, order_by_perm.
  - apply Sorted_StronglySorted.
    + intros a b c Hab Hbc. unfold entries_descending, Sql.text_ge in *.
      exact (text_le_trans _ _ _ Hbc Hab).
    + apply Sorted_map with (R := fun a b => Sql.date_desc a b = true).
      * intros a b H. exact H.
      * apply order_by_Sorted, date_desc_total.
Qed.

Lemma negative_limit_lists_everything_witness :
  exists l,
    get_recent_entries Sample.e15 Sample.june (-5) = Returns l /\
    Permutation l
      (map select_entry
         [ mkRow 1 "2024-06-01" 180%float false None None None
                 "2024-06-15 12:00:00";
           mkRow 2 "2024-06-02" 179.5%float true
                 (Some 0x1.8cccccccccccdp+1%float) (Some 28) None
                 "2024-06-15 12:00:00" ]) /\
    StronglySorted entries_descending l.
Proof.
  apply (negative_limit_lists_everything Sample.e15 Sample.june
           (mkTable fitness_log_columns
              [ mkRow 1 "2024-06-01" 180%float false None None None
                      "2024-06-15 12:00:00";
                mkRow 2 "2024-06-02" 179.5%float true
                      (Some 0x1.8cccccccccccdp+1%float) (Some 28) None
                      "2024-06-15 12:00:00" ]
              2) (-5)).
  - reflexivity.
  - reflexivity.
  - unfold min_int64. lia.
Defined.

(** ** Errors and edges of the reports *)

(** X5. The reports do not catch.  When the storage cannot be opened,
    each of [get_recent_entries], [get_weight_progress] and
    [get_running_stats] raises [sqlite3.Error] with the message of
    [sqlite3.connect], whatever its argument.  When the storage opens
    and the table is missing,
    [get_recent_entries] raises [sqlite3.Error] ([no such table]) whatever
    its argument, and the two others do so for a [days] of at most 4300
    decimal digits; for a longer [days] they raise [ValueError]. *)
Theorem reports_raise_storage_errors (e : env) (db : database) (lim days : Z) :
  (forall msg, fault e = Some msg ->
     get_recent_entries e db lim = Raises (SqliteError msg) /\
     get_weight_progress e db days = Raises (SqliteError msg) /\
     get_running_stats e db days = Raises (SqliteError msg)) /\
  (fault e = None -> fitness_log db = None ->
     get_recent_entries e db lim
       = Raises (SqliteError "no such table: fitness_log") /\
     get_weight_progress e db days
       = Raises (if int_str_fits days
                 then SqliteError "no such table: fitness_log"
                 else ValueError digits_message) /\
     get_running_stats e db days
       = Raises (if int_str_fits days
                 then SqliteError "no such table: fitness_log"
                 else ValueError digits_message)).
Proof.
  unfold get_recent_entries, get_weight_progress, get_running_stats,
    connect, prepare, format_days.
  split.
  - intros msg ->. now repeat split.
  - intros -> ->. cbn [bind].
    destruct (int_str_fits days); now repeat split.
Qed.

(** X6. Day counts the engine refuses: for a negative [days] (the SQL
    text then reads [--N days]) and for [days] of 5373485 or more, the
    WHERE clause compares with NULL: when [days] has at most 4300 decimal
    digits, [get_weight_progress] returns the empty list and
    [get_running_stats] returns 0 for its five entries, whatever the
    table holds; when it has more, both raise [ValueError]. *)
Theorem refused_days_select_nothing (e : env) (db : database) (t : table)
    (days : Z) :
  healthy e -> fitness_log db = Some t ->
  days < 0 \/ Calendar.day_limit <= days ->
  (int_str_fits days = true ->
   get_weight_progress e db days = Returns [] /\
   get_running_stats e db days
     = Returns (mkStats (PyInt 0) (PyInt 0) (PyInt 0) (PyInt 0) (PyInt 0))) /\
  (int_str_fits days = false ->
   get_weight_progress e db days = Raises (ValueError digits_message) /\
   get_running_stats e db days = Raises (ValueError digits_message)).
Proof.
  unfold healthy. intros He Ht Hdays.
  pose proof (date_refused (now e) days Hdays) as Hnone.
  unfold get_weight_progress, get_running_stats, connect, prepare,
    Sql.index_scan.
  rewrite He, Ht. split; intros Hfits.
  - rewrite (format_days_fits _ Hfits). cbn [bind].
    rewrite (where_recent_without_date _ _ _ Hnone). split; reflexivity.
  - rewrite (format_days_refused _ Hfits). split; reflexivity.
Qed.

Lemma refused_days_select_nothing_witness :
  (int_str_fits (-30) = true ->
   get_weight_progress Sample.e15 Sample.june (-30) = Returns [] /\
   get_running_stats Sample.e15 Sample.june (-30)
     = Returns (mkStats (PyInt 0) (PyInt 0) (PyInt 0) (PyInt 0) (PyInt 0))) /\
  (int_str_fits (-30) = false ->
   get_weight_progress Sample.e15 Sample.june (-30)
     = Raises (ValueError digits_message) /\
   get_running_stats Sample.e15 Sample.june (-30)
     = Raises (ValueError digits_message)).
Proof.
  apply (refused_days_select_nothing Sample.e15 Sample.june
           (mkTable fitness_log_columns
              [ mkRow 1 "2024-06-01" 180%float false None None None
                      "2024-06-15 12:00:00";
                mkRow 2 "2024-06-02" 179.5%float true
                      (Some 0x1.8cccccccccccdp+1%float) (Some 28) None
                      "2024-06-15 12:00:00" ]
              2) (-30)).
  - reflexivity.
  - reflexivity.
  - left. lia.
Defined.

(** X7. A new tracker: when the constructor has run on a file without
    the table and the storage worked, the table is there and empty, and
    the three reports of a later call whose storage works come back
    empty: no entries, no weights, 0 for the five statistics (for a
    limit within 64 bits and a [days] of at most 4300 decimal digits). *)
Theorem new_tracker_reports_nothing (e e' : env) (lim days : Z) :
  healthy e -> healthy e' -> fits_int64 lim = true ->
  int_str_fits days = true ->
  new_tracker e empty_database
    = (mkDatabase (Some (mkTable fitness_log_columns [] 0)), Returns tt) /\
  get_recent_entries e' (fst (new_tracker e empty_database)) lim = Returns [] /\
  get_weight_progress e' (fst (new_tracker e empty_database)) days = Returns [] /\
  get_running_stats e' (fst (new_tracker e empty_database)) days
    = Returns (mkStats (PyInt 0) (PyInt 0) (PyInt 0) (PyInt 0) (PyInt 0)).
Proof.
  unfold healthy, new_tracker, init_database, connect. intros -> He' Hfit Hdays.
  simpl. split; [reflexivity|].
  unfold get_recent_entries, get_weight_progress, get_running_stats,
    connect, prepare, bind_int.
  rewrite He', Hfit, (format_days_fits _ Hdays). simpl. repeat split.
  unfold Sql.limit. destruct (lim <? 0); trivial. now destruct (Z.to_nat lim).
Qed.

Lemma new_tracker_reports_nothing_witness :
  new_tracker Sample.e15 empty_database
    = (mkDatabase (Some (mkTable fitness_log_columns [] 0)), Returns tt) /\
  get_recent_entries Sample.e16 (fst (new_tracker Sample.e15 empty_database)) 10
    = Returns [] /\
  get_weight_progress Sample.e16 (fst (new_tracker Sample.e15 empty_database)) 30
    = Returns [] /\
  get_running_stats Sample.e16 (fst (new_tracker Sample.e15 empty_database)) 30
    = Returns (mkStats (PyInt 0) (PyInt 0) (PyInt 0) (PyInt 0) (PyInt 0)).
Proof.
  apply (new_tracker_reports_nothing Sample.e15 Sample.e16 10 30); reflexivity.
Defined.

(** What the [try] block of [add_entry] raises, by the first step that
    fails. *)
Lemma add_entry_try_raises (e : env) (db : database)
    (d : pystr) (w : float) (r : bool) (dist : option float)
    (dur : option Z) (n : option pystr) (ex : exn) :
  add_entry_try e db d w r dist dur n = Raises ex ->
  (exists msg, ex = SqliteError msg) \/
  fault e = None /\ fitness_log db <> None /\
  (ex = UnicodeEncodeError /\
   (d = Unencodable \/ encodable d /\ an_int64 dur /\ n = Some Unencodable) \/
   ex = OverflowError overflow_message /\ encodable d /\ ~ an_int64 dur).
Proof.
  unfold add_entry_try, connect, prepare.
  destruct (fault e) as [m|]; simpl.
  { intros H. injection H as <-. left. eauto. }
  destruct (fitness_log db) as [t|]; simpl.
  2:{ intros H. injection H as <-. left. eauto. }
  assert (Ht : Some t <> None) by discriminate.
  destruct d as [s|]; simpl.
  2:{ intros H. injection H as <-. right. repeat split; trivial.
      left. split; trivial. now left. }
  destruct dur as [v|]; simpl.
  - unfold bind_int. destruct (fits_int64 v) eqn:Hv; simpl.
    + destruct n as [[s'|]|]; simpl.
      * unfold Sql.insert_or_replace, Sql.new_rowid.
        destruct (max_int64 <=? _); simpl;
          [intros H; injection H as <-; left; eauto|].
        destruct (bind_float w); simpl; [discriminate|].
        intros H; injection H as <-; left; eauto.
      * intros H. injection H as <-. right. repeat split; trivial.
        left. split; trivial. right. now repeat split.
      * unfold Sql.insert_or_replace, Sql.new_rowid.
        destruct (max_int64 <=? _); simpl;
          [intros H; injection H as <-; left; eauto|].
        destruct (bind_float w); simpl; [discriminate|].
        intros H; injection H as <-; left; eauto.
    + intros H. injection H as <-. right. repeat split; trivial.
      right. repeat split; trivial. simpl. congruence.
  - destruct n as [[s'|]|]; simpl.
    + unfold Sql.insert_or_replace, Sql.new_rowid.
      destruct (max_int64 <=? _); simpl;
        [intros H; injection H as <-; left; eauto|].
      destruct (bind_float w); simpl; [discriminate|].
      intros H; injection H as <-; left; eauto.
    + intros H. injection H as <-. right. repeat split; trivial.
      left. split; trivial. right. now repeat split.
    + unfold Sql.insert_or_replace, Sql.new_rowid.
      destruct (max_int64 <=? _); simpl;
        [intros H; injection H as <-; left; eauto|].
      destruct (bind_float w); simpl; [discriminate|].
      intros H; injection H as <-; left; eauto.
Qed.




(** ** The reports see entries, not rows *)

Section SameEntry.

Variable le : row -> row -> bool.
Hypothesis le_same : forall a a' b b',
  same_entry a a' -> same_entry b b' -> le a b = le a' b'.

Lemma insert_sorted_same (r r' : row) (rs rs' : list row) :
  same_entry r r' -> Forall2 same_entry rs rs' ->
  Forall2 same_entry (Sql.insert_sorted le r rs) (Sql.insert_sorted le r' rs').
Proof.
  intros Hr. induction 1 as [|x x' rest rest' Hx Hrest IH]; simpl.
  - now repeat constructor.
  - rewrite (le_same r r' x x' Hr Hx).
    destruct (le r' x'); repeat constructor; trivial.
Qed.

Lemma order_by_same (rs rs' : list row) :
  Forall2 same_entry rs rs' ->
  Forall2 same_entry (Sql.order_by le rs) (Sql.order_by le rs').
Proof.
  induction 1 as [|x x' rest rest' Hx Hrest IH]; simpl.
  - constructor.
  - now apply insert_sorted_same.
Qed.

End SameEntry.

Lemma same_entry_date (a b : row) : same_entry a b -> date a = date b.
Proof. unfold same_entry, select_entry. now intros [= ->]. Qed.

Lemma date_desc_same (a a' b b' : row) :
  same_entry a a' -> same_entry b b' -> Sql.date_desc a b = Sql.date_desc a' b'.
Proof.
  intros Ha Hb. unfold Sql.date_desc.
  now rewrite (same_entry_date _ _ Ha), (same_entry_date _ _ Hb).
Qed.

Lemma date_asc_same (a a' b b' : row) :
  same_entry a a' -> same_entry b b' -> Sql.date_asc a b = Sql.date_asc a' b'.
Proof.
  intros Ha Hb. unfold Sql.date_asc.
  now rewrite (same_entry_date _ _ Ha), (same_entry_date _ _ Hb).
Qed.

Lemma filter_same (p : row -> bool) (rs rs' : list row) :
  (forall a a', same_entry a a' -> p a = p a') ->
  Forall2 same_entry rs rs' ->
  Forall2 same_entry (filter p rs) (filter p rs').
Proof.
  intros Hp. induction 1 as [|x x' rest rest' Hx Hrest IH]; simpl.
  - constructor.
  - rewrite (Hp x x' Hx). destruct (p x'); [constructor|]; trivial.
Qed.

Lemma map_same {B : Type} (f : row -> B) (rs rs' : list row) :
  (forall a a', same_entry a a' -> f a = f a') ->
  Forall2 same_entry rs rs' -> map f rs = map f rs'.
Proof.
  intros Hf. induction 1 as [|x x' rest rest' Hx Hrest IH]; simpl; trivial.
  now rewrite (Hf x x' Hx), IH.
Qed.

Lemma limit_same (n : Z) (rs rs' : list row) :
  Forall2 same_entry rs rs' ->
  Forall2 same_entry (Sql.limit n rs) (Sql.limit n rs').
Proof.
  intros H. unfold Sql.limit. destruct (n <? 0); trivial.
  revert rs rs' H. induction (Z.to_nat n) as [|k IH]; intros rs rs' H; simpl.
  - constructor.
  - destruct H; constructor; auto.
Qed.

Lemma same_entry_refl (rs : list row) : Forall2 same_entry rs rs.
Proof. induction rs; constructor; trivial. reflexivity. Qed.

(** Two tables whose rows agree, one by one, on the six selected columns
    give the same three reports. *)
Lemma reports_of_same_entries (e : env) (t t' : table) (lim days : Z) :
  Forall2 same_entry (rows t) (rows t') ->
  get_recent_entries e (mkDatabase (Some t)) lim
    = get_recent_entries e (mkDatabase (Some t')) lim /\
  get_weight_progress e (mkDatabase (Some t)) days
    = get_weight_progress e (mkDatabase (Some t')) days /\
  get_running_stats e (mkDatabase (Some t)) days
    = get_running_stats e (mkDatabase (Some t')) days.
Proof.
  intros Hsame.
  unfold get_recent_entries, get_weight_progress, get_running_stats,
    connect, prepare.
  destruct (fault e); simpl; [repeat split|].
  assert (Hwin : Forall2 same_entry
                   (Sql.where_recent (now e) days (rows t))
                   (Sql.where_recent (now e) days (rows t'))).
  { apply filter_same; trivial. intros a a' Ha.
    unfold Sql.date_ge_cutoff. now rewrite (same_entry_date _ _ Ha). }
  assert (Hscan : Forall2 same_entry
                    (Sql.index_scan (now e) days (rows t))
                    (Sql.index_scan (now e) days (rows t'))).
  { unfold Sql.index_scan. apply order_by_same; trivial. apply date_asc_same. }
  split; [|split].
  - destruct (bind_int lim) as [k|ex]; simpl; trivial. f_equal.
    apply map_same; [now intros a a' Ha|].
    apply limit_same, order_by_same; trivial. apply date_desc_same.
  - destruct (format_days days) as [[]|ex]; simpl; trivial. f_equal. apply map_same.
    + intros a a' Ha. unfold same_entry, select_entry in Ha.
      now injection Ha as -> -> _ _ _ _.
    + apply order_by_same; trivial. apply date_asc_same.
  - destruct (format_days days) as [[]|ex]; simpl; trivial.
    assert (Hone : map case_ran_one (Sql.index_scan (now e) days (rows t))
                   = map case_ran_one (Sql.index_scan (now e) days (rows t'))).
    { apply map_same; trivial. intros a a' Ha.
      unfold same_entry, select_entry in Ha. unfold case_ran_one.
      now injection Ha as _ _ -> _ _ _. }
    assert (Hdist : map case_ran_distance (Sql.index_scan (now e) days (rows t))
                    = map case_ran_distance (Sql.index_scan (now e) days (rows t'))).
    { apply map_same; trivial. intros a a' Ha.
      unfold same_entry, select_entry in Ha. unfold case_ran_distance.
      now injection Ha as _ _ -> -> _ _. }
    assert (Hdur : map case_ran_duration (Sql.index_scan (now e) days (rows t))
                   = map case_ran_duration (Sql.index_scan (now e) days (rows t'))).
    { apply map_same; trivial. intros a a' Ha.
      unfold same_entry, select_entry in Ha. unfold case_ran_duration.
      now injection Ha as _ _ -> _ -> _. }
    rewrite Hone, Hdist, Hdur. unfold Aggregate.count_star, Aggregate.length_Z.
    now rewrite (Forall2_length Hscan).
Qed.

(** X9. Entering an entry twice: when [add_entry] returns [True] twice
    in a row for the same arguments (at any two moments), the three
    reports after the second call are those after the first. *)
Theorem add_entry_twice_reports_once (e1 e2 e : env) (db db1 db2 : database)
    (out1 out2 : list string) (d : pystr) (w : float) (r : bool)
    (dist : option float) (dur : option Z) (n : option pystr)
    (lim days : Z) :
  add_entry e1 db d w r dist dur n = (db1, out1, Returns true) ->
  add_entry e2 db1 d w r dist dur n = (db2, out2, Returns true) ->
  get_recent_entries e db2 lim = get_recent_entries e db1 lim /\
  get_weight_progress e db2 days = get_weight_progress e db1 days /\
  get_running_stats e db2 days = get_running_stats e db1 days.
Proof.
  intros H1 H2.
  apply add_entry_true in H1.
  destruct H1 as (t & k1 & s & m & _ & _ & _ & _ & -> & -> & ->).
  apply add_entry_true in H2.
  destruct H2 as (t1 & k2 & s' & m' & _ & Ht1 & _ & _ & Hs & Hm & ->).
  injection Hs as <-.
  assert (Hmm : m' = m).
  { destruct m, m'; simpl in Hm; try discriminate; trivial.
    now injection Hm as ->. }
  subst m'.
  simpl in Ht1. injection Ht1 as <-. cbn [rows columns].
  apply reports_of_same_entries. cbn [rows].
  rewrite filter_app, filter_other_idempotent. simpl.
  unfold Sql.other_date at 2. simpl. rewrite String.eqb_refl. simpl.
  rewrite app_nil_r. apply Forall2_app; [apply same_entry_refl|].
  repeat constructor.
Qed.

Lemma add_entry_twice_reports_once_witness :
  get_recent_entries Sample.e15
      (Sample.after Sample.june_overwritten Sample.e15 "2024-06-02" 179%float
         false None None (Some "rest day")) 10
    = get_recent_entries Sample.e15 Sample.june_overwritten 10 /\
  get_weight_progress Sample.e15
      (Sample.after Sample.june_overwritten Sample.e15 "2024-06-02" 179%float
         false None None (Some "rest day")) 30
    = get_weight_progress Sample.e15 Sample.june_overwritten 30 /\
  get_running_stats Sample.e15
      (Sample.after Sample.june_overwritten Sample.e15 "2024-06-02" 179%float
         false None None (Some "rest day")) 30
    = get_running_stats Sample.e15 Sample.june_overwritten 30.
Proof.
  apply (add_entry_twice_reports_once Sample.e16 Sample.e15 Sample.e15
           Sample.june Sample.june_overwritten
           (Sample.after Sample.june_overwritten Sample.e15 "2024-06-02"
              179%float false None None (Some "rest day"))
           [] [] (Str "2024-06-02") 179%float false None None
           (Some (Str "rest day")) 10 30).
  - reflexivity.
  - reflexivity.
Defined.

(** ** The order of entry does not matter *)

Lemma limit_map {A B : Type} (f : A -> B) (n : Z) (l : list A) :
  map f (Sql.limit n l) = Sql.limit n (map f l).
Proof.
  unfold Sql.limit. destruct (n <? 0); trivial. symmetry. apply firstn_map.
Qed.

Lemma entries_descending_trans (a b c : entry) :
  entries_descending a b -> entries_descending b c -> entries_descending a c.
Proof.
  unfold entries_descending, Sql.text_ge. intros Hab Hbc.
  exact (text_le_trans _ _ _ Hbc Hab).
Qed.

Lemma pairs_ascending_trans (a b c : string * float) :
  pairs_ascending a b -> pairs_ascending b c -> pairs_ascending a c.
Proof. unfold pairs_ascending. apply text_le_trans. Qed.

Lemma sorted_entries (rs : list row) :
  StronglySorted entries_descending
    (map select_entry (Sql.order_by Sql.date_desc rs)).
Proof.
  apply Sorted_StronglySorted; [exact entries_descending_trans|].
  apply Sorted_map with (R := fun a b => Sql.date_desc a b = true).
  - intros a b H. exact H.
  - apply order_by_Sorted, date_desc_total.
Qed.

Lemma sorted_pairs (rs : list row) :
  StronglySorted pairs_ascending
    (map (fun r => (date r, weight r)) (Sql.order_by Sql.date_asc rs)).
Proof.
  apply Sorted_StronglySorted; [exact pairs_ascending_trans|].
  apply Sorted_map with (R := fun a b => Sql.date_asc a b = true).
  - intros a b H. exact H.
  - apply order_by_Sorted, date_asc_total.
Qed.

Lemma entry_dates (rs : list row) :
  map entry_date (map select_entry rs) = map date rs.
Proof. rewrite map_map. now apply map_ext. Qed.

Lemma pair_dates (rs : list row) :
  map fst (map (fun r => (date r, weight r)) rs) = map date rs.
Proof. rewrite map_map. now apply map_ext. Qed.

(** The selected rows, read off the entries. *)
Lemma where_recent_entries (clock days : Z) (rs : list row) :
  map select_entry (Sql.where_recent clock days rs)
  = filter (fun x => match Calendar.date_now_minus_days clock days with
                     | None => false
                     | Some c => Sql.text_ge (entry_date x) c
                     end)
           (map select_entry rs).
Proof.
  unfold Sql.where_recent, Sql.date_ge_cutoff.
  induction rs as [|x rest IH]; simpl; trivial.
  destruct (Calendar.date_now_minus_days clock days) as [c|].
  - destruct (Sql.text_ge (date x) c); simpl; now rewrite IH.
  - exact IH.
Qed.

(** Two tables with one row per date that hold the same entries, in
    whatever row order, give the same list of recent entries and the same
    weight progress. *)
Lemma reports_of_rearranged_entries (e : env) (t t' : table) (lim days : Z) :
  NoDup (map date (rows t)) ->
  Permutation (map select_entry (rows t)) (map select_entry (rows t')) ->
  get_recent_entries e (mkDatabase (Some t)) lim
    = get_recent_entries e (mkDatabase (Some t')) lim /\
  get_weight_progress e (mkDatabase (Some t)) days
    = get_weight_progress e (mkDatabase (Some t')) days.
Proof.
  intros Huniq Hperm.
  unfold get_recent_entries, get_weight_progress, connect, prepare.
  destruct (fault e); simpl; [now split|]. split.
  - destruct (bind_int lim) as [k|ex]; simpl; trivial. f_equal.
    rewrite !limit_map. f_equal.
    apply (sorted_rearrangement_unique entry_date entries_descending).
    + intros x y Hxy Hyx. unfold entries_descending, Sql.text_ge in *.
      now apply String.leb_antisym.
    + apply sorted_entries.
    + apply sorted_entries.
    + eapply perm_trans; [apply Permutation_map, order_by_perm|].
      eapply perm_trans; [exact Hperm|].
      apply Permutation_sym, Permutation_map, order_by_perm.
    + rewrite entry_dates.
      eapply Permutation_NoDup; [|exact Huniq].
      apply Permutation_sym, Permutation_map, order_by_perm.
  - destruct (format_days days) as [[]|ex]; simpl; trivial. f_equal.
    assert (Hpairs : forall rs,
      map (fun r => (date r, weight r)) rs
      = map (fun x : entry => (entry_date x, let '(_, w, _, _, _, _) := x in w))
            (map select_entry rs)).
    { intros rs. rewrite map_map. now apply map_ext. }
    apply (sorted_rearrangement_unique fst pairs_ascending).
    + intros x y Hxy Hyx. unfold pairs_ascending, Sql.text_le in *.
      now apply String.leb_antisym.
    + apply sorted_pairs.
    + apply sorted_pairs.
    + eapply perm_trans; [apply Permutation_map, order_by_perm|].
      eapply perm_trans;
        [|apply Permutation_sym, Permutation_map, order_by_perm].
      rewrite !Hpairs, !where_recent_entries.
      now apply Permutation_map, selection_of_rearranged.
    + rewrite pair_dates.
      eapply Permutation_NoDup;
        [apply Permutation_sym, Permutation_map, order_by_perm|].
      now apply selection_keeps_dates_unique.
Qed.

Lemma filter_other_comm (d1 d2 : string) (rs : list row) :
  filter (Sql.other_date d1) (filter (Sql.other_date d2) rs)
  = filter (Sql.other_date d2) (filter (Sql.other_date d1) rs).
Proof.
  induction rs as [|x rest IH]; simpl; trivial.
  destruct (Sql.other_date d2 x) eqn:H2, (Sql.other_date d1 x) eqn:H1; simpl;
    rewrite ?H1, ?H2, IH; reflexivity.
Qed.

(** X10. Two entries in either order: on a table with one row per date,
    entering an entry for date [dA] and then one for another date [dB],
    or the two the other way round (all four calls returning [True]),
    leads to the same list of recent entries and the same weight
    progress. *)
Theorem entries_in_either_order (ea eb ea' eb' e : env)
    (db dbA dbAB dbB dbBA : database) (o1 o2 o3 o4 : list string)
    (dA dB : pystr) (wA wB : float) (rA rB : bool)
    (distA distB : option float) (durA durB : option Z)
    (nA nB : option pystr) (lim days : Z) :
  NoDup (map date (stored_rows db)) -> dA <> dB ->
  add_entry ea db dA wA rA distA durA nA = (dbA, o1, Returns true) ->
  add_entry eb dbA dB wB rB distB durB nB = (dbAB, o2, Returns true) ->
  add_entry eb' db dB wB rB distB durB nB = (dbB, o3, Returns true) ->
  add_entry ea' dbB dA wA rA distA durA nA = (dbBA, o4, Returns true) ->
  get_recent_entries e dbBA lim = get_recent_entries e dbAB lim /\
  get_weight_progress e dbBA days = get_weight_progress e dbAB days.
Proof.
  intros Huniq Hneq H1 H2 H3 H4.
  apply add_entry_true in H1.
  destruct H1 as (t & k1 & sA & mA & _ & Ht & _ & _ & -> & -> & ->).
  apply add_entry_true in H2.
  destruct H2 as (t1 & k2 & sB & mB & _ & Ht1 & _ & _ & -> & -> & ->).
  apply add_entry_true in H3.
  destruct H3 as (t' & k3 & sB' & mB' & _ & Ht' & _ & _ & HsB & HmB & ->).
  apply add_entry_true in H4.
  destruct H4 as (t3 & k4 & sA' & mA' & _ & Ht3 & _ & _ & HsA & HmA & ->).
  injection HsA as <-. injection HsB as <-.
  assert (HA : mA' = mA).
  { destruct mA, mA'; simpl in HmA; try discriminate; trivial.
    now injection HmA as ->. }
  assert (HB : mB' = mB).
  { destruct mB, mB'; simpl in HmB; try discriminate; trivial.
    now injection HmB as ->. }
  subst mA' mB'.
  assert (Hneq' : sA <> sB) by congruence.
  simpl in Ht1, Ht3. injection Ht1 as <-. injection Ht3 as <-.
  rewrite Ht in Ht'. injection Ht' as <-.
  unfold stored_rows in Huniq. rewrite Ht in Huniq. cbn [rows columns].
  assert (HAB : Sql.other_date sB (written_row k1 (now ea) sA wA rA distA durA mA)
                = true).
  { unfold Sql.other_date. simpl. apply negb_true_iff. now apply String.eqb_neq. }
  assert (HBA : Sql.other_date sA (written_row k3 (now eb') sB wB rB distB durB mB)
                = true).
  { unfold Sql.other_date. simpl. apply negb_true_iff.
    apply String.eqb_neq. congruence. }
  apply reports_of_rearranged_entries; cbn [rows].
  - rewrite filter_app. simpl. rewrite HBA, map_app. apply NoDup_app.
    + rewrite map_app. apply NoDup_app.
      * now apply selection_keeps_dates_unique, selection_keeps_dates_unique.
      * simpl. constructor; [intros [] | constructor].
      * intros a Ha [<-|[]]. apply in_map_iff in Ha.
        destruct Ha as (x & Hx & Hin). apply filter_In in Hin.
        destruct Hin as [Hin _]. apply filter_In in Hin.
        destruct Hin as [_ Hother]. unfold Sql.other_date in Hother.
        simpl in Hx. rewrite Hx, String.eqb_refl in Hother. discriminate.
    + simpl. constructor; [intros [] | constructor].
    + intros a Ha [<-|[]]. simpl in Ha. rewrite map_app in Ha.
      apply in_app_or in Ha. destruct Ha as [Ha|[Ha|[]]].
      * apply in_map_iff in Ha. destruct Ha as (x & Hx & Hin).
        apply filter_In in Hin. destruct Hin as [_ Hother].
        unfold Sql.other_date in Hother.
        rewrite Hx, String.eqb_refl in Hother. discriminate.
      * simpl in Ha. congruence.
  - rewrite !filter_app. simpl. rewrite HAB, HBA.
    rewrite (filter_other_comm sA sB), !map_app. simpl.
    rewrite <- !app_assoc. apply Permutation_app_head. simpl.
    apply perm_swap.
Qed.

Lemma entries_in_either_order_witness :
  get_recent_entries Sample.e16
      (Sample.after
         (Sample.after Sample.fresh Sample.e15 "2024-06-02" 179.5%float true
            (Some 0x1.8cccccccccccdp+1%float) (Some 28) None)
         Sample.e15 "2024-06-01" 180%float false None None None) 10
    = get_recent_entries Sample.e16 Sample.june 10 /\
  get_weight_progress Sample.e16
      (Sample.after
         (Sample.after Sample.fresh Sample.e15 "2024-06-02" 179.5%float true
            (Some 0x1.8cccccccccccdp+1%float) (Some 28) None)
         Sample.e15 "2024-06-01" 180%float false None None None) 30
    = get_weight_progress Sample.e16 Sample.june 30.
Proof.
  apply (entries_in_either_order Sample.e15 Sample.e15 Sample.e15 Sample.e15
           Sample.e16 Sample.fresh
           (Sample.after Sample.fresh Sample.e15 "2024-06-01" 180%float false
              None None None)
           Sample.june
           (Sample.after Sample.fresh Sample.e15 "2024-06-02" 179.5%float true
              (Some 0x1.8cccccccccccdp+1%float) (Some 28) None)
           (Sample.after
              (Sample.after Sample.fresh Sample.e15 "2024-06-02" 179.5%float true
                 (Some 0x1.8cccccccccccdp+1%float) (Some 28) None)
              Sample.e15 "2024-06-01" 180%float false None None None)
           [] [] [] []
           (Str "2024-06-01") (Str "2024-06-02") 180%float 179.5%float false true
           None (Some 0x1.8cccccccccccdp+1%float) None (Some 28) None None
           10 30).
  - vm_compute. constructor.
  - discriminate.
  - reflexivity.
  - reflexivity.
  - reflexivity.
  - reflexivity.
Defined.

Lemma prefix_without_repeat {A : Type} (n : nat) (l : list A) :
  NoDup l -> NoDup (firstn n l).
Proof.
  revert l. induction n as [|n IH]; intros l Hl; simpl; [constructor|].
  destruct Hl as [|x rest Hfresh Hrest]; constructor; auto.
  intros Hin. apply Hfresh.
  rewrite <- (firstn_skipn n rest). apply in_or_app. now left.
Qed.

(** X11. One line per date: on a table with one row per date (as the
    UNIQUE constraint keeps it), no date occurs twice in the result of
    [get_recent_entries] nor in the result of [get_weight_progress] (for
    a limit within 64 bits and a [days] of at most 4300 decimal
    digits). *)
Theorem reports_list_each_date_once (e : env) (db : database) (t : table)
    (lim days : Z) :
  healthy e -> fitness_log db = Some t -> fits_int64 lim = true ->
  int_str_fits days = true ->
  NoDup (map date (rows t)) ->
  exists l p,
    get_recent_entries e db lim = Returns l /\
    NoDup (map entry_date l) /\
    get_weight_progress e db days = Returns p /\
    NoDup (map fst p).
Proof.
  unfold healthy. intros He Ht Hfit Hdays Huniq.
  unfold get_recent_entries, get_weight_progress, connect, prepare, bind_int.
  rewrite He, Ht, Hfit, (format_days_fits _ Hdays). simpl. do 2 eexists.
  split; [reflexivity|]. split; [|split; [reflexivity|]].
  - rewrite entry_dates.
    assert (Hall : NoDup (map date (Sql.order_by Sql.date_desc (rows t)))).
    { eapply Permutation_NoDup; [|exact Huniq].
      apply Permutation_sym, Permutation_map, order_by_perm. }
    unfold Sql.limit. destruct (lim <? 0); trivial.
    rewrite <- firstn_map. now apply prefix_without_repeat.
  - rewrite pair_dates.
    eapply Permutation_NoDup;
      [apply Permutation_sym, Permutation_map, order_by_perm|].
    now apply selection_keeps_dates_unique.
Qed.

Lemma reports_list_each_date_once_witness :
  exists l p,
    get_recent_entries Sample.e15 Sample.january 2 = Returns l /\
    NoDup (map entry_date l) /\
    get_weight_progress Sample.e15 Sample.january 365 = Returns p /\
    NoDup (map fst p).
Proof.
  apply (reports_list_each_date_once Sample.e15 Sample.january
           (mkTable fitness_log_columns
              [ mkRow 1 "2024-01-01" 80%float false None None None "2024-06-15 12:00:00";
                mkRow 2 "2024-01-03" 81%float false None None None "2024-06-15 12:00:00";
                mkRow 3 "2024-01-02" 82%float false None None None "2024-06-15 12:00:00" ]
              3) 2 365).
  - reflexivity.
  - reflexivity.
  - reflexivity.
  - reflexivity.
  - simpl. repeat constructor; simpl; intuition discriminate.
Defined.

(** * Properties of the console routines *)

(** ** [format_duration] *)

Lemma string_of_uint_numeric (d : Decimal.uint) :
  numeric (DecimalString.NilEmpty.string_of_uint d).
Proof. induction d; simpl; auto. Qed.

Lemma str_int_numeric (z : Z) : numeric (Py.str_int z).
Proof.
  unfold Py.str_int, DecimalString.NilZero.string_of_int,
    DecimalString.NilZero.string_of_uint.
  destruct (Z.to_int z) as [d|d]; destruct d; simpl; auto;
    repeat split; apply string_of_uint_numeric.
Qed.

Lemma str_int_not_empty (z : Z) : Py.str_int z <> "".
Proof.
  unfold Py.str_int, DecimalString.NilZero.string_of_int,
    DecimalString.NilZero.string_of_uint.
  destruct (Z.to_int z) as [d|d]; destruct d; simpl; discriminate.
Qed.

Lemma to_int_proper (z : Z) :
  Z.to_int z <> Decimal.Pos Decimal.Nil /\ Z.to_int z <> Decimal.Neg Decimal.Nil.
Proof.
  destruct z as [|p|p]; simpl; split; try discriminate;
    intros H; injection H as H; exact (DecimalPos.Unsigned.to_uint_nonnil p H).
Qed.

(** Two integers with the same decimal text are the same. *)
Lemma str_int_inj (a b : Z) : Py.str_int a = Py.str_int b -> a = b.
Proof.
  unfold Py.str_int. intros H.
  apply (f_equal DecimalString.NilZero.int_of_string) in H.
  destruct (to_int_proper a) as [Ha1 Ha2], (to_int_proper b) as [Hb1 Hb2].
  rewrite !DecimalString.NilZero.isi in H by assumption.
  injection H as H. now apply DecimalZ.to_int_inj.
Qed.

(** A text that starts with digits and signs up to a first other
    character is cut there in one way only. *)
Lemma numeric_prefix_unique (s1 s2 t1 t2 : string) (c1 c2 : ascii) :
  numeric s1 -> numeric s2 ->
  numeric_char c1 = false -> numeric_char c2 = false ->
  s1 ++ String c1 t1 = s2 ++ String c2 t2 ->
  s1 = s2 /\ c1 = c2 /\ t1 = t2.
Proof.
  revert s2. induction s1 as [|x s1 IH]; intros [|y s2]; simpl;
    intros H1 H2 Hc1 Hc2 Heq.
  - now injection Heq as -> ->.
  - injection Heq as -> _. destruct H2 as [H2 _]. congruence.
  - injection Heq as -> _. destruct H1 as [H1 _]. congruence.
  - injection Heq as -> Heq. destruct H1 as [_ H1], H2 as [_ H2].
    destruct (IH s2 H1 H2 Hc1 Hc2 Heq) as (-> & -> & ->). now repeat split.
Qed.

Lemma minutes_text_inj (a b : Z) (t1 t2 : string) :
  Py.str_int a ++ "m" ++ t1 = Py.str_int b ++ "m" ++ t2 -> a = b.
Proof.
  intros H. apply str_int_inj.
  now apply (numeric_prefix_unique _ _ t1 t2 "m" "m");
    try apply str_int_numeric.
Qed.

(** X12. Durations are told apart: [format_duration] gives two different
    texts for two different arguments, [None] and negative minutes
    included. *)
Theorem format_duration_injective (a b : option Z) :
  format_duration a = format_duration b -> a = b.
Proof.
  assert (Hna : forall m, format_duration (Some m) <> "N/A").
  { intros m H. unfold format_duration in H.
    destruct (m / 60 =? 0).
    - apply (numeric_prefix_unique (Py.str_int (m mod 60)) "" "" "/A" "m" "N")
        in H; simpl; auto using str_int_numeric.
      destruct H as [H _]. now apply str_int_not_empty in H.
    - apply (numeric_prefix_unique (Py.str_int (m / 60)) "" _ "/A" "h" "N")
        in H; simpl; auto using str_int_numeric.
      destruct H as [H _]. now apply str_int_not_empty in H. }
  destruct a as [a|], b as [b|]; trivial; intros H.
  - f_equal. unfold format_duration in H.
    rewrite (Z.div_mod a 60), (Z.div_mod b 60) by lia.
    destruct (a / 60 =? 0) eqn:Ha, (b / 60 =? 0) eqn:Hb.
    + apply Z.eqb_eq in Ha, Hb. rewrite Ha, Hb.
      f_equal. now apply (minutes_text_inj _ _ "" "").
    + apply (numeric_prefix_unique _ _ "" _ "m" "h") in H;
        auto using str_int_numeric.
      destruct H as (_ & H & _). discriminate.
    + apply (numeric_prefix_unique _ _ _ "" "h" "m") in H;
        auto using str_int_numeric.
      destruct H as (_ & H & _). discriminate.
    + apply (numeric_prefix_unique _ _ _ _ "h" "h") in H;
        auto using str_int_numeric.
      destruct H as (Hh & _ & Hm). apply str_int_inj in Hh.
      injection Hm as Hm. apply (minutes_text_inj _ _ "" "") in Hm.
      now rewrite Hh, Hm.
  - now apply Hna in H.
  - symmetry in H. now apply Hna in H.
Qed.

Lemma format_duration_injective_witness : Some 125 = Some (60 * 2 + 5).
Proof.
  apply (format_duration_injective (Some 125) (Some (60 * 2 + 5))).
  reflexivity.
Defined.

(** X13. The parts of a duration: for every number of minutes [m] of at
    most 4300 digits the text ends with the minutes [m mod 60], between
    0 and 59, and starts with the hours [m / 60] exactly when these are
    not 0; so all of 0 to 59 are shown without hours, and a negative [m]
    is shown with negative hours and the minutes counted upwards from
    them. *)
Theorem format_duration_parts (m : Z) :
  int_str_fits m = true ->
  0 <= m mod 60 < 60 /\ m = 60 * (m / 60) + m mod 60 /\
  (0 <= m < 60 -> format_duration (Some m) = Py.str_int m ++ "m") /\
  (m < 0 \/ 60 <= m ->
   m / 60 <> 0 /\ (m < 0 -> m / 60 < 0) /\
   format_duration (Some m)
     = Py.str_int (m / 60) ++ "h " ++ Py.str_int (m mod 60) ++ "m").
Proof.
  intros _.
  split; [apply Z.mod_pos_bound; lia|].
  split; [apply Z.div_mod; lia|].
  unfold format_duration. split.
  - intros Hm. rewrite Z.div_small, Z.mod_small by lia. reflexivity.
  - intros Hm.
    assert (Hh : m / 60 <> 0).
    { intros H0. apply Z.div_small_iff in H0; lia. }
    repeat split; trivial.
    + intros Hneg. apply Z.div_lt_upper_bound; lia.
    + apply Z.eqb_neq in Hh. now rewrite Hh.
Qed.

Lemma format_duration_parts_witness :
  0 <= (-5) mod 60 < 60 /\ -5 = 60 * (-5 / 60) + (-5) mod 60 /\
  (0 <= -5 < 60 -> format_duration (Some (-5)) = Py.str_int (-5) ++ "m") /\
  (-5 < 0 \/ 60 <= -5 ->
   -5 / 60 <> 0 /\ (-5 < 0 -> -5 / 60 < 0) /\
   format_duration (Some (-5))
     = Py.str_int (-5 / 60) ++ "h " ++ Py.str_int ((-5) mod 60) ++ "m").
Proof.
  apply (format_duration_parts (-5)). reflexivity.
Defined.

(** ** The notes column *)

Lemma substring_length (n : nat) (s : string) :
  (n <= String.length s)%nat -> String.length (substring 0 n s) = n.
Proof.
  revert s. induction n as [|n IH]; intros [|c s]; simpl; intros H;
    try reflexivity; try lia.
  f_equal. apply IH. lia.
Qed.

Lemma append_length (s t : string) :
  String.length (s ++ t) = (String.length s + String.length t)%nat.
Proof. induction s as [|c s IH]; simpl; [|rewrite IH]; reflexivity. Qed.

(** X14. The notes column is at most 18 characters wide: notes of up to
    15 characters are shown as they are (absent notes as the empty
    text), longer ones as their first 15 characters followed by three
    dots. *)
Theorem notes_str_width (notes : option string) :
  (String.length (notes_str notes) <= 18)%nat /\
  (notes = None -> notes_str notes = "") /\
  (forall s, notes = Some s ->
     ((String.length s <= 15)%nat -> notes_str notes = s) /\
     ((15 < String.length s)%nat ->
        notes_str notes = substring 0 15 s ++ "..." /\
        String.length (notes_str notes) = 18%nat)).
Proof.
  destruct notes as [s|]; simpl.
  2:{ split; [lia|]. split; [reflexivity|]. intros s H. discriminate. }
  destruct (Nat.ltb_spec 15 (String.length s)) as [Hlong|Hshort].
  - assert (Hne : String.eqb s "" = false)
      by (destruct s; [simpl in Hlong; lia | reflexivity]).
    rewrite Hne. simpl.
    assert (Hlen : String.length (substring 0 15 s ++ "...") = 18%nat)
      by (rewrite append_length, substring_length by lia; reflexivity).
    split; [lia|]. split; [discriminate|].
    intros s' [= <-]. split; [lia | intros _; now split].
  - rewrite andb_false_r. split; [lia|]. split; [discriminate|].
    intros s' [= <-]. split; [trivial | lia].
Qed.

(** ** The input loops *)

(** X15. [get_yes_no_input] answers with the first line that, lowered
    and stripped, reads y, yes, n or no: the lines before it are each
    refused with one reminder, the lines after it are left unread; when
    no line qualifies the input runs out and [input] raises
    [EOFError]. *)
Theorem get_yes_no_input_first_answer (prompt : string) (lines : list string) :
  let '(rest, written, r) := get_yes_no_input prompt lines in
  exists refused,
    Forall (fun line => yes_no_of line = None) refused /\
    written = asked_again (prompt ++ " (y/n): ")
                (fun _ => "Please enter 'y' or 'n'.") refused /\
    match r with
    | Answered b =>
        exists line, lines = (refused ++ line :: rest)%list /\
                     yes_no_of line = Some b
    | Interrupted i => i = EOFError /\ lines = refused /\ rest = []
    end.
Proof.
  induction lines as [|line lines IH]; simpl.
  - exists []. repeat split. constructor.
  - destruct (String.eqb (Py.strip (Py.lower line)) "y"
              || String.eqb (Py.strip (Py.lower line)) "yes") eqn:Hyes.
    + exists []. repeat split; [constructor|].
      exists line. split; trivial. unfold yes_no_of. now rewrite Hyes.
    + destruct (String.eqb (Py.strip (Py.lower line)) "n"
                || String.eqb (Py.strip (Py.lower line)) "no") eqn:Hno.
      * exists []. repeat split; [constructor|].
        exists line. split; trivial. unfold yes_no_of. now rewrite Hyes, Hno.
      * destruct (get_yes_no_input prompt lines) as [[rest written] r].
        destruct IH as (refused & Hall & -> & Hr).
        exists (line :: refused). split; [|split].
        -- constructor; trivial. unfold yes_no_of. now rewrite Hyes, Hno.
        -- reflexivity.
        -- destruct r as [b|i].
           ++ destruct Hr as (l & -> & Hl). now exists l.
           ++ destruct Hr as (-> & -> & ->). now repeat split.
Qed.

Lemma get_int_input_accepts (py_int : string -> option Z) (prompt : string)
    (min_val : Z) (lines rest : list string) (written : list event) (v : Z) :
  get_int_input py_int prompt min_val lines = (rest, written, Answered v) ->
  min_val <= v.
Proof.
  revert rest written. induction lines as [|line lines IH]; simpl;
    intros rest written H; [discriminate|].
  destruct (py_int line) as [value|].
  - destruct (min_val <=? value) eqn:Hle.
    + injection H as _ _ <-. now apply Z.leb_le.
    + destruct (get_int_input py_int prompt min_val lines) as [[r w] a].
      injection H as _ _ ->. eapply IH. reflexivity.
  - destruct (get_int_input py_int prompt min_val lines) as [[r w] a].
    injection H as _ _ ->. eapply IH. reflexivity.
Qed.

Lemma get_float_input_accepts (py_float_of : string -> option float)
    (py_str_float : float -> string) (prompt : string) (min_val : pynum)
    (lines rest : list string) (written : list event) (v : float) :
  get_float_input py_float_of py_str_float prompt min_val lines
    = (rest, written, Answered v) ->
  Py.float_ge v min_val = true.
Proof.
  revert rest written. induction lines as [|line lines IH]; simpl;
    intros rest written H; [discriminate|].
  destruct (py_float_of line) as [value|].
  - destruct (Py.float_ge value min_val) eqn:Hge.
    + now injection H as _ _ <-.
    + destruct (get_float_input py_float_of py_str_float prompt min_val lines)
        as [[r w] a].
      injection H as _ _ ->. eapply IH. reflexivity.
  - destruct (get_float_input py_float_of py_str_float prompt min_val lines)
      as [[r w] a].
    injection H as _ _ ->. eapply IH. reflexivity.
Qed.

(** A float whose specification is not the NaN is not a NaN. *)
Lemma spec_not_nan (v : float) :
  Prim2SF v <> S754_nan -> PrimFloat.is_nan v = false.
Proof.
  unfold PrimFloat.is_nan. rewrite FloatAxioms.eqb_spec.
  unfold SFeqb, SFcompare.
  destruct (Prim2SF v) as [s|s| |s m e]; intros H.
  - reflexivity.
  - now destruct s.
  - now contradiction H.
  - destruct s; rewrite Z.compare_refl, Pos.compare_cont_refl; reflexivity.
Qed.

(** No NaN is at least a number. *)
Lemma float_ge_is_number (v : float) (m : pynum) :
  Py.float_ge v m = true -> PrimFloat.is_nan v = false.
Proof.
  intros H. apply spec_not_nan. intros Hnan. destruct m as [n|f]; simpl in H.
  - unfold Py.float_ge_int in H. rewrite Hnan in H. discriminate.
  - rewrite FloatAxioms.leb_spec, Hnan in H. unfold SFleb, SFcompare in H.
    destruct (Prim2SF f); discriminate.
Qed.

(** X16. [get_int_input] answers with the first line that [int] accepts
    with a value of at least [min_val], and with that value: the lines
    before it are each refused with the reminder that fits (not an
    integer, or too small), the lines after it are left unread; when no
    line qualifies, [input] raises [EOFError]. *)
Theorem get_int_input_first_answer (py_int : string -> option Z)
    (prompt : string) (min_val : Z) (lines : list string) :
  let '(rest, written, r) := get_int_input py_int prompt min_val lines in
  exists refused,
    Forall (fun line => int_of_line py_int min_val line = None) refused /\
    written = asked_again prompt (int_reminder py_int min_val) refused /\
    match r with
    | Answered v =>
        min_val <= v /\
        exists line, lines = (refused ++ line :: rest)%list /\
                     py_int line = Some v
    | Interrupted i => i = EOFError /\ lines = refused /\ rest = []
    end.
Proof.
  induction lines as [|line lines IH]; simpl.
  - exists []. repeat split. constructor.
  - destruct (py_int line) as [value|] eqn:Hline.
    + destruct (min_val <=? value) eqn:Hle.
      * exists []. repeat split; [constructor | now apply Z.leb_le|].
        now exists line.
      * destruct (get_int_input py_int prompt min_val lines)
          as [[rest written] r].
        destruct IH as (refused & Hall & -> & Hr).
        exists (line :: refused). split; [|split].
        -- constructor; trivial. unfold int_of_line. now rewrite Hline, Hle.
        -- unfold asked_again, int_reminder. simpl. now rewrite Hline.
        -- destruct r as [v|i].
           ++ destruct Hr as (Hv & l & -> & Hl). split; trivial. now exists l.
           ++ destruct Hr as (-> & -> & ->). now repeat split.
    + destruct (get_int_input py_int prompt min_val lines)
        as [[rest written] r].
      destruct IH as (refused & Hall & -> & Hr).
      exists (line :: refused). split; [|split].
      * constructor; trivial. unfold int_of_line. now rewrite Hline.
      * unfold asked_again, int_reminder. simpl. now rewrite Hline.
      * destruct r as [v|i].
        -- destruct Hr as (Hv & l & -> & Hl). split; trivial. now exists l.
        -- destruct Hr as (-> & -> & ->). now repeat split.
Qed.

(** X17. [get_float_input] answers with the first line that [float]
    accepts with a value of at least [min_val], and with that value,
    which is therefore never a NaN; the lines before it are each refused
    with the reminder that fits, the lines after it are left unread; when
    no line qualifies, [input] raises [EOFError]. *)
Theorem get_float_input_first_answer (py_float_of : string -> option float)
    (py_str_float : float -> string) (prompt : string) (min_val : pynum)
    (lines : list string) :
  let '(rest, written, r) :=
    get_float_input py_float_of py_str_float prompt min_val lines in
  exists refused,
    Forall (fun line => float_of_line py_float_of min_val line = None) refused /\
    written = asked_again prompt
                (float_reminder py_float_of py_str_float min_val) refused /\
    match r with
    | Answered v =>
        Py.float_ge v min_val = true /\ PrimFloat.is_nan v = false /\
        exists line, lines = (refused ++ line :: rest)%list /\
                     py_float_of line = Some v
    | Interrupted i => i = EOFError /\ lines = refused /\ rest = []
    end.
Proof.
  induction lines as [|line lines IH]; simpl.
  - exists []. repeat split. constructor.
  - destruct (py_float_of line) as [value|] eqn:Hline.
    + destruct (Py.float_ge value min_val) eqn:Hge.
      * exists []. repeat split; [constructor | trivial | |].
        -- eapply float_ge_is_number; eassumption.
        -- now exists line.
      * destruct (get_float_input py_float_of py_str_float prompt min_val lines)
          as [[rest written] r].
        destruct IH as (refused & Hall & -> & Hr).
        exists (line :: refused). split; [|split].
        -- constructor; trivial. unfold float_of_line. now rewrite Hline, Hge.
        -- unfold asked_again, float_reminder. simpl. now rewrite Hline.
        -- destruct r as [v|i].
           ++ destruct Hr as (Hv & Hn & l & -> & Hl). repeat split; trivial.
              now exists l.
           ++ destruct Hr as (-> & -> & ->). now repeat split.
    + destruct (get_float_input py_float_of py_str_float prompt min_val lines)
        as [[rest written] r].
      destruct IH as (refused & Hall & -> & Hr).
      exists (line :: refused). split; [|split].
      * constructor; trivial. unfold float_of_line. now rewrite Hline.
      * unfold asked_again, float_reminder. simpl. now rewrite Hline.
      * destruct r as [v|i].
        -- destruct Hr as (Hv & Hn & l & -> & Hl). repeat split; trivial.
           now exists l.
        -- destruct Hr as (-> & -> & ->). now repeat split.
Qed.

(** ** Options 1 and 5 of the menu *)

Section Menu.

Variable py_int : string -> option Z.
Variable py_float_of : string -> option float.
Variable py_str_float : float -> string.
Variable today : string.
Variable strptime_accepts : string -> bool.

(** The answers to the questions of an entry follow the convention. *)
Lemma ask_entry_convention (weight_prompt ran_prompt : string)
    (lines rest : list string) (written : list event)
    (w : float) (ran : bool) (dist : option float) (dur : option Z)
    (n : option string) :
  ask_entry py_int py_float_of py_str_float weight_prompt ran_prompt lines
    = (rest, written, Answered (w, ran, dist, dur, n)) ->
  menu_convention w ran dist dur n.
Proof.
  unfold ask_entry, Py.seq.
  destruct (get_float_input py_float_of py_str_float weight_prompt (PyInt 0) lines)
    as [[rest1 written1] [weight|i]] eqn:Hweight; [|discriminate].
  apply get_float_input_accepts in Hweight.
  destruct (get_yes_no_input ran_prompt rest1)
    as [[rest2 written2] [answer|i]]; [|discriminate].
  assert (Hnotes : forall typed, Py.or_none (Py.strip typed) <> Some "").
  { intros typed. unfold Py.or_none.
    destruct (String.eqb (Py.strip typed) "") eqn:He; [discriminate|].
    apply String.eqb_neq in He. congruence. }
  destruct answer.
  - destruct (get_float_input py_float_of py_str_float "Distance (miles/km): "
                (PyInt 0) rest2)
      as [[rest3 written3] [distance|i]] eqn:Hdistance; [|discriminate].
    apply get_float_input_accepts in Hdistance.
    destruct (get_int_input py_int "Duration (minutes): " 0 rest3)
      as [[rest4 written4] [duration|i]] eqn:Hduration; [|discriminate].
    apply get_int_input_accepts in Hduration.
    unfold Py.ret, Py.input. simpl.
    destruct rest4 as [|typed rest5]; [discriminate|].
    intros H. injection H as _ _ <- <- <- <- <-.
    repeat split; eauto.
  - unfold Py.ret, Py.input. simpl.
    destruct rest2 as [|typed rest3]; [discriminate|].
    intros H. injection H as _ _ <- <- <- <- <-.
    repeat split; auto.
Qed.

Lemma convention_distance_kept (w : float) (ran : bool) (dist : option float)
    (dur : option Z) (n : option string) :
  menu_convention w ran dist dur n ->
  bind_optional_float dist = option_map as_stored dist.
Proof.
  intros (_ & Hrun & _). destruct ran.
  - destruct Hrun as [(x & -> & Hx) _]. simpl. unfold bind_float.
    now rewrite (float_ge_is_number _ _ Hx).
  - now destruct Hrun as [-> _].
Qed.

(** What [store_entry] leaves in the database. *)
Lemma store_entry_database (e : env) (db db' : database) (d failure_text : string)
    (w : float) (ran : bool) (dist : option float) (dur : option Z)
    (n : option string) (lines rest : list string) (written : list event)
    (r : answer unit) :
  store_entry e db d failure_text (w, ran, dist, dur, n) lines
    = (db', rest, written, r) ->
  menu_convention w ran dist dur n ->
  db' = db \/ entry_stored e db db' d w ran dist dur n.
Proof.
  unfold store_entry. intros H Hconv.
  destruct (add_entry e db (Py.str d) w ran dist dur (option_map Py.str n))
    as [[db1 out] res] eqn:Hadd.
  assert (Hdb : db1 = db'). {
    destruct res as [ok|ex]; [|now injection H].
    destruct (Py.seq _ _ lines) as [[rest0 written0] r0]. now injection H. }
  subst db1. clear H.
  destruct res as [[|]|ex].
  - right. apply add_entry_true in Hadd.
    destruct Hadd as (t & k & s & m & _ & Ht & _ & _ & Hs & Hm & ->).
    unfold Py.str in Hs. injection Hs as <-.
    assert (Hnotes : m = option_map Py.utf8 n).
    { destruct n, m; simpl in Hm; try discriminate; trivial.
      unfold Py.str in Hm. now injection Hm as <-. }
    subst m. exists t, k. split; trivial. unfold written_row.
    now rewrite (convention_distance_kept _ _ _ _ _ Hconv).
  - left. now apply add_entry_false in Hadd.
  - left. eapply add_entry_otherwise_unchanged; [exact Hadd | discriminate].
Qed.

Lemma ask_date_accepts (lines rest : list string) (written : list event)
    (d : string) :
  ask_date strptime_accepts lines = (rest, written, Answered d) ->
  strptime_accepts d = true.
Proof.
  revert rest written. induction lines as [|line lines IH]; simpl;
    intros rest written H; [discriminate|].
  destruct (strptime_accepts (Py.strip line)) eqn:Hok.
  - now injection H as _ _ <-.
  - destruct (ask_date strptime_accepts lines) as [[r w] a].
    injection H as _ _ ->. eapply IH. reflexivity.
Qed.

(** X18. The menu keeps the convention of the store: whatever is
    typed, option 1 and option 5 leave the database as it was or with
    one entry stored for the answers that the questions got from the
    typed lines (the texts in UTF-8, a zero weight or distance without
    its sign), under today's date or under the date that [strptime]
    accepted; these answers are a weight of at least 0, with a distance
    and a duration of at least 0 when the user ran and with neither when
    not, and notes that are absent rather than empty. *)
Theorem menu_entries_keep_convention (e : env) (db : database)
    (lines : list string) :
  (let '(db', _, _, _) :=
     add_today_entry py_int py_float_of py_str_float today e db lines in
   db' = db \/
   exists rest written w ran dist dur n,
     ask_entry py_int py_float_of py_str_float
       "Enter your weight (lbs/kg): " "Did you run today?" lines
       = (rest, written, Answered (w, ran, dist, dur, n)) /\
     entry_stored e db db' today w ran dist dur n /\
     menu_convention w ran dist dur n) /\
  (let '(db', _, _, _) :=
     add_dated_entry py_int py_float_of py_str_float strptime_accepts e db lines in
   db' = db \/
   exists rest0 written0 rest written d w ran dist dur n,
     ask_date strptime_accepts lines = (rest0, written0, Answered d) /\
     strptime_accepts d = true /\
     ask_entry py_int py_float_of py_str_float
       "Enter weight (lbs/kg): " "Did you run on this day?" rest0
       = (rest, written, Answered (w, ran, dist, dur, n)) /\
     entry_stored e db db' d w ran dist dur n /\
     menu_convention w ran dist dur n).
Proof.
  split.
  - unfold add_today_entry, Py.seq, clear_screen, Py.print.
    destruct (ask_entry py_int py_float_of py_str_float
                "Enter your weight (lbs/kg): " "Did you run today?" lines)
      as [[rest written] [[[[[w ran] dist] dur] n]|i]] eqn:Hask;
      [|now left].
    pose proof (ask_entry_convention _ _ _ _ _ _ _ _ _ _ Hask) as Hconv.
    destruct (store_entry e db today " Failed to add entry."
                (w, ran, dist, dur, n) rest)
      as [[[db' rest'] written'] r'] eqn:Hstore.
    destruct (store_entry_database _ _ _ _ _ _ _ _ _ _ _ _ _ _ Hstore Hconv)
      as [Hsame|Hstored]; [now left | right].
    now exists rest, written, w, ran, dist, dur, n.
  - unfold add_dated_entry, Py.seq, clear_screen, Py.print.
    destruct (ask_date strptime_accepts lines)
      as [[rest0 written0] [d|i]] eqn:Hdate; [|now left].
    pose proof (ask_date_accepts _ _ _ _ Hdate) as Hd.
    destruct (ask_entry py_int py_float_of py_str_float
                "Enter weight (lbs/kg): " "Did you run on this day?" rest0)
      as [[rest written] [[[[[w ran] dist] dur] n]|i]] eqn:Hask;
      [|now left].
    pose proof (ask_entry_convention _ _ _ _ _ _ _ _ _ _ Hask) as Hconv.
    unfold Py.ret.
    destruct (store_entry e db d "Failed to add entry."
                (w, ran, dist, dur, n) rest)
      as [[[db' rest'] written'] r'] eqn:Hstore.
    destruct (store_entry_database _ _ _ _ _ _ _ _ _ _ _ _ _ _ Hstore Hconv)
      as [Hsame|Hstored]; [now left | right].
    now exists rest0, written0, rest, written, d, w, ran, dist, dur, n.
Qed.

End Menu.

(** The two exceptions that [add_entry] lets out. *)
Lemma add_entry_escape (e : env) (db db' : database) (out : list string)
    (ex : exn) (d : pystr) (w : float) (r : bool) (dist : option float)
    (dur : option Z) (n : option pystr) :
  add_entry e db d w r dist dur n = (db', out, Raises ex) ->
  db' = db /\ out = [] /\
  (ex = OverflowError overflow_message \/ ex = UnicodeEncodeError).
Proof.
  intros H. apply add_entry_raises in H.
  destruct H as (-> & -> & Htry & Hex). repeat split.
  apply add_entry_try_raises in Htry.
  destruct Htry as [[msg ->]|(_ & _ & [[-> _]|[-> _]])];
    [now contradiction (Hex msg) | now right | now left].
Qed.

Lemma add_entry_overflows (e : env) (db : database) (t : table)
    (s : string) (w : float) (r : bool) (dist : option float) (j : Z)
    (n : option pystr) :
  healthy e -> fitness_log db = Some t -> fits_int64 j = false ->
  add_entry e db (Str s) w r dist (Some j) n
    = (db, [], Raises (OverflowError overflow_message)).
Proof.
  unfold healthy, add_entry, add_entry_try, connect, prepare, bind_int.
  intros -> -> Hj. simpl. unfold bind_int. now rewrite Hj.
Qed.

(** The input loops end early only at the end of the input. *)
Lemma get_yes_no_input_interrupt (prompt : string) (lines rest : list string)
    (written : list event) (i : interrupt) :
  get_yes_no_input prompt lines = (rest, written, Interrupted i) -> i = EOFError.
Proof.
  revert rest written. induction lines as [|line lines IH]; simpl;
    intros rest written H; [now injection H|].
  destruct (String.eqb (Py.strip (Py.lower line)) "y"
            || String.eqb (Py.strip (Py.lower line)) "yes"); [discriminate|].
  destruct (String.eqb (Py.strip (Py.lower line)) "n"
            || String.eqb (Py.strip (Py.lower line)) "no"); [discriminate|].
  destruct (get_yes_no_input prompt lines) as [[r w] a].
  injection H as _ _ ->. eapply IH. reflexivity.
Qed.

Lemma get_int_input_interrupt (py_int : string -> option Z) (prompt : string)
    (min_val : Z) (lines rest : list string) (written : list event)
    (i : interrupt) :
  get_int_input py_int prompt min_val lines = (rest, written, Interrupted i) ->
  i = EOFError.
Proof.
  revert rest written. induction lines as [|line lines IH]; simpl;
    intros rest written H; [now injection H|].
  destruct (py_int line) as [value|];
    [destruct (min_val <=? value); [discriminate|]|];
    destruct (get_int_input py_int prompt min_val lines) as [[r w] a];
    injection H as _ _ ->; eapply IH; reflexivity.
Qed.

Lemma get_float_input_interrupt (py_float_of : string -> option float)
    (py_str_float : float -> string) (prompt : string) (min_val : pynum)
    (lines rest : list string) (written : list event) (i : interrupt) :
  get_float_input py_float_of py_str_float prompt min_val lines
    = (rest, written, Interrupted i) ->
  i = EOFError.
Proof.
  revert rest written. induction lines as [|line lines IH]; simpl;
    intros rest written H; [now injection H|].
  destruct (py_float_of line) as [value|];
    [destruct (Py.float_ge value min_val); [discriminate|]|];
    destruct (get_float_input py_float_of py_str_float prompt min_val lines)
      as [[r w] a];
    injection H as _ _ ->; eapply IH; reflexivity.
Qed.

Lemma ask_date_interrupt (strptime_accepts : string -> bool)
    (lines rest : list string) (written : list event) (i : interrupt) :
  ask_date strptime_accepts lines = (rest, written, Interrupted i) ->
  i = EOFError.
Proof.
  revert rest written. induction lines as [|line lines IH]; simpl;
    intros rest written H; [now injection H|].
  destruct (strptime_accepts (Py.strip line)); [discriminate|].
  destruct (ask_date strptime_accepts lines) as [[r w] a].
  injection H as _ _ ->. eapply IH. reflexivity.
Qed.

Section MenuErrors.

Variable py_int : string -> option Z.
Variable py_float_of : string -> option float.
Variable py_str_float : float -> string.
Variable today : string.
Variable strptime_accepts : string -> bool.

Lemma store_entry_escape (e : env) (db db' : database) (d failure_text : string)
    (form : float * bool * option float * option Z * option string)
    (lines rest : list string) (written : list event) (ex : exn) :
  store_entry e db d failure_text form lines
    = (db', rest, written, Interrupted (Escaped ex)) ->
  (ex = OverflowError overflow_message \/ ex = UnicodeEncodeError) /\ db' = db.
Proof.
  unfold store_entry. destruct form as [[[[w ran] dist] dur] n].
  destruct (add_entry e db (Py.str d) w ran dist dur (option_map Py.str n))
    as [[db1 out] [ok|ex']] eqn:Hadd.
  - unfold Py.seq, Py.print, Py.input, Py.ret.
    destruct lines; intros H; discriminate.
  - intros H. injection H as <- _ _ <-.
    apply add_entry_escape in Hadd. destruct Hadd as (-> & _ & Hex).
    now split.
Qed.

(** X19. No database error leaves the menu: when option 1 or option 5
    ends with an exception of the store, that exception is one of the
    two that the binding of the parameters raises, [OverflowError] or
    [UnicodeEncodeError], never [sqlite3.Error], and the database is as
    it was. *)
Theorem menu_lets_out_binding_errors_only (e : env) (db : database)
    (lines : list string) :
  (let '(db', _, _, r) :=
     add_today_entry py_int py_float_of py_str_float today e db lines in
   forall ex, r = Interrupted (Escaped ex) ->
              (ex = OverflowError overflow_message \/ ex = UnicodeEncodeError)
              /\ db' = db) /\
  (let '(db', _, _, r) :=
     add_dated_entry py_int py_float_of py_str_float strptime_accepts e db lines in
   forall ex, r = Interrupted (Escaped ex) ->
              (ex = OverflowError overflow_message \/ ex = UnicodeEncodeError)
              /\ db' = db).
Proof.
  assert (Hask : forall wp rp ls rest written i,
    ask_entry py_int py_float_of py_str_float wp rp ls
      = (rest, written, Interrupted i) -> i = EOFError).
  { intros wp rp ls rest written i. unfold ask_entry, Py.seq.
    destruct (get_float_input py_float_of py_str_float wp (PyInt 0) ls)
      as [[rest1 written1] [weight|i1]] eqn:Hw.
    2:{ apply get_float_input_interrupt in Hw. now intros [= _ _ <-]. }
    destruct (get_yes_no_input rp rest1)
      as [[rest2 written2] [answer|i2]] eqn:Hr.
    2:{ apply get_yes_no_input_interrupt in Hr. now intros [= _ _ <-]. }
    destruct answer.
    - destruct (get_float_input py_float_of py_str_float
                  "Distance (miles/km): " (PyInt 0) rest2)
        as [[rest3 written3] [distance|i3]] eqn:Hd.
      2:{ apply get_float_input_interrupt in Hd. now intros [= _ _ <-]. }
      destruct (get_int_input py_int "Duration (minutes): " 0 rest3)
        as [[rest4 written4] [duration|i4]] eqn:Hj.
      2:{ apply get_int_input_interrupt in Hj. now intros [= _ _ <-]. }
      unfold Py.ret, Py.input. simpl.
      destruct rest4; [now intros [= _ _ <-] | discriminate].
    - unfold Py.ret, Py.input. simpl.
      destruct rest2; [now intros [= _ _ <-] | discriminate]. }
  split.
  - unfold add_today_entry, Py.seq, clear_screen, Py.print.
    destruct (ask_entry py_int py_float_of py_str_float
                "Enter your weight (lbs/kg): " "Did you run today?" lines)
      as [[rest written] [form|i]] eqn:Hform.
    + destruct (store_entry e db today " Failed to add entry." form rest)
        as [[[db' rest'] written'] r'] eqn:Hstore.
      intros ex Hr. subst r'. eapply store_entry_escape; eassumption.
    + intros ex Hr. apply Hask in Hform. subst i. discriminate.
  - unfold add_dated_entry, Py.seq, clear_screen, Py.print.
    destruct (ask_date strptime_accepts lines)
      as [[rest0 written0] [d|i]] eqn:Hdate.
    + destruct (ask_entry py_int py_float_of py_str_float
                  "Enter weight (lbs/kg): " "Did you run on this day?" rest0)
        as [[rest written] [form|i]] eqn:Hform.
      * unfold Py.ret.
        destruct (store_entry e db d "Failed to add entry." form rest)
          as [[[db' rest'] written'] r'] eqn:Hstore.
        intros ex Hr. subst r'. eapply store_entry_escape; eassumption.
      * intros ex Hr. apply Hask in Hform. subst i. discriminate.
    + intros ex Hr. apply ask_date_interrupt in Hdate. subst i. discriminate.
Qed.

Lemma get_float_input_head (prompt : string) (min_val : pynum)
    (line : string) (rest : list string) (v : float) :
  float_of_line py_float_of min_val line = Some v ->
  get_float_input py_float_of py_str_float prompt min_val (line :: rest)
    = (rest, [Prompted prompt], Answered v).
Proof.
  unfold float_of_line. simpl. destruct (py_float_of line) as [value|];
    [|discriminate].
  destruct (Py.float_ge value min_val); [|discriminate].
  now intros [= ->].
Qed.

Lemma get_int_input_head (prompt : string) (min_val : Z)
    (line : string) (rest : list string) (v : Z) :
  int_of_line py_int min_val line = Some v ->
  get_int_input py_int prompt min_val (line :: rest)
    = (rest, [Prompted prompt], Answered v).
Proof.
  unfold int_of_line. simpl. destruct (py_int line) as [value|];
    [|discriminate].
  destruct (min_val <=? value); [|discriminate].
  now intros [= ->].
Qed.

Lemma get_yes_no_input_head (prompt line : string) (rest : list string)
    (b : bool) :
  yes_no_of line = Some b ->
  get_yes_no_input prompt (line :: rest)
    = (rest, [Prompted (prompt ++ " (y/n): ")], Answered b).
Proof.
  unfold yes_no_of. simpl.
  destruct (String.eqb (Py.strip (Py.lower line)) "y"
            || String.eqb (Py.strip (Py.lower line)) "yes").
  - now intros [= <-].
  - destruct (String.eqb (Py.strip (Py.lower line)) "n"
              || String.eqb (Py.strip (Py.lower line)) "no");
      [now intros [= <-] | discriminate].
Qed.

(** X20. A duration beyond 64 bits ends option 1 with an exception: when
    the storage works and the table is there, and the user types an
    accepted weight, says she ran, types an accepted distance and a
    duration above 2^63 - 1 and any notes, the [OverflowError] of
    [add_entry] leaves the option uncaught, before any verdict is
    printed, and the database is as it was. *)
Theorem long_duration_ends_the_option (e : env) (db : database) (t : table)
    (lw lr ld lj ln : string) (rest : list string) (w x : float) (j : Z) :
  healthy e -> fitness_log db = Some t ->
  float_of_line py_float_of (PyInt 0) lw = Some w ->
  yes_no_of lr = Some true ->
  float_of_line py_float_of (PyInt 0) ld = Some x ->
  int_of_line py_int 0 lj = Some j ->
  max_int64 < j ->
  add_today_entry py_int py_float_of py_str_float today e db
      (lw :: lr :: ld :: lj :: ln :: rest)
  = (db, rest,
     [ Cleared; Printed "ADD TODAY'S ENTRY"; Printed "--------------------";
       Printed ("Date: " ++ today);
       Prompted "Enter your weight (lbs/kg): ";
       Prompted "Did you run today? (y/n): ";
       Prompted "Distance (miles/km): ";
       Prompted "Duration (minutes): ";
       Prompted "Notes (optional): " ],
     Interrupted (Escaped (OverflowError overflow_message))).
Proof.
  intros He Ht Hw Hr Hd Hj Hbig.
  unfold add_today_entry, ask_entry, Py.seq, clear_screen, Py.print.
  rewrite (get_float_input_head _ _ _ _ _ Hw).
  rewrite (get_yes_no_input_head _ _ _ _ Hr).
  rewrite (get_float_input_head _ _ _ _ _ Hd).
  rewrite (get_int_input_head _ _ _ _ _ Hj).
  unfold Py.input, Py.ret, store_entry, Py.str. cbn [fst snd].
  rewrite (add_entry_overflows e db t); trivial.
  unfold fits_int64. apply andb_false_iff. right. now apply Z.leb_gt.
Qed.

End MenuErrors.

Lemma long_duration_ends_the_option_witness :
  add_today_entry SampleConsole.plain_int SampleConsole.plain_float
      SampleConsole.plain_str_float "2024-06-15" Sample.e15 Sample.fresh
      SampleConsole.a_long_run
  = (Sample.fresh, [""],
     [ Cleared; Printed "ADD TODAY'S ENTRY"; Printed "--------------------";
       Printed ("Date: " ++ "2024-06-15");
       Prompted "Enter your weight (lbs/kg): ";
       Prompted "Did you run today? (y/n): ";
       Prompted "Distance (miles/km): ";
       Prompted "Duration (minutes): ";
       Prompted "Notes (optional): " ],
     Interrupted (Escaped (OverflowError overflow_message))).
Proof.
  apply (long_duration_ends_the_option SampleConsole.plain_int
           SampleConsole.plain_float SampleConsole.plain_str_float "2024-06-15"
           Sample.e15 Sample.fresh (mkTable fitness_log_columns [] 0)
           "70.5" "y" "5" "9223372036854775808" "" [""]
           70.5%float 5%float 9223372036854775808).
  - reflexivity.
  - reflexivity.
  - reflexivity.
  - reflexivity.
  - reflexivity.
  - reflexivity.
  - reflexivity.
Defined.

(** ** Blanks around an answer *)

Lemma lower_char_space (c : ascii) :
  Py.is_space c = true -> Py.lower_char c = c.
Proof.
  destruct c as [[|] [|] [|] [|] [|] [|] [|] [|]]; vm_compute;
    intros H; try reflexivity; discriminate.
Qed.

Lemma lower_blank (s : string) : blank s -> Py.lower s = s.
Proof.
  induction s as [|c s IH]; simpl; trivial.
  intros [Hc Hs]. now rewrite (lower_char_space c Hc), IH.
Qed.

Lemma lower_append (s t : string) : Py.lower (s ++ t) = Py.lower s ++ Py.lower t.
Proof. induction s as [|c s IH]; simpl; [|rewrite IH]; reflexivity. Qed.

Lemma lstrip_blank_prefix (ws s : string) :
  blank ws -> Py.lstrip (ws ++ s) = Py.lstrip s.
Proof.
  induction ws as [|c ws IH]; simpl; trivial.
  intros [Hc Hws]. rewrite Hc. now apply IH.
Qed.

Lemma lstrip_blank (ws : string) : blank ws -> Py.lstrip ws = "".
Proof.
  induction ws as [|c ws IH]; simpl; trivial.
  intros [Hc Hws]. rewrite Hc. now apply IH.
Qed.

Lemma rstrip_blank (ws : string) : blank ws -> Py.rstrip ws = "".
Proof.
  induction ws as [|c ws IH]; simpl; trivial.
  intros [Hc Hws]. now rewrite (IH Hws), Hc.
Qed.

Lemma rstrip_blank_suffix (s ws : string) :
  blank ws -> Py.rstrip (s ++ ws) = Py.rstrip s.
Proof.
  intros Hws. induction s as [|c s IH]; simpl.
  - now apply rstrip_blank.
  - now rewrite IH.
Qed.

Lemma strip_blank_suffix (s ws : string) :
  blank ws -> Py.rstrip (Py.lstrip (s ++ ws)) = Py.rstrip (Py.lstrip s).
Proof.
  intros Hws. induction s as [|c s IH]; simpl.
  - now rewrite (lstrip_blank _ Hws).
  - destruct (Py.is_space c); trivial.
    now apply (rstrip_blank_suffix (String c s)).
Qed.

(** X21. Blanks do not count: a line with whitespace before and after
    it gets from [get_yes_no_input] the verdict of the line without
    them. *)
Theorem yes_no_ignores_blanks (before line after : string) :
  blank before -> blank after ->
  yes_no_of (before ++ line ++ after) = yes_no_of line.
Proof.
  intros Hb Ha. unfold yes_no_of, Py.strip.
  rewrite !lower_append, (lower_blank _ Hb), (lower_blank _ Ha).
  now rewrite (lstrip_blank_prefix _ _ Hb), (strip_blank_suffix _ _ Ha).
Qed.

Lemma yes_no_ignores_blanks_witness :
  yes_no_of ("  " ++ "Yes" ++ " ") = yes_no_of "Yes".
Proof.
  apply (yes_no_ignores_blanks "  " "Yes" " "); vm_compute; auto.
Defined.

(** ** The reports against each other *)

(** X22. The count of logged days is the length of the weight chart:
    for the same clock and the same [days] (of at most 4300 decimal
    digits), [get_running_stats] returns as total_days the number of
    pairs that [get_weight_progress] returns. *)
Theorem total_days_is_chart_length (e : env) (db : database) (t : table)
    (days : Z) :
  healthy e -> fitness_log db = Some t -> int_str_fits days = true ->
  exists s p,
    get_running_stats e db days = Returns s /\
    get_weight_progress e db days = Returns p /\
    total_days s = PyInt (Z.of_nat (List.length p)).
Proof.
  unfold healthy. intros He Ht Hdays.
  unfold get_running_stats, get_weight_progress, connect, prepare.
  rewrite He, Ht, (format_days_fits _ Hdays). cbn [bind].
  do 2 eexists. split; [reflexivity|].
  split; [reflexivity|]. cbn [total_days].
  rewrite length_map. unfold Sql.index_scan. apply or_zero_integer.
Qed.

Lemma total_days_is_chart_length_witness :
  exists s p,
    get_running_stats Sample.e15 Sample.june 30 = Returns s /\
    get_weight_progress Sample.e15 Sample.june 30 = Returns p /\
    total_days s = PyInt (Z.of_nat (List.length p)).
Proof.
  apply (total_days_is_chart_length Sample.e15 Sample.june
           (mkTable fitness_log_columns
              [ mkRow 1 "2024-06-01" 180%float false None None None
                      "2024-06-15 12:00:00";
                mkRow 2 "2024-06-02" 179.5%float true
                      (Some 0x1.8cccccccccccdp+1%float) (Some 28) None
                      "2024-06-15 12:00:00" ]
              2) 30).
  - reflexivity.
  - reflexivity.
  - reflexivity.
Defined.

(** X23. A smaller limit gives a prefix: for limits [n] and [m] within
    64 bits with [0 <= n], and [n <= m] or [m] negative,
    [get_recent_entries(n)] is the first [n] entries of
    [get_recent_entries(m)], and raises what it raises. *)
Theorem smaller_limit_is_prefix (e : env) (db : database) (n m : Z) :
  0 <= n <= max_int64 -> min_int64 <= m <= max_int64 ->
  n <= m \/ m < 0 ->
  get_recent_entries e db n
  = (l <- get_recent_entries e db m ;; Returns (firstn (Z.to_nat n) l)).
Proof.
  intros Hn Hm Hnm.
  unfold get_recent_entries, connect, prepare, bind_int, fits_int64.
  destruct (fault e); simpl; trivial.
  destruct (fitness_log db) as [t|]; simpl; trivial.
  assert (Hfn : (min_int64 <=? n) && (n <=? max_int64) = true).
  { apply andb_true_iff. split; apply Z.leb_le; [unfold min_int64|]; lia. }
  assert (Hfm : (min_int64 <=? m) && (m <=? max_int64) = true).
  { apply andb_true_iff. split; apply Z.leb_le; lia. }
  rewrite Hfn, Hfm. cbn [bind]. f_equal. rewrite firstn_map. f_equal.
  unfold Sql.limit.
  destruct (n <? 0) eqn:Hneg; [apply Z.ltb_lt in Hneg; lia|].
  destruct (m <? 0) eqn:Hmneg; trivial.
  apply Z.ltb_ge in Hmneg. rewrite firstn_firstn. f_equal. lia.
Qed.

Lemma smaller_limit_is_prefix_witness :
  get_recent_entries Sample.e15 Sample.january 1
  = (l <- get_recent_entries Sample.e15 Sample.january 2 ;;
     Returns (firstn (Z.to_nat 1) l)).
Proof.
  apply (smaller_limit_is_prefix Sample.e15 Sample.january 1 2).
  - unfold max_int64. lia.
  - unfold min_int64, max_int64. lia.
  - left. lia.
Defined.
